(** * Foundation Sites MCP server: structural parser, analyzers and index

    A shallow embedding of the analysis core of the server:
    - [src/utils/parser.ts]               (module [Parser])
    - [src/engines/PluginAnalyzer.ts]     (module [PluginAnalyzer])
    - [src/engines/CodebaseIndexer.ts]    (module [CodebaseIndexer])
    - [src/engines/RefactoringAnalyzer.ts] (module [RefactoringAnalyzer])
    - [src/handlers/tools.ts]             (module [ToolHandler])
    - [src/handlers/resources.ts]         (module [ResourceHandler])
    - [src/utils/cache.ts], [src/config.ts], [src/utils/logger.ts]
                                          (modules [CacheKeys], [Config], [Logger])

    JavaScript strings are modelled as [string] (sequences of 8-bit code
    units, enough for the ASCII keywords and markers the code looks for).
    The grammars themselves (Babel, PostCSS), Node's [path] module, the
    lookup in the JSDoc table and the file system are collaborators of the
    code and are passed in as a [Platform] and a [FileSource]; the code that
    consumes their results is translated line by line.  Asynchronous
    functions become functions from a [World] (cache and trace of effects)
    to a settled result and a new world. *)

From Stdlib Require Import String Ascii List ZArith QArith Bool Lia.
From stdpp Require Import base option strings pretty gmap.
Import ListNotations.
Set Warnings "-register-all".
Local Open Scope string_scope.
Local Open Scope list_scope.

(** ** JavaScript string methods *)

Module JsString.

(** [s.startsWith(p)] *)
Definition startsWith (s p : string) : bool := String.prefix p s.

(** [s.includes(sub)] *)
Fixpoint includes (s sub : string) : bool :=
  String.prefix sub s ||
  match s with
  | EmptyString => false
  | String _ rest => includes rest sub
  end.

Definition is_upper (c : ascii) : bool :=
  let n := nat_of_ascii c in (65 <=? n)%nat && (n <=? 90)%nat.
Definition is_lower (c : ascii) : bool :=
  let n := nat_of_ascii c in (97 <=? n)%nat && (n <=? 122)%nat.
Definition is_digit (c : ascii) : bool :=
  let n := nat_of_ascii c in (48 <=? n)%nat && (n <=? 57)%nat.
Definition is_alnum (c : ascii) : bool := is_upper c || is_lower c || is_digit c.

(** the regex class [\s] restricted to 8-bit code units *)
Definition is_space (c : ascii) : bool :=
  let n := nat_of_ascii c in
  ((9 <=? n)%nat && (n <=? 13)%nat) || (n =? 32)%nat || (n =? 160)%nat.

Definition lower_char (c : ascii) : ascii :=
  if is_upper c then ascii_of_nat (nat_of_ascii c + 32) else c.
Definition upper_char (c : ascii) : ascii :=
  if is_lower c then ascii_of_nat (nat_of_ascii c - 32) else c.

Fixpoint map_chars (f : ascii -> ascii) (s : string) : string :=
  match s with
  | EmptyString => EmptyString
  | String c rest => String (f c) (map_chars f rest)
  end.

(** [s.toLowerCase()] *)
Definition toLowerCase : string -> string := map_chars lower_char.

Fixpoint trimStart (s : string) : string :=
  match s with
  | EmptyString => EmptyString
  | String c rest => if is_space c then trimStart rest else s
  end.

Fixpoint trimEnd (s : string) : string :=
  match s with
  | EmptyString => EmptyString
  | String c rest =>
      match trimEnd rest with
      | EmptyString => if is_space c then EmptyString else String c EmptyString
      | r => String c r
      end
  end.

(** [s.trim()] *)
Definition trim (s : string) : string := trimEnd (trimStart s).

(** JavaScript truthiness of a string: only the empty string is falsy. *)
Definition truthy (s : string) : bool :=
  match s with EmptyString => false | _ => true end.

(** [s || undefined] and friends: a falsy string becomes absent. *)
Definition orUndefined (s : string) : option string :=
  if truthy s then Some s else None.

(** [xs.includes(x)] on an array of strings *)
Definition arrayIncludes (xs : list string) (x : string) : bool :=
  existsb (String.eqb x) xs.

(** [if (!xs.includes(x)) xs.push(x)] *)
Definition pushUnique (xs : list string) (x : string) : list string :=
  if arrayIncludes xs x then xs else xs ++ [x].

(** longest prefix of [s] made of characters satisfying [p], and the rest *)
Fixpoint span (p : ascii -> bool) (s : string) : string * string :=
  match s with
  | EmptyString => (EmptyString, EmptyString)
  | String c rest =>
      if p c then let '(a, b) := span p rest in (String c a, b)
      else (EmptyString, s)
  end.

(** [s] without its first [n] characters *)
Fixpoint drop (n : nat) (s : string) : string :=
  match n, s with
  | O, _ => s
  | S n', String _ rest => drop n' rest
  | S _, EmptyString => EmptyString
  end.

(** [s.split(sep)] for a one-character separator *)
Fixpoint splitChar (sep : ascii) (s : string) : list string :=
  match s with
  | EmptyString => [EmptyString]
  | String c rest =>
      if Ascii.eqb c sep then EmptyString :: splitChar sep rest
      else match splitChar sep rest with
           | [] => [String c EmptyString]
           | w :: ws => String c w :: ws
           end
  end.

(** [s.replace(pat, rep)] with a string pattern: first occurrence only *)
Fixpoint replaceFirst (s pat rep : string) : string :=
  if String.prefix pat s then rep +:+ drop (String.length pat) s
  else match s with
       | EmptyString => EmptyString
       | String c rest => String c (replaceFirst rest pat rep)
       end.

Fixpoint join (sep : string) (xs : list string) : string :=
  match xs with
  | [] => EmptyString
  | [x] => x
  | x :: rest => x +:+ sep +:+ join sep rest
  end.

End JsString.

(** ** Errors and results *)

(** What a rejected promise carries. [ParseError] is the class of
    [src/types.ts]: a message and the offending source as details. *)
Inductive JsError : Type :=
| ParseError (message : string) (code : string)
| IOError (message : string).

Definition errorMessage (e : JsError) : string :=
  match e with
  | ParseError m _ => m
  | IOError m => m
  end.

(** A settled promise: rejected with an error or fulfilled with a value. *)
Inductive Result (A : Type) : Type :=
| Err (e : JsError)
| Ok (a : A).
Arguments Err {A} e.
Arguments Ok {A} a.

(** ** Syntax trees handed over by the two grammars *)

Module Babel.

(** The part of Babel's AST the visitors of [parsePlugin] look at.  Every
    other node kind is an [OtherNode] carrying its children.  Children
    are kept in the order the traversal visits them (for a class: the
    superclass, then the members; for a call: the callee, then the
    arguments).  The [body] of a class declaration is the member list
    [classDecl.body.body]. *)
Inductive Node : Type :=
| Identifier (name : string)
| StringLiteral (value : string)
| ImportDeclaration (source : string)
| ExportNamedDeclaration (declaration : option Node)
| ClassDeclaration (id : option string) (superClass : option Node) (body : list Node)
| ClassMethod (key : Node) (body : list Node)
| ClassProperty (key : Node) (value : option Node)
| MemberExpression (object property : Node)
| CallExpression (callee : Node) (arguments : list Node)
| OtherNode (children : list Node).

(** Induction principle that also covers the nodes stored in lists and
    options. *)
Section NodeInduction.
Variable P : Node -> Prop.
Definition OptP (o : option Node) : Prop :=
  match o with Some n => P n | None => True end.
Hypothesis HId : forall name, P (Identifier name).
Hypothesis HStr : forall value, P (StringLiteral value).
Hypothesis HImp : forall source, P (ImportDeclaration source).
Hypothesis HExp : forall d, OptP d -> P (ExportNamedDeclaration d).
Hypothesis HClass : forall id sup body,
    OptP sup -> Forall P body -> P (ClassDeclaration id sup body).
Hypothesis HMeth : forall key body,
    P key -> Forall P body -> P (ClassMethod key body).
Hypothesis HProp : forall key value,
    P key -> OptP value -> P (ClassProperty key value).
Hypothesis HMem : forall o p, P o -> P p -> P (MemberExpression o p).
Hypothesis HCall : forall c args,
    P c -> Forall P args -> P (CallExpression c args).
Hypothesis HOther : forall cs, Forall P cs -> P (OtherNode cs).

Fixpoint Node_ind_nested (n : Node) : P n :=
  let fix onList (l : list Node) : Forall P l :=
    match l with
    | [] => @List.Forall_nil _ P
    | x :: r => @List.Forall_cons _ P x r (Node_ind_nested x) (onList r)
    end in
  match n with
  | Identifier name => HId name
  | StringLiteral value => HStr value
  | ImportDeclaration source => HImp source
  | ExportNamedDeclaration d =>
      HExp d (match d with Some x => Node_ind_nested x | None => I end)
  | ClassDeclaration id sup body =>
      HClass id sup body
        (match sup with Some x => Node_ind_nested x | None => I end)
        (onList body)
  | ClassMethod key body => HMeth key body (Node_ind_nested key) (onList body)
  | ClassProperty key value =>
      HProp key value (Node_ind_nested key)
        (match value with Some x => Node_ind_nested x | None => I end)
  | MemberExpression o p => HMem o p (Node_ind_nested o) (Node_ind_nested p)
  | CallExpression c args => HCall c args (Node_ind_nested c) (onList args)
  | OtherNode cs => HOther cs (onList cs)
  end.
End NodeInduction.

End Babel.

Module PostCss.

(** PostCSS nodes.  Containers keep their children in source order.  A
    declaration has children only for the nested-property form of the
    SCSS syntax. *)
Inductive Node : Type :=
| Comment (text : string)
| Decl (prop value : string) (nodes : list Node)
| AtRule (name params : string) (nodes : list Node)
| Rule (selectors : list string) (nodes : list Node).

(** [Root]: the top-level container. *)
Definition Root : Type := list Node.

End PostCss.

(** ** Collaborators *)

(** The grammars and the library functions the code calls.  A grammar
    either throws (left, with the message of the thrown error) or returns a
    tree.  [extractJSDoc code name] stands for the lookup [docs[name]] in
    the table the regex-driven extractor builds from the doc blocks of
    [code]; no property below depends on what it finds. *)
Record Platform : Type := {
  babelParse : string -> string + Babel.Node;
  postcssParse : string -> string + PostCss.Root;
  path_join : string -> string -> string;
  path_basename : string -> string -> string;
  path_relative : string -> string -> string;
  extractJSDoc : string -> string -> option string;
}.

(** The file source: [fs.access], [fs.readFile] and [glob]. *)
Record FileSource : Type := {
  fs_access : string -> bool;
  fs_readFile : string -> Result string;
  fs_glob : string -> string -> Result (list string);
}.

(** ** src/utils/parser.ts *)

Module Parser.
Import JsString.

(** *** parsePlugin *)

Record ParsedPlugin : Type := {
  className : string;
  methods : list string;
  properties : list string;
  events : list string;
  extendsClass : option string;
  imports : list string;
  exports : list string;
}.

(** The locals of [parsePlugin] before the traversal starts. *)
Definition initialPlugin : ParsedPlugin :=
  {| className := ""; methods := []; properties := []; events := [];
     extendsClass := None; imports := []; exports := [] |}.

Definition set_className (v : string) (st : ParsedPlugin) : ParsedPlugin :=
  {| className := v; methods := methods st; properties := properties st;
     events := events st; extendsClass := extendsClass st;
     imports := imports st; exports := exports st |}.
Definition set_methods (v : list string) (st : ParsedPlugin) : ParsedPlugin :=
  {| className := className st; methods := v; properties := properties st;
     events := events st; extendsClass := extendsClass st;
     imports := imports st; exports := exports st |}.
Definition set_properties (v : list string) (st : ParsedPlugin) : ParsedPlugin :=
  {| className := className st; methods := methods st; properties := v;
     events := events st; extendsClass := extendsClass st;
     imports := imports st; exports := exports st |}.
Definition set_events (v : list string) (st : ParsedPlugin) : ParsedPlugin :=
  {| className := className st; methods := methods st; properties := properties st;
     events := v; extendsClass := extendsClass st;
     imports := imports st; exports := exports st |}.
Definition set_extendsClass (v : option string) (st : ParsedPlugin) : ParsedPlugin :=
  {| className := className st; methods := methods st; properties := properties st;
     events := events st; extendsClass := v;
     imports := imports st; exports := exports st |}.
Definition set_imports (v : list string) (st : ParsedPlugin) : ParsedPlugin :=
  {| className := className st; methods := methods st; properties := properties st;
     events := events st; extendsClass := extendsClass st;
     imports := v; exports := exports st |}.
Definition set_exports (v : list string) (st : ParsedPlugin) : ParsedPlugin :=
  {| className := className st; methods := methods st; properties := properties st;
     events := events st; extendsClass := extendsClass st;
     imports := imports st; exports := v |}.

(** JavaScript truthiness of [extendsClass : string | null]. *)
Definition truthyOpt (o : option string) : bool :=
  match o with Some s => truthy s | None => false end.

(** [ImportDeclaration(path)] *)
Definition onImportDeclaration (source : string) (st : ParsedPlugin) : ParsedPlugin :=
  if truthy source then set_imports (imports st ++ [source]) st else st.

(** the [forEach] over the members of an exported class: no membership
    test before [push] *)
Definition exportedMember (st : ParsedPlugin) (member : Babel.Node) : ParsedPlugin :=
  match member with
  | Babel.ClassMethod (Babel.Identifier name) _ =>
      set_methods (methods st ++ [name]) st
  | Babel.ClassProperty (Babel.Identifier name) _ =>
      set_properties (properties st ++ [name]) st
  | _ => st
  end.

(** [ExportNamedDeclaration(path)] *)
Definition onExportNamedDeclaration (declaration : option Babel.Node)
    (st : ParsedPlugin) : ParsedPlugin :=
  match declaration with
  | Some (Babel.ClassDeclaration id superClass body) =>
      let st1 :=
        match id with
        | Some name => set_exports (exports st ++ [name]) (set_className name st)
        | None => st
        end in
      let st2 :=
        match superClass with
        | Some (Babel.Identifier name) => set_extendsClass (Some name) st1
        | _ => st1
        end in
      fold_left exportedMember body st2
  | _ => st
  end.

(** the [forEach] over the members of any class declaration: names
    already present are not added again *)
Definition classMember (st : ParsedPlugin) (member : Babel.Node) : ParsedPlugin :=
  match member with
  | Babel.ClassMethod (Babel.Identifier methodName) _ =>
      set_methods (pushUnique (methods st) methodName) st
  | Babel.ClassProperty (Babel.Identifier propName) _ =>
      set_properties (pushUnique (properties st) propName) st
  | _ => st
  end.

(** [ClassDeclaration(path)] *)
Definition onClassDeclaration (id : option string) (superClass : option Babel.Node)
    (body : list Babel.Node) (st : ParsedPlugin) : ParsedPlugin :=
  let st1 :=
    match id with
    | Some name => if negb (truthy (className st)) then set_className name st else st
    | None => st
    end in
  let st2 :=
    match superClass with
    | Some (Babel.Identifier name) =>
        if negb (truthyOpt (extendsClass st1)) then set_extendsClass (Some name) st1
        else st1
    | _ => st1
    end in
  fold_left classMember body st2.

(** [CallExpression(path)] *)
Definition onCallExpression (callee : Babel.Node) (arguments : list Babel.Node)
    (st : ParsedPlugin) : ParsedPlugin :=
  match callee with
  | Babel.MemberExpression _ (Babel.Identifier name) =>
      if String.eqb name "trigger" || String.eqb name "fire" then
        match arguments with
        | Babel.StringLiteral value :: _ => set_events (events st ++ [value]) st
        | _ => st
        end
      else st
  | _ => st
  end.

(** [traverse(ast, visitors)]: every node is entered before its
    children, children in source order. *)
Fixpoint traverse (n : Babel.Node) (st : ParsedPlugin) : ParsedPlugin :=
  let fix traverseAll (l : list Babel.Node) (st : ParsedPlugin) : ParsedPlugin :=
    match l with
    | [] => st
    | x :: r => traverseAll r (traverse x st)
    end in
  match n with
  | Babel.Identifier _ => st
  | Babel.StringLiteral _ => st
  | Babel.ImportDeclaration source => onImportDeclaration source st
  | Babel.ExportNamedDeclaration declaration =>
      let st1 := onExportNamedDeclaration declaration st in
      match declaration with Some d => traverse d st1 | None => st1 end
  | Babel.ClassDeclaration id superClass body =>
      let st1 := onClassDeclaration id superClass body st in
      let st2 := match superClass with Some s => traverse s st1 | None => st1 end in
      traverseAll body st2
  | Babel.ClassMethod key body => traverseAll body (traverse key st)
  | Babel.ClassProperty key value =>
      let st1 := traverse key st in
      match value with Some v => traverse v st1 | None => st1 end
  | Babel.MemberExpression object property => traverse property (traverse object st)
  | Babel.CallExpression callee arguments =>
      traverseAll arguments (traverse callee (onCallExpression callee arguments st))
  | Babel.OtherNode children => traverseAll children st
  end.

Definition traverseAll (l : list Babel.Node) (st : ParsedPlugin) : ParsedPlugin :=
  fold_left (fun st x => traverse x st) l st.

(** The record [parsePlugin] returns for a tree the grammar accepted. *)
Definition parsePluginAst (ast : Babel.Node) : ParsedPlugin :=
  traverse ast initialPlugin.

(** [parsePlugin(code)]: anything thrown inside the [try] is rethrown as
    a [ParseError] that carries the source. *)
Definition parsePlugin (P : Platform) (code : string) : Result ParsedPlugin :=
  match babelParse P code with
  | inl message =>
      Err (ParseError ("Failed to parse JavaScript plugin: " +:+ message) code)
  | inr ast => Ok (parsePluginAst ast)
  end.

(** *** parseComponent *)

Record SassVariable : Type := {
  var_name : string;
  var_defaultValue : string;
  var_description : option string;
}.

Record SassMixin : Type := {
  mixin_name : string;
  mixin_parameters : list string;
  mixin_description : option string;
}.

Record ParsedComponent : Type := {
  variables : list SassVariable;
  mixins : list SassMixin;
  classes : list string;
}.

(** [container.walk]: every descendant, each node before its children,
    in source order. *)
Fixpoint walkNode (n : PostCss.Node) : list PostCss.Node :=
  let fix walkAll (l : list PostCss.Node) : list PostCss.Node :=
    match l with
    | [] => []
    | x :: r => walkNode x ++ walkAll r
    end in
  match n with
  | PostCss.Comment _ => [n]
  | PostCss.Decl _ _ nodes => n :: walkAll nodes
  | PostCss.AtRule _ _ nodes => n :: walkAll nodes
  | PostCss.Rule _ nodes => n :: walkAll nodes
  end.

Definition walk (root : PostCss.Root) : list PostCss.Node :=
  flat_map walkNode root.

(** The mutable locals of [parseComponent]. *)
Record ComponentState : Type := {
  st_variables : list SassVariable;
  st_mixins : list SassMixin;
  st_classes : list string;
  currentComment : string;
}.

Definition initialComponent : ComponentState :=
  {| st_variables := []; st_mixins := []; st_classes := []; currentComment := "" |}.

(** callback of [walkComments] *)
Definition onComment (st : ComponentState) (n : PostCss.Node) : ComponentState :=
  match n with
  | PostCss.Comment text =>
      {| st_variables := st_variables st; st_mixins := st_mixins st;
         st_classes := st_classes st; currentComment := trim text |}
  | _ => st
  end.

(** callback of [walkDecls] *)
Definition onDecl (st : ComponentState) (n : PostCss.Node) : ComponentState :=
  match n with
  | PostCss.Decl prop value _ =>
      if startsWith prop "$" then
        {| st_variables := st_variables st ++
             [{| var_name := prop; var_defaultValue := value;
                 var_description := orUndefined (currentComment st) |}];
           st_mixins := st_mixins st; st_classes := st_classes st;
           currentComment := "" |}
      else st
  | _ => st
  end.

(** [params[1] ? params[1].replace(')', '').split(',').map(p => p.trim()) : []] *)
Definition mixinParameters (params : list string) : list string :=
  match params with
  | _ :: p1 :: _ =>
      if truthy p1 then map trim (splitChar "," (replaceFirst p1 ")" ""))
      else []
  | _ => []
  end.

(** callback of [walkAtRules] *)
Definition onAtRule (st : ComponentState) (n : PostCss.Node) : ComponentState :=
  match n with
  | PostCss.AtRule name params _ =>
      if String.eqb name "mixin" then
        let parts := splitChar "(" params in
        {| st_variables := st_variables st;
           st_mixins := st_mixins st ++
             [{| mixin_name := trim (hd "" parts);
                 mixin_parameters := mixinParameters parts;
                 mixin_description := orUndefined (currentComment st) |}];
           st_classes := st_classes st;
           currentComment := "" |}
      else st
  | _ => st
  end.

Definition is_class_char (c : ascii) : bool :=
  is_alnum c || Ascii.eqb c "_" || Ascii.eqb c "-".

(** [selector.match(/\.([a-zA-Z0-9_-]+)/g)] followed by [substring(1)] on
    every match.  [run] is the name being read after a dot, if any. *)
Fixpoint classMatches (run : option string) (s : string) : list string :=
  let flush := match run with
               | Some r => if truthy r then [r] else []
               | None => []
               end in
  match s with
  | EmptyString => flush
  | String c rest =>
      match run with
      | Some r =>
          if is_class_char c then classMatches (Some (r +:+ String c EmptyString)) rest
          else if Ascii.eqb c "." then flush ++ classMatches (Some "") rest
          else flush ++ classMatches None rest
      | None =>
          if Ascii.eqb c "." then classMatches (Some "") rest
          else classMatches None rest
      end
  end.

(** callback of [walkRules] *)
Definition onRule (st : ComponentState) (n : PostCss.Node) : ComponentState :=
  match n with
  | PostCss.Rule selectors _ =>
      {| st_variables := st_variables st; st_mixins := st_mixins st;
         st_classes :=
           fold_left (fun cs selector => fold_left pushUnique (classMatches None selector) cs)
             selectors (st_classes st);
         currentComment := currentComment st |}
  | _ => st
  end.

(** The four walks of [parseComponent], one after the other, on the tree
    the grammar returned. *)
Definition parseComponentRoot (root : PostCss.Root) : ParsedComponent :=
  let nodes := walk root in
  let st1 := fold_left onComment nodes initialComponent in
  let st2 := fold_left onDecl nodes st1 in
  let st3 := fold_left onAtRule nodes st2 in
  let st4 := fold_left onRule nodes st3 in
  {| variables := st_variables st4; mixins := st_mixins st4; classes := st_classes st4 |}.

(** [parseComponent(code)] *)
Definition parseComponent (P : Platform) (code : string) : Result ParsedComponent :=
  match postcssParse P code with
  | inl message =>
      Err (ParseError ("Failed to parse SCSS component: " +:+ message) code)
  | inr root => Ok (parseComponentRoot root)
  end.

(** *** extractSassDoc *)

(** [line.replace(/\/\/\/\s*/, '')]: the first triple slash and the
    white space after it are removed. *)
Fixpoint stripTripleSlash (line : string) : string :=
  if String.prefix "///" line then trimStart (drop 3 line)
  else match line with
       | EmptyString => EmptyString
       | String c rest => String c (stripTripleSlash rest)
       end.

(** [line.match(/@mixin\s+([a-zA-Z0-9_-]+)/)]: the capture of the first
    match. *)
Fixpoint mixinMatch (line : string) : option string :=
  match line with
  | EmptyString => None
  | String _ rest =>
      let here :=
        if String.prefix "@mixin" line then
          let '(spaces, after) := span is_space (drop 6 line) in
          let '(name, _) := span is_class_char after in
          if truthy spaces && truthy name then Some name else None
        else None in
      match here with
      | Some name => Some name
      | None => mixinMatch rest
      end
  end.

(** [line.match(/\$([a-zA-Z0-9_-]+)/)]: the capture of the first match. *)
Fixpoint varMatch (line : string) : option string :=
  match line with
  | EmptyString => None
  | String c rest =>
      let here :=
        if Ascii.eqb c "$" then
          let '(name, _) := span is_class_char rest in
          if truthy name then Some name else None
        else None in
      match here with
      | Some name => Some name
      | None => varMatch rest
      end
  end.

(** The locals of [extractSassDoc]: the table (own properties only) and
    the doc lines gathered so far. *)
Record SassDocState : Type := {
  docs : gmap string string;
  currentDoc : string;
}.

(** the body of the [for] loop over the lines *)
Definition sassDocLine (st : SassDocState) (line : string) : SassDocState :=
  let attach (m : option string) :=
    match m with
    | Some currentName =>
        {| docs := <[currentName := trim (currentDoc st)]> (docs st);
           currentDoc := "" |}
    | None => st
    end in
  if startsWith (trim line) "///" then
    {| docs := docs st;
       currentDoc := currentDoc st +:+ trim (stripTripleSlash line) +:+ " " |}
  else if truthy (currentDoc st) && includes line "@mixin" then attach (mixinMatch line)
  else if truthy (currentDoc st) && includes line "$" then attach (varMatch line)
  else if truthy (currentDoc st) && String.eqb (trim line) "" then st
  else if truthy (currentDoc st) then {| docs := docs st; currentDoc := "" |}
  else st.

(** [extractSassDoc(code)] *)
Definition extractSassDoc (code : string) : gmap string string :=
  docs (fold_left sassDocLine (splitChar (ascii_of_nat 10) code)
          {| docs := ∅; currentDoc := "" |}).

(** *** isFoundationPlugin, isFoundationComponent *)

Definition isFoundationPlugin (parsed : ParsedPlugin) : bool :=
  match extendsClass parsed with
  | Some c => String.eqb c "Plugin"
  | None => false
  end
  && arrayIncludes (methods parsed) "_init"
  && arrayIncludes (methods parsed) "_destroy".

Definition isFoundationComponent (parsed : ParsedComponent) : bool :=
  (0 <? length (variables parsed))%nat && (0 <? length (mixins parsed))%nat.

End Parser.

(** ** src/types.ts: the catalog *)

Record FoundationPlugin : Type := {
  plugin_name : string;
  plugin_slug : string;
  plugin_path : string;
  plugin_description : string;
  plugin_className : string;
  plugin_selector : string;
  plugin_supportsNesting : bool;
  plugin_deprecatedInVersion : option string;
  plugin_docs : string;
}.

Record FoundationComponent : Type := {
  component_name : string;
  component_slug : string;
  component_scssPath : string;
  component_description : string;
  component_mixins : list string;
  component_cssClasses : list string;
  component_docs : string;
}.

Record FoundationUtility : Type := {
  utility_name : string;
  utility_slug : string;
  utility_path : string;
  utility_description : string;
  utility_exports : list string;
}.

Record FoundationGrid : Type := {
  grid_name : string;
  grid_slug : string;
  grid_scssPath : string;
  grid_description : string;
}.

Record FoundationIndex : Type := {
  plugins : list FoundationPlugin;
  components : list FoundationComponent;
  utilities : list FoundationUtility;
  grids : list FoundationGrid;
}.

(** ** The world the asynchronous code runs in *)

Inductive LogLevel : Type := debug | info | warn | error.

(** What the code does to its collaborators, in the order it does it. *)
Inductive Event : Type :=
| Logged (level : LogLevel) (message : string) (meta : string)
| Accessed (path : string)
| ReadFile (path : string)
| Globbed (dir pattern : string).

(** The mutable part: the cache ([MemoryCache] behind [CacheInterface],
    as a finite map from keys to values; expiry and eviction are governed
    by wall-clock time and capacity and are not part of this model) and the
    trace of effects so far. *)
Record World : Type := {
  cache : gmap string FoundationIndex;
  trace : list Event;
}.

Module Async.

(** An [async] function: reads the world, settles, leaves a world. *)
Definition M (A : Type) : Type := World -> Result A * World.

Definition ret {A} (a : A) : M A := fun w => (Ok a, w).
Definition throw {A} (e : JsError) : M A := fun w => (Err e, w).

Definition bind {A B} (m : M A) (k : A -> M B) : M B :=
  fun w =>
    match m w with
    | (Ok a, w') => k a w'
    | (Err e, w') => (Err e, w')
    end.

(** [try { body } catch (error) { handler }] *)
Definition tryCatch {A} (body : M A) (handler : JsError -> M A) : M A :=
  fun w =>
    match body w with
    | (Ok a, w') => (Ok a, w')
    | (Err e, w') => handler e w'
    end.

(** A settled promise becomes the outcome of the [await]. *)
Definition lift {A} (r : Result A) : M A := fun w => (r, w).

Definition emit (ev : Event) : M unit :=
  fun w => (Ok tt, {| cache := cache w; trace := trace w ++ [ev] |}).

Definition logger (level : LogLevel) (message meta : string) : M unit :=
  emit (Logged level message meta).

(** [MemoryCache.get], [set] and [delete] *)
Definition cacheGet (key : string) : M (option FoundationIndex) :=
  fun w => (Ok (cache w !! key), w).
Definition cacheSet (key : string) (value : FoundationIndex) : M unit :=
  fun w => (Ok tt, {| cache := <[key := value]> (cache w); trace := trace w |}).

(** [fileExists]: [fs.access] inside a [try]; never rejects. *)
Definition fileExists (fs : FileSource) (filePath : string) : M bool :=
  bind (emit (Accessed filePath)) (fun _ => ret (fs_access fs filePath)).

(** [readFile] *)
Definition readFile (fs : FileSource) (filePath : string) : M string :=
  bind (emit (ReadFile filePath)) (fun _ => lift (fs_readFile fs filePath)).

(** [findFiles] *)
Definition findFiles (fs : FileSource) (baseDir pattern : string) : M (list string) :=
  bind (emit (Globbed baseDir pattern)) (fun _ => lift (fs_glob fs baseDir pattern)).

Module Notations.
Notation "x <- m ;; k" := (bind m (fun x => k))
  (at level 100, m at next level, right associativity).
Notation "m1 ;;; m2" := (bind m1 (fun _ => m2))
  (at level 100, right associativity).
End Notations.

End Async.

(** ** src/engines/CodebaseIndexer.ts *)

Module CodebaseIndexer.
Import JsString Parser Async Async.Notations.

(** [CacheKeys.pluginIndex()] and [CacheKeys.componentIndex()] *)
Definition pluginIndexKey : string := "foundation:plugins:index".
Definition componentIndexKey : string := "foundation:components:index".

(** [docs[name] || fallback] *)
Definition orElse (o : option string) (fallback : string) : string :=
  match o with
  | Some s => if truthy s then s else fallback
  | None => fallback
  end.

Definition is_data_char (c : ascii) : bool := is_lower c || Ascii.eqb c "-".

(** [content.match(/\[data-([a-z-]+)\]/)]: the capture of the first match *)
Fixpoint selectorMatch (s : string) : option string :=
  match s with
  | EmptyString => None
  | String _ rest =>
      let here :=
        if String.prefix "[data-" s then
          let '(name, after) := span is_data_char (drop 6 s) in
          if truthy name && String.prefix "]" after then Some name else None
        else None in
      match here with
      | Some name => Some name
      | None => selectorMatch rest
      end
  end.

Section Indexer.
Variable P : Platform.
Variable fs : FileSource.
(** [config.foundationRepoPath] *)
Variable foundationRepoPath : string.

(** [parsePluginFile(filePath)] *)
Definition parsePluginFile (filePath : string) : M (option FoundationPlugin) :=
  content <- readFile fs filePath ;;
  parsed <- lift (parsePlugin P content) ;;
  if negb (truthy (className parsed)) then ret None
  else
    let filename := path_basename P filePath ".js" in
    let slug := replaceFirst filename "foundation." "" in
    let selector :=
      match selectorMatch content with
      | Some m => "[data-" +:+ m +:+ "]"
      | None => "[data-" +:+ slug +:+ "]"
      end in
    let supportsNesting := includes content "nested" || includes content "Nest" in
    ret (Some
      {| plugin_name := className parsed;
         plugin_slug := slug;
         plugin_path := path_relative P foundationRepoPath filePath;
         plugin_description :=
           orElse (extractJSDoc P content (className parsed))
                  (className parsed +:+ " plugin");
         plugin_className := className parsed;
         plugin_selector := selector;
         plugin_supportsNesting := supportsNesting;
         plugin_deprecatedInVersion := None;
         plugin_docs := "https://get.foundation/sites/docs/" +:+ slug +:+ ".html" |}).

(** the body of the [for] loop of [indexPlugins] *)
Definition indexPluginFile (acc : list FoundationPlugin) (file : string)
    : M (list FoundationPlugin) :=
  if includes file "foundation.util." || includes file "foundation.core."
     || includes file "foundation.js"
  then ret acc
  else
    tryCatch
      (plugin <- parsePluginFile file ;;
       match plugin with
       | Some p => ret (acc ++ [p])
       | None => ret acc
       end)
      (fun e =>
         logger warn ("Failed to parse plugin file: " +:+ file) (errorMessage e) ;;;
         ret acc).

(** a [for (const file of files)] loop that threads an accumulator *)
Fixpoint forEachFile {A} (body : A -> string -> M A) (files : list string) (acc : A)
    : M A :=
  match files with
  | [] => ret acc
  | file :: rest => acc' <- body acc file ;; forEachFile body rest acc'
  end.

(** [indexPlugins()] *)
Definition indexPlugins : M (list FoundationPlugin) :=
  let jsDir := path_join P foundationRepoPath "js" in
  pluginFiles <- findFiles fs jsDir "foundation.*.js" ;;
  forEachFile indexPluginFile pluginFiles [].

Definition capitalize (word : string) : string :=
  match word with
  | EmptyString => EmptyString
  | String c rest => String (upper_char c) rest
  end.

(** [parseComponentFile(filePath)] *)
Definition parseComponentFile (filePath : string) : M (option FoundationComponent) :=
  content <- readFile fs filePath ;;
  parsed <- lift (parseComponent P content) ;;
  let filename := path_basename P filePath ".scss" in
  let slug := if startsWith filename "_" then drop 1 filename else filename in
  let name := join " " (map capitalize (splitChar "-" slug)) in
  ret (Some
    {| component_name := name;
       component_slug := slug;
       component_scssPath := path_relative P foundationRepoPath filePath;
       component_description :=
         orElse (extractSassDoc content !! slug) (name +:+ " component");
       component_mixins := map mixin_name (mixins parsed);
       component_cssClasses := classes parsed;
       component_docs := "https://get.foundation/sites/docs/" +:+ slug +:+ ".html" |}).

Definition indexComponentFile (acc : list FoundationComponent) (file : string)
    : M (list FoundationComponent) :=
  tryCatch
    (component <- parseComponentFile file ;;
     match component with
     | Some c => ret (acc ++ [c])
     | None => ret acc
     end)
    (fun e =>
       logger warn ("Failed to parse component file: " +:+ file) (errorMessage e) ;;;
       ret acc).

(** [indexComponents()] *)
Definition indexComponents : M (list FoundationComponent) :=
  let scssDir := path_join P foundationRepoPath "scss/components" in
  componentFiles <- findFiles fs scssDir "*.scss" ;;
  forEachFile indexComponentFile componentFiles [].

(** [slug.split(/(?=[A-Z])/).join(' ')]: a space before every capital
    that is not the first character *)
Fixpoint spaceBeforeCapitals (s : string) : string :=
  match s with
  | EmptyString => EmptyString
  | String c rest =>
      if is_upper c then String " " (String c (spaceBeforeCapitals rest))
      else String c (spaceBeforeCapitals rest)
  end.

Definition is_word_char (c : ascii) : bool := is_alnum c || Ascii.eqb c "_".

(** [.replace(/^\w/, c => c.toUpperCase())] *)
Definition upperFirstWordChar (s : string) : string :=
  match s with
  | EmptyString => EmptyString
  | String c rest => if is_word_char c then String (upper_char c) rest else s
  end.

Definition utilityName (slug : string) : string :=
  upperFirstWordChar
    match slug with
    | EmptyString => EmptyString
    | String c rest => String c (spaceBeforeCapitals rest)
    end.

(** [parseUtilityFile(filePath)] *)
Definition parseUtilityFile (filePath : string) : M (option FoundationUtility) :=
  content <- readFile fs filePath ;;
  parsed <- lift (parsePlugin P content) ;;
  let filename := path_basename P filePath ".js" in
  let slug := replaceFirst filename "foundation.util." "" in
  let name := utilityName slug in
  ret (Some
    {| utility_name := name;
       utility_slug := slug;
       utility_path := path_relative P foundationRepoPath filePath;
       utility_description :=
         orElse (extractJSDoc P content (className parsed)) (name +:+ " utility");
       utility_exports := exports parsed |}).

Definition indexUtilityFile (acc : list FoundationUtility) (file : string)
    : M (list FoundationUtility) :=
  tryCatch
    (utility <- parseUtilityFile file ;;
     match utility with
     | Some u => ret (acc ++ [u])
     | None => ret acc
     end)
    (fun e =>
       logger warn ("Failed to parse utility file: " +:+ file) (errorMessage e) ;;;
       ret acc).

(** [indexUtilities()] *)
Definition indexUtilities : M (list FoundationUtility) :=
  let jsDir := path_join P foundationRepoPath "js" in
  utilityFiles <- findFiles fs jsDir "foundation.util.*.js" ;;
  forEachFile indexUtilityFile utilityFiles [].

(** [indexGrids()] *)
Definition indexGrids : M (list FoundationGrid) :=
  ret [ {| grid_name := "XY Grid"; grid_slug := "xy-grid";
           grid_scssPath := "scss/xy-grid/";
           grid_description := "Modern CSS Grid and Flexbox-based layout system" |};
        {| grid_name := "Float Grid"; grid_slug := "float-grid";
           grid_scssPath := "scss/grid/";
           grid_description := "Classic float-based grid system" |} ].

(** [Promise.all] of the four walks.  Each walk only reads the file
    source and writes its own accumulator, so they are run one after
    the other; all four run to their end, and the result is rejected
    if one of them was. *)
Definition walkAll : M FoundationIndex :=
  fun w0 =>
    let '(r1, w1) := indexPlugins w0 in
    let '(r2, w2) := indexComponents w1 in
    let '(r3, w3) := indexUtilities w2 in
    let '(r4, w4) := indexGrids w3 in
    match r1, r2, r3, r4 with
    | Ok ps, Ok cs, Ok us, Ok gs =>
        (Ok {| plugins := ps; components := cs; utilities := us; grids := gs |}, w4)
    | Err e, _, _, _ => (Err e, w4)
    | _, Err e, _, _ => (Err e, w4)
    | _, _, Err e, _ => (Err e, w4)
    | _, _, _, Err e => (Err e, w4)
    end.

(** [buildIndex()] *)
Definition buildIndex : M FoundationIndex :=
  logger info "Building Foundation codebase index..." "" ;;;
  cached <- cacheGet pluginIndexKey ;;
  match cached with
  | Some index =>
      logger debug "Returning cached index" "" ;;;
      ret index
  | None =>
      index <- walkAll ;;
      cacheSet pluginIndexKey index ;;;
      logger info
        ("Index built: " +:+ pretty (length (plugins index)) +:+ " plugins, "
         +:+ pretty (length (components index)) +:+ " components") "" ;;;
      ret index
  end.


End Indexer.

End CodebaseIndexer.

(** ** src/engines/PluginAnalyzer.ts *)

Module PluginAnalyzer.
Import JsString Parser Async Async.Notations.

Inductive PatternType : Type := plugin | component | utility | test.
Inductive Severity : Type := sev_error | sev_warning | sev_info.
Inductive Matches : Type := matches | partial_match | no_match.

Record ValidationIssue : Type := {
  severity : Severity;
  message : string;
  suggestion : string;
}.

Record Conformance : Type := {
  architecture : Z;
  conventions : Z;
  accessibility : Z;
}.

Record AnalyzePatternResult : Type := {
  result_matches : Matches;
  issues : list ValidationIssue;
  conformance : Conformance;
  suggestions : list string;
}.

Record AnalyzePatternParams : Type := {
  code : string;
  patternType : PatternType;
}.

(** The locals the checks of [analyzePluginPattern] update. *)
Record Scores : Type := {
  sc_issues : list ValidationIssue;
  architectureScore : Z;
  conventionsScore : Z;
  accessibilityScore : Z;
}.

Definition addArchitecture (n : Z) (s : Scores) : Scores :=
  {| sc_issues := sc_issues s; architectureScore := architectureScore s + n;
     conventionsScore := conventionsScore s; accessibilityScore := accessibilityScore s |}.
Definition addConventions (n : Z) (s : Scores) : Scores :=
  {| sc_issues := sc_issues s; architectureScore := architectureScore s;
     conventionsScore := conventionsScore s + n; accessibilityScore := accessibilityScore s |}.
Definition addAccessibility (n : Z) (s : Scores) : Scores :=
  {| sc_issues := sc_issues s; architectureScore := architectureScore s;
     conventionsScore := conventionsScore s; accessibilityScore := accessibilityScore s + n |}.
Definition pushIssue (sev : Severity) (msg sugg : string) (s : Scores) : Scores :=
  {| sc_issues := sc_issues s ++
       [{| severity := sev; message := msg; suggestion := sugg |}];
     architectureScore := architectureScore s;
     conventionsScore := conventionsScore s; accessibilityScore := accessibilityScore s |}.

(** [/^[A-Z][a-zA-Z0-9]*$/.test(name)] *)
Fixpoint all_chars (p : ascii -> bool) (s : string) : bool :=
  match s with
  | EmptyString => true
  | String c rest => p c && all_chars p rest
  end.
Definition isPascalCase (name : string) : bool :=
  match name with
  | EmptyString => false
  | String c rest => is_upper c && all_chars is_alnum rest
  end.

(** the character class of the event pattern: a single or a double quote *)
Definition is_quote (c : ascii) : bool :=
  Ascii.eqb c "'" || Ascii.eqb c (ascii_of_nat 34).

(** One attempt of the event pattern at the start of [s]: the text
    [.trigger(], a quote, one or more characters that are not quotes (the
    captured name), a quote, and [)].  Returns the captured name and the
    length of the whole match. *)
Definition triggerAt (s : string) : option (string * nat) :=
  if String.prefix ".trigger(" s then
    match drop 9 s with
    | String q body =>
        if is_quote q then
          let '(name, after) := span (fun c => negb (is_quote c)) body in
          match after with
          | String q' (String ")" _) =>
              if truthy name && is_quote q' then Some (name, 12 + String.length name)%nat
              else None
          | _ => None
          end
        else None
    | EmptyString => None
    end
  else None.

(** [[...code.matchAll(eventPattern)].map(m => m[1])]: matches are found
    left to right and do not overlap; [skip] counts the characters of the
    last match still to be passed over. *)
Fixpoint triggerMatches (skip : nat) (s : string) : list string :=
  match s with
  | EmptyString => []
  | String _ rest =>
      match skip with
      | S k => triggerMatches k rest
      | O =>
          match triggerAt s with
          | Some (name, len) => name :: triggerMatches (len - 1) rest
          | None => triggerMatches 0 rest
          end
      end
  end.

Definition triggeredEvents (code : string) : list string := triggerMatches 0 code.

(** The checks between [parsePlugin] and the normalisation. *)
Definition checkExtends (parsed : ParsedPlugin) (s : Scores) : Scores :=
  match extendsClass parsed with
  | Some "Plugin" => addArchitecture 30 s
  | _ => pushIssue sev_error "Plugin must extend the Plugin base class"
           "export class YourPlugin extends Plugin { ... }" s
  end.

Definition requiredMethods : list string := ["_init"; "_destroy"].

Definition checkRequiredMethods (parsed : ParsedPlugin) (s : Scores) : Scores :=
  let missingMethods :=
    List.filter (fun m => negb (arrayIncludes (methods parsed) m)) requiredMethods in
  if (length missingMethods =? 0)%nat then addArchitecture 40 s
  else
    fold_left
      (fun s method =>
         pushIssue sev_error ("Missing required method: " +:+ method)
           ("Add " +:+ method +:+ "() method to your plugin class") s)
      missingMethods s.

Definition checkConstructor (parsed : ParsedPlugin) (s : Scores) : Scores :=
  if arrayIncludes (methods parsed) "constructor" then addArchitecture 10 s
  else pushIssue sev_warning "Plugin should have a constructor"
         "constructor(element, options) { super(element, options); }" s.

Definition checkNaming (parsed : ParsedPlugin) (s : Scores) : Scores :=
  if truthy (className parsed) && isPascalCase (className parsed)
  then addConventions 30 s
  else pushIssue sev_warning "Plugin class name should be PascalCase"
         "Use PascalCase for class names (e.g., MyPlugin)" s.

Definition checkJSDoc (code : string) (s : Scores) : Scores :=
  if includes code "/**" && includes code "@class" then addConventions 20 s
  else pushIssue sev_info "Add JSDoc comments to your plugin"
         "Add /** @class */ comment above your plugin class" s.

Definition checkEvents (code : string) (s : Scores) : Scores :=
  let events := triggeredEvents code in
  let hasNamespacedEvents := existsb (fun e => includes e ".zf.") events in
  if hasNamespacedEvents || (length events =? 0)%nat then addConventions 20 s
  else pushIssue sev_warning "Events should use .zf.{plugin} namespace"
         "Use event names like 'open.zf.accordion'" s.

Definition checkAria (code : string) (s : Scores) : Scores :=
  if includes code "aria-" || includes code "role=" then addAccessibility 40 s
  else pushIssue sev_warning "Plugin should implement ARIA attributes for accessibility"
         "Add ARIA attributes for screen reader support" s.

Definition checkKeyboard (code : string) (s : Scores) : Scores :=
  if includes code "Keyboard" || includes code "KEYS" then addAccessibility 30 s
  else pushIssue sev_info "Consider adding keyboard navigation support"
         "Use Foundation.Keyboard utility for keyboard events" s.

Definition checkFocus (code : string) (s : Scores) : Scores :=
  if includes code "focus()" || includes code "$element.focus"
  then addAccessibility 30 s
  else s.

Definition initialScores : Scores :=
  {| sc_issues := []; architectureScore := 0; conventionsScore := 0;
     accessibilityScore := 0 |}.

Definition runChecks (code : string) (parsed : ParsedPlugin) : Scores :=
  checkFocus code
    (checkKeyboard code
      (checkAria code
        (checkEvents code
          (checkJSDoc code
            (checkNaming parsed
              (checkConstructor parsed
                (checkRequiredMethods parsed
                  (checkExtends parsed initialScores)))))))).

(** [(a + c + x) / 3 >= bound] on JavaScript numbers.  The three scores
    are small integers, so the quotient is compared as a rational. *)
Definition overallAtLeast (bound : Z) (a c x : Z) : bool :=
  Qle_bool (inject_Z bound) (Qdiv (inject_Z (a + c + x)) (inject_Z 3)).

(** The [try] body of [analyzePluginPattern] after a successful parse. *)
Definition scorePlugin (code : string) (parsed : ParsedPlugin) : AnalyzePatternResult :=
  let s := runChecks code parsed in
  let architectureScore := Z.min (architectureScore s) 100 in
  let conventionsScore := Z.min (conventionsScore s + 30) 100 in
  let accessibilityScore := Z.min (accessibilityScore s) 100 in
  let matches :=
    if overallAtLeast 80 architectureScore conventionsScore accessibilityScore
    then matches
    else if overallAtLeast 50 architectureScore conventionsScore accessibilityScore
    then partial_match
    else no_match in
  let suggestions :=
    (if (architectureScore <? 80)%Z
     then ["Review Foundation plugin architecture guide"] else [])
    ++ (if (conventionsScore <? 80)%Z
        then ["Follow Foundation naming conventions"] else [])
    ++ (if (accessibilityScore <? 80)%Z
        then ["Improve accessibility with ARIA and keyboard support"] else []) in
  {| result_matches := matches;
     issues := sc_issues s;
     conformance := {| architecture := architectureScore;
                       conventions := conventionsScore;
                       accessibility := accessibilityScore |};
     suggestions := suggestions |}.

(** What the [catch] of [analyzePluginPattern] returns. *)
Definition parseFailureReport : AnalyzePatternResult :=
  {| result_matches := no_match;
     issues := [{| severity := sev_error; message := "Failed to parse code";
                   suggestion := "Ensure code is valid JavaScript" |}];
     conformance := {| architecture := 0; conventions := 0; accessibility := 0 |};
     suggestions := ["Fix syntax errors before analyzing"] |}.

(** What [analyzePattern] returns for the other pattern types. *)
Definition notImplementedReport : AnalyzePatternResult :=
  {| result_matches := no_match;
     issues := [];
     conformance := {| architecture := 0; conventions := 0; accessibility := 0 |};
     suggestions := ["Analysis for this pattern type is not yet implemented"] |}.

Section Analyzer.
Variable P : Platform.
Variable fs : FileSource.

(** [analyzePluginPattern(code)] *)
Definition analyzePluginPattern (code : string) : M AnalyzePatternResult :=
  tryCatch
    (parsed <- lift (parsePlugin P code) ;;
     ret (scorePlugin code parsed))
    (fun e =>
       logger error "Failed to analyze plugin pattern" (errorMessage e) ;;;
       ret parseFailureReport).

(** [analyzePattern(params)] *)
Definition analyzePattern (params : AnalyzePatternParams) : M AnalyzePatternResult :=
  logger debug "Analyzing pattern" "" ;;;
  isFile <- fileExists fs (code params) ;;
  code <- (if isFile then readFile fs (code params) else ret (code params)) ;;
  match patternType params with
  | plugin => analyzePluginPattern code
  | _ => ret notImplementedReport
  end.

End Analyzer.

End PluginAnalyzer.

(** ** src/engines/RefactoringAnalyzer.ts *)

Module RefactoringAnalyzer.
Import JsString Parser Async Async.Notations.

Inductive SourceType : Type := custom_plugin | custom_component.

Record Suggestion : Type := {
  name : string;
  slug : string;
  similarity : Z;
  reasoning : string;
}.

Record CodeAdaptation : Type := {
  before : string;
  after : string;
  changes : list string;
}.

Record RefactoringAnalysis : Type := {
  sourceType : SourceType;
  suggestedFoundationComponents : list Suggestion;
  migrationSteps : list string;
  codeAdaptation : CodeAdaptation;
  breakingChanges : list string;
  recommendedApproach : string;
  integrationGuide : list string;
}.

(** [hasFeature(code, keywords)] *)
Definition hasFeature (code : string) (keywords : list string) : bool :=
  let lowerCode := toLowerCase code in
  existsb (fun keyword => includes lowerCode keyword) keywords.

(** The table [featureToComponent], in the order it is written. *)
Definition featureToComponent : list (string * (string * string)) :=
  [ ("hasDropdown", ("Dropdown", "dropdown"));
    ("hasAccordion", ("Accordion", "accordion"));
    ("hasModal", ("Reveal", "reveal"));
    ("hasCarousel", ("Orbit", "orbit"));
    ("hasTooltip", ("Tooltip", "tooltip"));
    ("hasForm", ("Abide", "abide"));
    ("hasButton", ("Button", "button"));
    ("hasCard", ("Card", "card"));
    ("hasBadge", ("Badge", "badge"));
    ("hasAlert", ("Callout", "callout"));
    ("hasCallout", ("Callout", "callout"));
    ("hasGrid", ("XY Grid", "xy-grid")) ].

(** [featureToComponent[feature]] *)
Definition lookupFeature (feature : string) : option (string * string) :=
  match List.find (fun kv => String.eqb (fst kv) feature) featureToComponent with
  | Some kv => Some (snd kv)
  | None => None
  end.

(** [feature.replace(/^has/, '')] *)
Definition stripHas (feature : string) : string :=
  if String.prefix "has" feature then drop 3 feature else feature.

(** the callback of [.map] in [findSimilarComponents] *)
Definition featureSuggestion (entry : string * bool) : option Suggestion :=
  match lookupFeature (fst entry) with
  | Some (n, s) =>
      Some {| name := n; slug := s; similarity := 85;
              reasoning := "Detected " +:+ toLowerCase (stripHas (fst entry))
                           +:+ " functionality" |}
  | None => None
  end.

(** [findSimilarComponents(features, components, foundationTarget)].
    [features] are the entries of the object literal in the order its
    keys are written; [components] is the catalog of the source kind,
    read through its [name] and [slug] properties. *)
Definition findSimilarComponents {A} (nameOf slugOf : A -> string)
    (features : list (string * bool)) (components : list A)
    (foundationTarget : option string) : list Suggestion :=
  let explicit :=
    match foundationTarget with
    | Some t =>
        if truthy t then List.find (fun c => String.eqb (slugOf c) t) components
        else None
    | None => None
    end in
  match explicit with
  | Some target =>
      [ {| name := nameOf target; slug := slugOf target; similarity := 100;
           reasoning := "User specified target: " +:+ nameOf target |} ]
  | None =>
      let suggestions :=
        omap featureSuggestion (List.filter (fun e => snd e) features) in
      firstn 3 suggestions
  end.

Definition topName (suggestions : list Suggestion) (fallback : string) : string :=
  match suggestions with
  | s :: _ => if truthy (name s) then name s else fallback
  | [] => fallback
  end.

Definition topSlug (suggestions : list Suggestion) (fallback : string) : string :=
  match suggestions with
  | s :: _ => if truthy (slug s) then slug s else fallback
  | [] => fallback
  end.

(** [generatePluginMigrationSteps] *)
Definition generatePluginMigrationSteps (suggestions : list Suggestion) : list string :=
  let steps :=
    [ "1. Review Foundation plugin architecture and lifecycle methods";
      "2. Extend Foundation Plugin base class instead of custom base";
      "3. Implement required methods (_init, _destroy)";
      "4. Use Foundation Keyboard utility for keyboard events";
      "5. Replace custom events with Foundation event namespacing (.zf.pluginname)";
      "6. Use Foundation data attributes for configuration";
      "7. Implement accessibility with ARIA attributes";
      "8. Add unit tests following Foundation test patterns" ] in
  match suggestions with
  | s :: _ => ("0. Study " +:+ name s +:+ " plugin as reference implementation") :: steps
  | [] => steps
  end.

(** [generateComponentMigrationSteps] *)
Definition generateComponentMigrationSteps (suggestions : list Suggestion) : list string :=
  let steps :=
    [ "1. Review Foundation component structure and mixins";
      "2. Align variable naming with Foundation conventions ($component-name)";
      "3. Convert to Foundation mixin-based approach";
      "4. Implement foundation-{component} mixin for inclusion";
      "5. Add color and size variations using Foundation palette";
      "6. Use rem-calc() for responsive spacing";
      "7. Ensure accessibility with semantic HTML";
      "8. Add Sass tests using sass-true framework" ] in
  match suggestions with
  | s :: _ => ("0. Study " +:+ name s +:+ " component as reference") :: steps
  | [] => steps
  end.

(** [generatePluginCodeAdaptation]: a fixed illustration *)
Definition generatePluginCodeAdaptation : CodeAdaptation :=
  {| before := "// Custom plugin
class CustomDropdown {
  constructor(element, options) {
    this.element = element;
    this.options = options;
    this.init();
  }

  init() {
    this.element.addEventListener('click', () => this.toggle());
  }

  toggle() {
    this.element.classList.toggle('active');
    this.element.dispatchEvent(new Event('toggle'));
  }

  destroy() {
    this.element.removeEventListener('click', null);
  }
}";
     after := "// Foundation plugin
import { Plugin } from './foundation.core.plugin';

export class CustomDropdown extends Plugin {
  constructor(element, options = {}) {
    super(element, options);
  }

  _init() {
    this._addEventListeners();
  }

  _addEventListeners() {
    this.$element.on('click.zf.customdropdown', () => this.toggle());
  }

  toggle() {
    this.$element.toggleClass('is-active');
    this.$element.trigger('toggle.zf.customdropdown');
  }

  _destroy() {
    this.$element.off('.zf.customdropdown');
  }
}

CustomDropdown.defaults = {};";
     changes :=
       [ "Extends Plugin base class";
         "Constructor calls super()";
         "_init() instead of init()";
         "_destroy() for cleanup";
         "Uses jQuery ($element)";
         "Event namespacing with .zf.*";
         "Bootstrap method naming conventions" ] |}.

(** [generateComponentCodeAdaptation]: a fixed illustration *)
Definition generateComponentCodeAdaptation : CodeAdaptation :=
  {| before := "// Custom component
$button-padding: 10px 15px;
$button-background: #007bff;
$button-color: white;

.button {
  padding: $button-padding;
  background-color: $button-background;
  color: $button-color;
  border: none;
  cursor: pointer;

  &:hover {
    background-color: darken($button-background, 10%);
  }

  &.primary {
    background-color: #0056b3;
  }

  &.secondary {
    background-color: #6c757d;
  }
}";
     after := "// Foundation component
$button-padding: rem-calc(12 24) !default;
$button-background: $primary-color !default;
$button-color: color-pick-contrast($button-background) !default;
$button-border-radius: $global-radius !default;

/// Mixin to create button base styles
@mixin button-base {
  padding: $button-padding;
  background-color: $button-background;
  color: $button-color;
  border: 1px solid $button-background;
  border-radius: $button-border-radius;
  cursor: pointer;
  transition: all 0.3s ease;

  &:hover {
    background-color: shade($button-background, 10%);
  }
}

/// Mixin to style button variants
@mixin button-style($bg: $button-background, $color: $button-color) {
  background-color: $bg;
  color: color-pick-contrast($bg);
  border-color: $bg;
}

/// Output button component
@mixin foundation-button {
  .button {
    @include button-base;

    @each $name, $color in $foundation-palette {
      &.\#{$name} {
        @include button-style($color);
      }
    }
  }
}";
     changes :=
       [ "Variables use rem-calc for responsive sizing";
         "Variables marked with !default for overridability";
         "Organized into reusable mixins";
         "Uses Foundation color palette";
         "Foundation naming conventions";
         "Includes mixin documentation";
         "Supports color variations automatically" ] |}.

Definition pushIf (cond : bool) (item : string) (changes : list string) : list string :=
  if cond then changes ++ [item] else changes.

(** [identifyPluginBreakingChanges] *)
Definition identifyPluginBreakingChanges (code : string) : list string :=
  let c1 := pushIf (includes code "addEventListener")
              "Replace addEventListener with jQuery .on() method" [] in
  let c2 := pushIf (includes code "classList")
              "Use jQuery addClass/removeClass instead of classList" c1 in
  let c3 := pushIf (includes code "dispatchEvent")
              "Use jQuery .trigger() for events instead of dispatchEvent" c2 in
  let c4 := pushIf (negb (includes code "destroy"))
              "Must implement _destroy() for proper cleanup" c3 in
  let c5 := pushIf (negb (includes code "ARIA") && negb (includes code "aria-"))
              "Add ARIA attributes for accessibility compliance" c4 in
  c5 ++ [ "Data attribute format changes to [data-{slug}]";
          "Selector changes to use Foundation data attributes";
          "Event namespace changes to .zf.{pluginname}" ].

(** [identifyComponentBreakingChanges] *)
Definition identifyComponentBreakingChanges (code : string) : list string :=
  let c1 := pushIf (includes code "px" && negb (includes code "rem"))
              "Replace px units with rem-calc() for responsive design" [] in
  let c2 := pushIf (negb (includes code "!default"))
              "Add !default flag to all variables for customization" c1 in
  let c3 := pushIf (negb (includes code "@mixin"))
              "Organize styles into reusable mixins" c2 in
  let c4 := pushIf (negb (includes code "@include"))
              "Include mixin in main component mixin" c3 in
  let c5 := pushIf (includes code "hardcoded colors")
              "Use Foundation color palette variables instead of hardcoded colors" c4 in
  c5 ++ [ "CSS class naming may change to align with Foundation conventions";
          "Layout assumptions may conflict with Foundation grid system" ].

(** [generateRecommendedApproach] *)
Definition generateRecommendedApproach (type : SourceType)
    (suggestions : list Suggestion) : string :=
  match type with
  | custom_plugin =>
      "We recommend migrating to Foundation's " +:+ topName suggestions "equivalent plugin" +:+ " which provides:
- Consistent plugin architecture and lifecycle management
- Built-in accessibility features (ARIA, keyboard navigation)
- jQuery integration and event handling
- Comprehensive browser compatibility
- Integration with Foundation utility functions

Start by studying the Foundation plugin, then refactor your code to extend the Plugin base class.
This approach ensures consistency and long-term maintainability."
  | custom_component =>
      "We recommend migrating to Foundation's " +:+ topName suggestions "equivalent component" +:+ " which provides:
- Responsive design with rem-calc() scaling
- Customizable variables with !default flags
- Pre-built color and size variations
- Accessibility-first styling approach
- Integration with Foundation's design system

Refactor your Sass to use Foundation's mixin structure and variable naming conventions.
This enables theme customization and ensures consistency with the rest of Foundation."
  end.

(** the double quote character, which the guide puts around a path *)
Definition dq : string := String (ascii_of_nat 34) EmptyString.

(** [generateIntegrationGuide] *)
Definition generateIntegrationGuide (type : SourceType)
    (suggestions : list Suggestion) : list string :=
  match type with
  | custom_plugin =>
      [ "1. Create new file: js/foundation." +:+ topSlug suggestions "myplugin" +:+ ".js";
        "Import Plugin base class: import { Plugin } from " +:+ dq
          +:+ "./foundation.core.plugin" +:+ dq +:+ ";";
        "Export class: export { MyPlugin };";
        "2. Register plugin in js/entries/foundation.js:";
        "   import { MyPlugin } from '../foundation."
          +:+ topSlug suggestions "myplugin" +:+ "';";
        "   Foundation.plugin(MyPlugin, '" +:+ topName suggestions "MyPlugin" +:+ "');";
        "3. Create test file: test/javascript/{slug}.spec.js";
        "4. Add documentation: docs/pages/{slug}.md";
        "5. Run tests: yarn test:javascript:units";
        "6. Build and verify: yarn build" ]
  | custom_component =>
      [ "1. Create new file: scss/components/_"
          +:+ topSlug suggestions "mycomponent" +:+ ".scss";
        "Define variables with !default flags";
        "Create reusable mixins for styling";
        "Create main @mixin foundation-{slug}";
        "2. Import in scss/foundation.scss:";
        "   @import 'components/" +:+ topSlug suggestions "mycomponent" +:+ "';";
        "3. Include in foundation-everything mixin";
        "4. Create test file: test/sass/components/_{slug}.scss";
        "5. Add documentation: docs/pages/{slug}.md";
        "6. Run tests: yarn test:sass";
        "7. Build and verify: yarn build" ]
  end.

Section Analyzer.
Variable P : Platform.
Variable fs : FileSource.
Variable foundationRepoPath : string.

(** the feature battery of [analyzePluginForRefactoring] *)
Definition pluginFeatures (sourceCode : string) : list (string * bool) :=
  [ ("hasDropdown", hasFeature sourceCode ["dropdown"; "menu"; "select"]);
    ("hasAccordion", hasFeature sourceCode ["accordion"; "toggle"; "expand"]);
    ("hasModal", hasFeature sourceCode ["modal"; "dialog"; "overlay"]);
    ("hasCarousel", hasFeature sourceCode ["carousel"; "slider"; "rotation"]);
    ("hasTooltip", hasFeature sourceCode ["tooltip"; "popover"; "hint"]);
    ("hasForm", hasFeature sourceCode ["form"; "validate"; "validation"]) ].

(** the feature battery of [analyzeComponentForRefactoring] *)
Definition componentFeatures (sourceCode : string) : list (string * bool) :=
  [ ("hasButton", hasFeature sourceCode ["button"; "btn"]);
    ("hasCard", hasFeature sourceCode ["card"; "panel"; "box"]);
    ("hasBadge", hasFeature sourceCode ["badge"; "label"; "tag"]);
    ("hasAlert", hasFeature sourceCode ["alert"; "message"; "notification"]);
    ("hasCallout", hasFeature sourceCode ["callout"; "notice"; "info"]);
    ("hasGrid", hasFeature sourceCode ["grid"; "layout"; "column"]) ].

(** [analyzePluginForRefactoring] *)
Definition analyzePluginForRefactoring (sourceCode : string)
    (foundationTarget : option string) : M RefactoringAnalysis :=
  tryCatch
    (parsed <- lift (parsePlugin P sourceCode) ;;
     index <- CodebaseIndexer.buildIndex P fs foundationRepoPath ;;
     let suggestions :=
       findSimilarComponents plugin_name plugin_slug
         (pluginFeatures sourceCode) (plugins index) foundationTarget in
     ret {| sourceType := custom_plugin;
            suggestedFoundationComponents := suggestions;
            migrationSteps := generatePluginMigrationSteps suggestions;
            codeAdaptation := generatePluginCodeAdaptation;
            breakingChanges := identifyPluginBreakingChanges sourceCode;
            recommendedApproach := generateRecommendedApproach custom_plugin suggestions;
            integrationGuide := generateIntegrationGuide custom_plugin suggestions |})
    (fun e =>
       logger error "Failed to analyze plugin for refactoring" (errorMessage e) ;;;
       throw e).

(** [analyzeComponentForRefactoring] *)
Definition analyzeComponentForRefactoring (sourceCode : string)
    (foundationTarget : option string) : M RefactoringAnalysis :=
  tryCatch
    (parsed <- lift (parseComponent P sourceCode) ;;
     index <- CodebaseIndexer.buildIndex P fs foundationRepoPath ;;
     let suggestions :=
       findSimilarComponents component_name component_slug
         (componentFeatures sourceCode) (components index) foundationTarget in
     ret {| sourceType := custom_component;
            suggestedFoundationComponents := suggestions;
            migrationSteps := generateComponentMigrationSteps suggestions;
            codeAdaptation := generateComponentCodeAdaptation;
            breakingChanges := identifyComponentBreakingChanges sourceCode;
            recommendedApproach :=
              generateRecommendedApproach custom_component suggestions;
            integrationGuide := generateIntegrationGuide custom_component suggestions |})
    (fun e =>
       logger error "Failed to analyze component for refactoring" (errorMessage e) ;;;
       throw e).

(** [analyzeForRefactoring] *)
Definition analyzeForRefactoring (sourceCode : string) (sourceType : SourceType)
    (foundationTarget : option string) : M RefactoringAnalysis :=
  logger info "Analyzing code for Foundation refactoring" "" ;;;
  match sourceType with
  | custom_plugin => analyzePluginForRefactoring sourceCode foundationTarget
  | custom_component => analyzeComponentForRefactoring sourceCode foundationTarget
  end.

End Analyzer.

End RefactoringAnalyzer.

(** ** src/handlers/tools.ts: the handlers that consult the engines *)

Module ToolHandler.
Import JsString Parser Async Async.Notations PluginAnalyzer.

(** A synchronous [throw new Error(message)] or a returned value. *)
Inductive Thrown (A : Type) : Type :=
| Throws (message : string)
| Returns (a : A).
Arguments Throws {A} message.
Arguments Returns {A} a.

(** *** validate_plugin *)

Record Coverage : Type := {
  required_methods : Z;
  event_handling : Z;
  coverage_accessibility : Z;
}.

Record PluginValidation : Type := {
  valid : bool;
  errors : list string;
  warnings : list string;
  coverage : Coverage;
}.

(** [i.severity === sev] *)
Definition hasSeverity (sev : Severity) (i : ValidationIssue) : bool :=
  match severity i, sev with
  | sev_error, sev_error => true
  | sev_warning, sev_warning => true
  | sev_info, sev_info => true
  | _, _ => false
  end.

(** The object [validation] that [handleValidatePlugin] builds from the
    report of the analyzer. *)
Definition pluginValidation (result : AnalyzePatternResult) : PluginValidation :=
  {| valid := match result_matches result with matches => true | _ => false end;
     errors := map message (List.filter (hasSeverity sev_error) (issues result));
     warnings := map message (List.filter (hasSeverity sev_warning) (issues result));
     coverage :=
       {| required_methods := architecture (conformance result);
          event_handling := conventions (conformance result);
          coverage_accessibility := accessibility (conformance result) |} |}.

(** [handleValidatePlugin(args)] once the schema has accepted the
    arguments; the handler returns the JSON text of this value. *)
Definition handleValidatePlugin (P : Platform) (fs : FileSource) (code : string)
    : M PluginValidation :=
  result <- analyzePattern P fs {| code := code; patternType := plugin |} ;;
  ret (pluginValidation result).

(** *** find_similar_pattern *)

(** The elements of [items]: plugins and components side by side. *)
Inductive CatalogItem : Type :=
| PluginItem (p : FoundationPlugin)
| ComponentItem (c : FoundationComponent).

Definition item_name (item : CatalogItem) : string :=
  match item with
  | PluginItem p => plugin_name p
  | ComponentItem c => component_name c
  end.

Definition item_description (item : CatalogItem) : string :=
  match item with
  | PluginItem p => plugin_description p
  | ComponentItem c => component_description c
  end.

(** [item.path || item.scssPath]: a component has no [path], a plugin no
    [scssPath]. *)
Definition item_path (item : CatalogItem) : option string :=
  match item with
  | PluginItem p => orUndefined (plugin_path p)
  | ComponentItem c => Some (component_scssPath c)
  end.

Definition item_docs (item : CatalogItem) : string :=
  match item with
  | PluginItem p => plugin_docs p
  | ComponentItem c => component_docs c
  end.

Record SimilarPatternMatch : Type := {
  match_name : string;
  match_path : option string;
  match_similarity : Z;
  relevantSnippets : list string;
  documentation : string;
}.

(** [!params.type || params.type === wanted] *)
Definition typeAdmits (type : option PatternType) (wanted : PatternType) : bool :=
  match type, wanted with
  | None, _ => true
  | Some plugin, plugin => true
  | Some component, component => true
  | _, _ => false
  end.

(** the callback of [.filter] *)
Definition matchesQuery (query : string) (item : CatalogItem) : bool :=
  let searchText := toLowerCase (item_name item +:+ " " +:+ item_description item) in
  includes searchText query.

(** the callback of [.map] *)
Definition toMatch (item : CatalogItem) : SimilarPatternMatch :=
  {| match_name := item_name item;
     match_path := item_path item;
     match_similarity := 75;
     relevantSnippets := [item_description item];
     documentation := item_docs item |}.

(** The [matches] of [handleFindSimilarPattern]; [limit] is the integer
    part of the validated limit, which is what [slice] uses. *)
Definition findSimilarMatches (index : FoundationIndex) (type : option PatternType)
    (query : string) (limit : nat) : list SimilarPatternMatch :=
  let items :=
    (if typeAdmits type plugin then map PluginItem (plugins index) else [])
    ++ (if typeAdmits type component then map ComponentItem (components index) else []) in
  let query := toLowerCase query in
  map toMatch (firstn limit (List.filter (matchesQuery query) items)).

(** [handleFindSimilarPattern(args)] once the schema has accepted the
    arguments. *)
Definition handleFindSimilarPattern (P : Platform) (fs : FileSource)
    (foundationRepoPath : string) (type : option PatternType) (query : string)
    (limit : nat) : M (list SimilarPatternMatch) :=
  index <- CodebaseIndexer.buildIndex P fs foundationRepoPath ;;
  ret (findSimilarMatches index type query limit).

(** *** get_plugin_reference, get_component_reference *)

(** The [slug] the handler destructures from unvalidated arguments: a
    string, or any other value with the text a template literal gives it. *)
Inductive SlugArgument : Type :=
| SlugString (s : string)
| SlugOther (rendered : string).

Definition renderSlug (slug : SlugArgument) : string :=
  match slug with
  | SlugString s => s
  | SlugOther rendered => rendered
  end.

(** [entry.slug === slug] *)
Definition slugIs (slug : SlugArgument) (entrySlug : string) : bool :=
  match slug with
  | SlugString s => String.eqb entrySlug s
  | SlugOther _ => false
  end.

Record PluginReference : Type := {
  ref_name : string;
  ref_slug : string;
  ref_description : string;
  ref_selector : string;
  ref_className : string;
  ref_documentation : string;
  ref_path : string;
}.

Record ComponentReference : Type := {
  cref_name : string;
  cref_slug : string;
  cref_description : string;
  cref_mixins : list string;
  cref_cssClasses : list string;
  cref_documentation : string;
  cref_scssPath : string;
}.

(** the part of [handleGetPluginReference] after the index is there *)
Definition pluginReference (index : FoundationIndex) (slug : SlugArgument)
    : Thrown PluginReference :=
  match List.find (fun p => slugIs slug (plugin_slug p)) (plugins index) with
  | None => Throws ("Plugin not found: " +:+ renderSlug slug)
  | Some found =>
      Returns {| ref_name := plugin_name found;
                 ref_slug := plugin_slug found;
                 ref_description := plugin_description found;
                 ref_selector := plugin_selector found;
                 ref_className := plugin_className found;
                 ref_documentation := plugin_docs found;
                 ref_path := plugin_path found |}
  end.

(** the part of [handleGetComponentReference] after the index is there *)
Definition componentReference (index : FoundationIndex) (slug : SlugArgument)
    : Thrown ComponentReference :=
  match List.find (fun c => slugIs slug (component_slug c)) (components index) with
  | None => Throws ("Component not found: " +:+ renderSlug slug)
  | Some found =>
      Returns {| cref_name := component_name found;
                 cref_slug := component_slug found;
                 cref_description := component_description found;
                 cref_mixins := component_mixins found;
                 cref_cssClasses := component_cssClasses found;
                 cref_documentation := component_docs found;
                 cref_scssPath := component_scssPath found |}
  end.

(** [handleGetPluginReference(args)]: a rejected index build rejects the
    call, a missing slug throws. *)
Definition handleGetPluginReference (P : Platform) (fs : FileSource)
    (foundationRepoPath : string) (slug : SlugArgument) : M (Thrown PluginReference) :=
  index <- CodebaseIndexer.buildIndex P fs foundationRepoPath ;;
  ret (pluginReference index slug).

(** [handleGetComponentReference(args)] *)
Definition handleGetComponentReference (P : Platform) (fs : FileSource)
    (foundationRepoPath : string) (slug : SlugArgument) : M (Thrown ComponentReference) :=
  index <- CodebaseIndexer.buildIndex P fs foundationRepoPath ;;
  ret (componentReference index slug).

End ToolHandler.

(** ** src/utils/cache.ts, src/config.ts, src/utils/logger.ts *)

Module CacheKeys.

Definition pluginIndex : string := "foundation:plugins:index".
Definition plugin (slug : string) : string := "foundation:plugin:" +:+ slug.
Definition componentIndex : string := "foundation:components:index".
Definition component (slug : string) : string := "foundation:component:" +:+ slug.
Definition buildConfig : string := "foundation:build:config".
Definition architecture (type : string) : string := "foundation:architecture:" +:+ type.
Definition docs (slug : string) : string := "foundation:docs:" +:+ slug.
Definition fileContent (path : string) : string := "foundation:file:" +:+ path.
Definition parsedPlugin (path : string) : string := "foundation:parsed:plugin:" +:+ path.
Definition parsedComponent (path : string) : string :=
  "foundation:parsed:component:" +:+ path.

End CacheKeys.

Module Config.
Import JsString ToolHandler.

(** The part of [ServerConfig] that [validateConfig] and [createCache]
    read.  [port] is what [parseInt] left: an integer, or [None] for NaN.
    [backend] is whatever non-empty text the environment held. *)
Record CacheConfig : Type := {
  ttl : option Z;
  backend : string;
  maxSize : option Z;
  redisUrl : option string;
}.

Record ServerConfig : Type := {
  port : option Z;
  foundationRepoPath : string;
  cacheConfig : CacheConfig;
}.

(** [!config.cache.redisUrl] *)
Definition noRedisUrl (c : CacheConfig) : bool :=
  match redisUrl c with
  | Some url => negb (truthy url)
  | None => true
  end.

(** [config.port < 1 || config.port > 65535]; both comparisons are false
    for NaN. *)
Definition portOutOfRange (p : option Z) : bool :=
  match p with
  | Some n => (n <? 1)%Z || (65535 <? n)%Z
  | None => false
  end.

(** [validateConfig(config)] *)
Definition validateConfig (config : ServerConfig) : Thrown unit :=
  if negb (truthy (foundationRepoPath config)) then
    Throws "FOUNDATION_REPO_PATH is required"
  else if String.eqb (backend (cacheConfig config)) "redis"
          && noRedisUrl (cacheConfig config) then
    Throws "REDIS_URL is required when using redis cache backend"
  else if portOutOfRange (port config) then
    Throws "MCP_PORT must be between 1 and 65535"
  else Returns tt.



End Config.

Module Logger.

(** [levels.indexOf(level)] for [['debug', 'info', 'warn', 'error']] *)
Definition levelIndex (level : LogLevel) : Z :=
  match level with
  | debug => 0
  | info => 1
  | warn => 2
  | error => 3
  end.

(** [levels.indexOf(this.level)]: the configured level is a cast of an
    environment variable, and a text that names no level has index -1. *)
Definition configuredIndex (configured : option LogLevel) : Z :=
  match configured with
  | Some level => levelIndex level
  | None => -1
  end.

(** [shouldLog(level)] *)
Definition shouldLog (configured : option LogLevel) (level : LogLevel) : bool :=
  (configuredIndex configured <=? levelIndex level)%Z.

End Logger.

(** ** src/handlers/resources.ts *)

Module ResourceHandler.
Import JsString Async Async.Notations ToolHandler.

Record ListedResource : Type := {
  listed_uri : string;
  listed_name : string;
  listed_description : string;
  listed_mimeType : string;
}.

(** [listResources()] *)
Definition listResources : list ListedResource :=
  [ {| listed_uri := "foundation://plugins/index";
       listed_name := "Foundation Plugins Index";
       listed_description := "Complete index of all Foundation plugins";
       listed_mimeType := "application/json" |};
    {| listed_uri := "foundation://components/index";
       listed_name := "Foundation Components Index";
       listed_description := "Complete index of all Foundation components";
       listed_mimeType := "application/json" |};
    {| listed_uri := "foundation://build/config";
       listed_name := "Build Configuration";
       listed_description := "Foundation build system configuration";
       listed_mimeType := "application/json" |};
    {| listed_uri := "foundation://architecture/plugins";
       listed_name := "Plugin Architecture Guide";
       listed_description := "Detailed guide on Foundation plugin architecture";
       listed_mimeType := "application/json" |};
    {| listed_uri := "foundation://patterns/tests/javascript";
       listed_name := "JavaScript Test Patterns";
       listed_description := "Test patterns for JavaScript plugins";
       listed_mimeType := "text/plain" |};
    {| listed_uri := "foundation://patterns/tests/sass";
       listed_name := "Sass Test Patterns";
       listed_description := "Test patterns for Sass components";
       listed_mimeType := "text/plain" |};
    {| listed_uri := "foundation://integrations/wordpress";
       listed_name := "WordPress Integration Guide";
       listed_description := "How to use Foundation within WordPress themes or plugins";
       listed_mimeType := "text/markdown" |} ].

(** The documents whose text is written out in the handler. *)
Inductive FixedDocument : Type :=
| BuildConfiguration
| PluginArchitectureGuide
| JavaScriptTestPattern
| SassTestPattern
| WordPressIntegrationGuide.

(** The [text] of an answer: the value handed to [JSON.stringify], one
    of the fixed documents, or a text put together on the spot. *)
Inductive ResourceBody : Type :=
| JsonPlugins (plugins : list FoundationPlugin)
| JsonComponents (components : list FoundationComponent)
| Document (which : FixedDocument)
| PlainText (text : string).

(** The single element of [contents]. *)
Record ResourceContents : Type := {
  res_uri : string;
  res_mimeType : string;
  res_body : ResourceBody;
}.

Inductive DynamicKind : Type := kind_template | kind_docs.

Definition not_slash (c : ascii) : bool := negb (Ascii.eqb c "/").

(** [uri.match(/^base([^\/]+)\/(template|docs)$/)]: the slug and the
    kind.  The slug is the longest run of characters other than the
    slash after [base]; what follows has to be the whole rest. *)
Definition dynamicMatch (base uri : string) : option (string * DynamicKind) :=
  if String.prefix base uri then
    let '(slug, rest) := span not_slash (drop (String.length base) uri) in
    if truthy slug then
      if String.eqb rest "/template" then Some (slug, kind_template)
      else if String.eqb rest "/docs" then Some (slug, kind_docs)
      else None
    else None
  else None.

Definition newline : string := String (ascii_of_nat 10) EmptyString.

Section Handler.
Variable P : Platform.
Variable fs : FileSource.
Variable foundationRepoPath : string.

(** A [throw new Error(message)] of the handler is a returned [Throws];
    a rejected index build stays a rejection of the call. *)
Definition Answer : Type := M (Thrown ResourceContents).

Definition getPluginsIndex : Answer :=
  index <- CodebaseIndexer.buildIndex P fs foundationRepoPath ;;
  ret (Returns {| res_uri := "foundation://plugins/index";
                  res_mimeType := "application/json";
                  res_body := JsonPlugins (plugins index) |}).

Definition getComponentsIndex : Answer :=
  index <- CodebaseIndexer.buildIndex P fs foundationRepoPath ;;
  ret (Returns {| res_uri := "foundation://components/index";
                  res_mimeType := "application/json";
                  res_body := JsonComponents (components index) |}).

Definition getBuildConfig : Answer :=
  ret (Returns {| res_uri := "foundation://build/config";
                  res_mimeType := "application/json";
                  res_body := Document BuildConfiguration |}).

Definition getPluginArchitecture : Answer :=
  ret (Returns {| res_uri := "foundation://architecture/plugins";
                  res_mimeType := "application/json";
                  res_body := Document PluginArchitectureGuide |}).

Definition getJavaScriptTestPattern : Answer :=
  ret (Returns {| res_uri := "foundation://patterns/tests/javascript";
                  res_mimeType := "text/plain";
                  res_body := Document JavaScriptTestPattern |}).

Definition getSassTestPattern : Answer :=
  ret (Returns {| res_uri := "foundation://patterns/tests/sass";
                  res_mimeType := "text/plain";
                  res_body := Document SassTestPattern |}).

Definition getWordPressIntegration : Answer :=
  ret (Returns {| res_uri := "foundation://integrations/wordpress";
                  res_mimeType := "text/markdown";
                  res_body := Document WordPressIntegrationGuide |}).

Definition getPluginTemplate (slug : string) : Answer :=
  ret (Returns {| res_uri := "foundation://plugins/" +:+ slug +:+ "/template";
                  res_mimeType := "text/plain";
                  res_body :=
                    PlainText "// Use generate_plugin tool to create plugin template" |}).

Definition getPluginDocs (slug : string) : Answer :=
  index <- CodebaseIndexer.buildIndex P fs foundationRepoPath ;;
  match List.find (fun p => String.eqb (plugin_slug p) slug) (plugins index) with
  | None => ret (Throws ("Plugin not found: " +:+ slug))
  | Some found =>
      ret (Returns
        {| res_uri := "foundation://plugins/" +:+ slug +:+ "/docs";
           res_mimeType := "text/markdown";
           res_body :=
             PlainText ("# " +:+ plugin_name found +:+ newline +:+ newline
                        +:+ plugin_description found +:+ newline +:+ newline
                        +:+ "Docs: " +:+ plugin_docs found) |})
  end.

Definition getComponentTemplate (slug : string) : Answer :=
  ret (Returns
    {| res_uri := "foundation://components/" +:+ slug +:+ "/template";
       res_mimeType := "text/plain";
       res_body :=
         PlainText "// Use generate_component tool to create component template" |}).

Definition getComponentDocs (slug : string) : Answer :=
  index <- CodebaseIndexer.buildIndex P fs foundationRepoPath ;;
  match List.find (fun c => String.eqb (component_slug c) slug) (components index) with
  | None => ret (Throws ("Component not found: " +:+ slug))
  | Some found =>
      ret (Returns
        {| res_uri := "foundation://components/" +:+ slug +:+ "/docs";
           res_mimeType := "text/markdown";
           res_body :=
             PlainText ("# " +:+ component_name found +:+ newline +:+ newline
                        +:+ component_description found +:+ newline +:+ newline
                        +:+ "Docs: " +:+ component_docs found) |})
  end.

(** [readResource(uri)] *)
Definition readResource (uri : string) : Answer :=
  logger debug "Reading resource" uri ;;;
  if String.eqb uri "foundation://plugins/index" then getPluginsIndex
  else if String.eqb uri "foundation://components/index" then getComponentsIndex
  else if String.eqb uri "foundation://build/config" then getBuildConfig
  else if String.eqb uri "foundation://architecture/plugins" then getPluginArchitecture
  else if String.eqb uri "foundation://patterns/tests/javascript"
    then getJavaScriptTestPattern
  else if String.eqb uri "foundation://patterns/tests/sass" then getSassTestPattern
  else if String.eqb uri "foundation://integrations/wordpress"
    then getWordPressIntegration
  else
    match dynamicMatch "foundation://plugins/" uri with
    | Some (slug, kind) =>
        match kind with
        | kind_template => getPluginTemplate slug
        | kind_docs => getPluginDocs slug
        end
    | None =>
        match dynamicMatch "foundation://components/" uri with
        | Some (slug, kind) =>
            match kind with
            | kind_template => getComponentTemplate slug
            | kind_docs => getComponentDocs slug
            end
        | None => ret (Throws ("Resource not found: " +:+ uri))
        end
    end.

End Handler.

End ResourceHandler.

(** * Properties *)

(** ** Vocabulary of the statements and sample inputs *)

Module ParserSpec.
Import JsString Parser.


(** Does the tree contain a named export of a class declaration? *)
Fixpoint exportsClass (n : Babel.Node) : bool :=
  let fix anyOf (l : list Babel.Node) : bool :=
    match l with
    | [] => false
    | x :: r => exportsClass x || anyOf r
    end in
  let inOpt (o : option Babel.Node) : bool :=
    match o with Some x => exportsClass x | None => false end in
  match n with
  | Babel.Identifier _ => false
  | Babel.StringLiteral _ => false
  | Babel.ImportDeclaration _ => false
  | Babel.ExportNamedDeclaration (Some (Babel.ClassDeclaration _ _ _)) => true
  | Babel.ExportNamedDeclaration (Some d) => exportsClass d
  | Babel.ExportNamedDeclaration None => false
  | Babel.ClassDeclaration _ superClass body =>
      match superClass with Some x => exportsClass x | None => false end || anyOf body
  | Babel.ClassMethod key body => exportsClass key || anyOf body
  | Babel.ClassProperty key value =>
      exportsClass key || match value with Some x => exportsClass x | None => false end
  | Babel.MemberExpression object property => exportsClass object || exportsClass property
  | Babel.CallExpression callee arguments => exportsClass callee || anyOf arguments
  | Babel.OtherNode children => anyOf children
  end.

Definition noExportedClass (l : list Babel.Node) : bool :=
  forallb (fun n => negb (exportsClass n)) l.




(** *** Stylesheet side *)

(** The [$]-declarations among the walked nodes, in walk order. *)
Definition dollarDecls (nodes : list PostCss.Node) : list (string * string) :=
  omap (fun n => match n with
                 | PostCss.Decl prop value _ =>
                     if startsWith prop "$" then Some (prop, value) else None
                 | _ => None
                 end) nodes.

(** The texts of the comments among the walked nodes, in walk order. *)
Definition commentTexts (nodes : list PostCss.Node) : list string :=
  omap (fun n => match n with
                 | PostCss.Comment text => Some text
                 | _ => None
                 end) nodes.

(** The trimmed text of the last comment of the whole stylesheet, or the
    empty string when it has no comment. *)
Definition lastCommentText (nodes : list PostCss.Node) : string :=
  List.last (map trim (commentTexts nodes)) "".

(** The variable records the code produces from the [$]-declarations
    once the comment text [c] is pending. *)
Definition attachPending (c : string) (decls : list (string * string))
    : list SassVariable :=
  match decls with
  | [] => []
  | (p, v) :: rest =>
      {| var_name := p; var_defaultValue := v; var_description := orUndefined c |}
      :: map (fun d => {| var_name := fst d; var_defaultValue := snd d;
                          var_description := None |}) rest
  end.

(** The tree of a stylesheet with a variable, then a doc comment, then a
    second variable; [text] is the text the grammar gives the comment. *)
Definition commentBetweenVariables (text : string) : PostCss.Root :=
  [ PostCss.Decl "$a" "1" []; PostCss.Comment text; PostCss.Decl "$b" "2" [] ].

(** The text of such a stylesheet. *)
Definition commentBetweenSource : string :=
"$a: 1;
/// Doc for b
$b: 2;".

(** The stylesheet of the spec's example. *)
Definition paddingSource : string :=
"/// Padding amount
$pad: 1rem;".

(** The tree of a stylesheet with one doc comment, the variable it
    documents, and a second variable without a comment. *)
Definition commentThenVariables (text : string) : PostCss.Root :=
  [ PostCss.Comment text; PostCss.Decl "$pad" "1rem" []; PostCss.Decl "$gap" "2rem" [] ].

End ParserSpec.

Module Samples.
Import JsString.

(** A world with an empty cache and no effect yet. *)
Definition world0 : World := {| cache := ∅; trace := [] |}.

(** The world [w] after the effects [events]. *)
Definition logged (w : World) (events : list Event) : World :=
  {| cache := cache w; trace := trace w ++ events |}.

(** The effects of a call that took the world [w] to [w']. *)
Definition since (w w' : World) : list Event :=
  skipn (length (trace w)) (trace w').

(** A file source in which no path exists. *)
Definition withoutFiles : FileSource :=
  {| fs_access := fun _ => false;
     fs_readFile := fun path => Err (IOError ("ENOENT: no such file or directory, open '" +:+ path +:+ "'"));
     fs_glob := fun _ _ => Ok [] |}.

(** A plugin written the way the framework asks for. *)
Definition fooSource : string :=
"/** @class Foo */
export class Foo extends Plugin {
  constructor(element, options) { super(element, options); }
  _init() { this.$element.attr('aria-expanded', 'false'); Keyboard.register('Foo', {}); }
  open() { this.$element.trigger('open.zf.foo'); this.$element.focus(); }
  _destroy() { this.$element.off('.zf.foo'); }
}".

Definition thisElement : Babel.Node :=
  Babel.MemberExpression (Babel.OtherNode []) (Babel.Identifier "$element").

Definition statement (expression : Babel.Node) : Babel.Node :=
  Babel.OtherNode [expression].

(** The tree of [fooSource]: file, program, the export and its class. *)
Definition fooAst : Babel.Node :=
  Babel.OtherNode [ Babel.OtherNode [
    Babel.ExportNamedDeclaration (Some
      (Babel.ClassDeclaration (Some "Foo") (Some (Babel.Identifier "Plugin"))
         [ Babel.ClassMethod (Babel.Identifier "constructor")
             [ Babel.Identifier "element"; Babel.Identifier "options";
               Babel.OtherNode [ statement
                 (Babel.CallExpression (Babel.OtherNode [])
                    [ Babel.Identifier "element"; Babel.Identifier "options" ]) ] ];
           Babel.ClassMethod (Babel.Identifier "_init")
             [ Babel.OtherNode
                 [ statement
                     (Babel.CallExpression
                        (Babel.MemberExpression thisElement (Babel.Identifier "attr"))
                        [ Babel.StringLiteral "aria-expanded"; Babel.StringLiteral "false" ]);
                   statement
                     (Babel.CallExpression
                        (Babel.MemberExpression (Babel.Identifier "Keyboard")
                           (Babel.Identifier "register"))
                        [ Babel.StringLiteral "Foo"; Babel.OtherNode [] ]) ] ];
           Babel.ClassMethod (Babel.Identifier "open")
             [ Babel.OtherNode
                 [ statement
                     (Babel.CallExpression
                        (Babel.MemberExpression thisElement (Babel.Identifier "trigger"))
                        [ Babel.StringLiteral "open.zf.foo" ]);
                   statement
                     (Babel.CallExpression
                        (Babel.MemberExpression thisElement (Babel.Identifier "focus"))
                        []) ] ];
           Babel.ClassMethod (Babel.Identifier "_destroy")
             [ Babel.OtherNode
                 [ statement
                     (Babel.CallExpression
                        (Babel.MemberExpression thisElement (Babel.Identifier "off"))
                        [ Babel.StringLiteral ".zf.foo" ]) ] ] ])) ] ].

(** A script the grammar rejects. *)
Definition brokenSource : string := "export class {".

(** A stylesheet with a card and a badge, and its tree. *)
Definition cardBadgeSource : string := ".card { margin: 0 } .badge { margin: 0 }".
Definition cardBadgeRoot : PostCss.Root :=
  [ PostCss.Rule [".card"] [PostCss.Decl "margin" "0" []];
    PostCss.Rule [".badge"] [PostCss.Decl "margin" "0" []] ].

(** A stylesheet the grammar rejects. *)
Definition brokenSheet : string := ".card {".

Definition lookupSource {A} (table : list (string * A)) (code : string) : string + A :=
  match List.find (fun kv => String.eqb (fst kv) code) table with
  | Some kv => inr (snd kv)
  | None => inl "Unexpected token"
  end.

Fixpoint endsWith (s suffix : string) : bool :=
  String.eqb s suffix ||
  match s with
  | EmptyString => false
  | String _ rest => endsWith rest suffix
  end.

Fixpoint take (n : nat) (s : string) : string :=
  match n, s with
  | S n', String c rest => String c (take n' rest)
  | _, _ => EmptyString
  end.

(** [path.basename] for plain POSIX file paths *)
Definition posixBasename (filePath ext : string) : string :=
  let file := List.last (splitChar "/" filePath) "" in
  if endsWith file ext && negb (String.eqb file ext)
  then take (String.length file - String.length ext) file
  else file.

(** [path.relative] for a path below the base directory *)
Definition posixRelative (from to : string) : string :=
  if String.prefix (from +:+ "/") to then drop (S (String.length from)) to else to.

(** A platform whose grammars know the sources above. *)
Definition samplePlatform : Platform :=
  {| babelParse := lookupSource [ (fooSource, fooAst) ];
     postcssParse := lookupSource [ (cardBadgeSource, cardBadgeRoot) ];
     path_join := fun a b => a +:+ "/" +:+ b;
     path_basename := posixBasename;
     path_relative := posixRelative;
     extractJSDoc := fun _ _ => None |}.

End Samples.

Module AnalyzerSpec.
Import JsString Parser PluginAnalyzer.

(** The source the claim on full conformance describes. *)
Definition conformsFully (code : string) (parsed : ParsedPlugin) : bool :=
  match extendsClass parsed with Some c => String.eqb c "Plugin" | None => false end
  && arrayIncludes (methods parsed) "_init"
  && arrayIncludes (methods parsed) "_destroy"
  && arrayIncludes (methods parsed) "constructor"
  && isPascalCase (className parsed)
  && includes code "/**" && includes code "@class"
  && forallb (fun e => includes e ".zf.") (triggeredEvents code)
  && (includes code "aria-" || includes code "role=")
  && (includes code "Keyboard" || includes code "KEYS")
  && (includes code "focus()" || includes code "$element.focus").

(** The report of a source that conforms fully. *)
Definition fullConformanceReport : AnalyzePatternResult :=
  {| result_matches := matches;
     issues := [];
     conformance := {| architecture := 80; conventions := 100; accessibility := 100 |};
     suggestions := [] |}.

End AnalyzerSpec.

Module IndexerSpec.
Import JsString Parser Async CodebaseIndexer Samples.

(** A file [indexPlugins] passes over because of its name. *)
Definition skipped (file : string) : bool :=
  includes file "foundation.util." || includes file "foundation.core."
  || includes file "foundation.js".

(** The catalog entries a file contributes: one when it was read and
    parsed into an entry, none otherwise. *)
Definition kept {A} (outcome : Result (option A)) : list A :=
  match outcome with
  | Ok (Some a) => [a]
  | _ => []
  end.

(** The effects of indexing one file: the read, and a warning when the
    read or the parse failed. *)
Definition fileEvents {A} (label file : string) (outcome : Result (option A))
    : list Event :=
  ReadFile file ::
  match outcome with
  | Err e => [Logged warn (label +:+ file) (errorMessage e)]
  | Ok _ => []
  end.

Section Outcomes.
Variable P : Platform.
Variable fs : FileSource.
Variable foundationRepoPath : string.

(** How reading and parsing one file settles. *)
Definition pluginFileResult (file : string) : Result (option FoundationPlugin) :=
  fst (parsePluginFile P fs foundationRepoPath file world0).
Definition componentFileResult (file : string) : Result (option FoundationComponent) :=
  fst (parseComponentFile P fs foundationRepoPath file world0).
Definition utilityFileResult (file : string) : Result (option FoundationUtility) :=
  fst (parseUtilityFile P fs foundationRepoPath file world0).

Definition keptPlugins (file : string) : list FoundationPlugin :=
  if skipped file then [] else kept (pluginFileResult file).
Definition pluginEvents (file : string) : list Event :=
  if skipped file then []
  else fileEvents "Failed to parse plugin file: " file (pluginFileResult file).

Definition jsDir : string := path_join P foundationRepoPath "js".
Definition scssDir : string := path_join P foundationRepoPath "scss/components".

(** How one directory walk settles and what it does: the glob, then
    the effects of every file, or the glob alone when it is rejected. *)
Definition walkOutcome {A} (dir pattern : string)
    (keep : string -> list A) (evs : string -> list Event)
    : Result (list A) * list Event :=
  match fs_glob fs dir pattern with
  | Ok files => (Ok (flat_map keep files), Globbed dir pattern :: flat_map evs files)
  | Err e => (Err e, [Globbed dir pattern])
  end.

Definition pluginsWalk : Result (list FoundationPlugin) * list Event :=
  walkOutcome jsDir "foundation.*.js" keptPlugins pluginEvents.
Definition componentsWalk : Result (list FoundationComponent) * list Event :=
  walkOutcome scssDir "*.scss"
    (fun file => kept (componentFileResult file))
    (fun file => fileEvents "Failed to parse component file: " file
                   (componentFileResult file)).
Definition utilitiesWalk : Result (list FoundationUtility) * list Event :=
  walkOutcome jsDir "foundation.util.*.js"
    (fun file => kept (utilityFileResult file))
    (fun file => fileEvents "Failed to parse utility file: " file
                   (utilityFileResult file)).

(** The outcome of the four walks together. *)
Definition walkAllResult : Result FoundationIndex :=
  fst (walkAll P fs foundationRepoPath world0).
Definition walkAllEvents : list Event :=
  snd pluginsWalk ++ snd componentsWalk ++ snd utilitiesWalk.






End Outcomes.

(** Ten plugin files, the fourth with invalid syntax. *)
Definition tenPluginFiles : list string :=
  [ "/repo/js/foundation.p0.js"; "/repo/js/foundation.p1.js";
    "/repo/js/foundation.p2.js"; "/repo/js/foundation.p3.js";
    "/repo/js/foundation.p4.js"; "/repo/js/foundation.p5.js";
    "/repo/js/foundation.p6.js"; "/repo/js/foundation.p7.js";
    "/repo/js/foundation.p8.js"; "/repo/js/foundation.p9.js" ].

Definition tenFilesSource : FileSource :=
  {| fs_access := fun path => existsb (String.eqb path) tenPluginFiles;
     fs_readFile := fun path =>
       if String.eqb path "/repo/js/foundation.p3.js" then Ok brokenSource
       else if existsb (String.eqb path) tenPluginFiles then Ok fooSource
       else Err (IOError "ENOENT");
     fs_glob := fun dir pattern =>
       if String.eqb dir "/repo/js" && String.eqb pattern "foundation.*.js"
       then Ok tenPluginFiles else Ok [] |}.

End IndexerSpec.

Module RefactoringSpec.
Import JsString Parser Async RefactoringAnalyzer Samples.

(** The parse of the primary input for the declared source kind. *)
Definition primaryParse (P : Platform) (type : SourceType) (sourceCode : string)
    : Result unit :=
  match type with
  | custom_plugin =>
      match parsePlugin P sourceCode with Ok _ => Ok tt | Err e => Err e end
  | custom_component =>
      match parseComponent P sourceCode with Ok _ => Ok tt | Err e => Err e end
  end.

(** The catalog relevant to a source kind, as (name, slug) pairs. *)
Definition catalogOf (type : SourceType) (index : FoundationIndex)
    : list (string * string) :=
  match type with
  | custom_plugin => map (fun p => (plugin_name p, plugin_slug p)) (plugins index)
  | custom_component =>
      map (fun c => (component_name c, component_slug c)) (components index)
  end.

(** The spec's feature table: the feature, its keywords, and the name
    and slug of the component it maps to, in detection order. *)
Definition featureTable (type : SourceType)
    : list (string * list string * (string * string)) :=
  match type with
  | custom_plugin =>
      [ ("dropdown", ["dropdown"; "menu"; "select"], ("Dropdown", "dropdown"));
        ("accordion", ["accordion"; "toggle"; "expand"], ("Accordion", "accordion"));
        ("modal", ["modal"; "dialog"; "overlay"], ("Reveal", "reveal"));
        ("carousel", ["carousel"; "slider"; "rotation"], ("Orbit", "orbit"));
        ("tooltip", ["tooltip"; "popover"; "hint"], ("Tooltip", "tooltip"));
        ("form", ["form"; "validate"; "validation"], ("Abide", "abide")) ]
  | custom_component =>
      [ ("button", ["button"; "btn"], ("Button", "button"));
        ("card", ["card"; "panel"; "box"], ("Card", "card"));
        ("badge", ["badge"; "label"; "tag"], ("Badge", "badge"));
        ("alert", ["alert"; "message"; "notification"], ("Callout", "callout"));
        ("callout", ["callout"; "notice"; "info"], ("Callout", "callout"));
        ("grid", ["grid"; "layout"; "column"], ("XY Grid", "xy-grid")) ]
  end.

(** A feature is detected when one of its keywords occurs in the source,
    letter case aside. *)
Definition detected (sourceCode : string) (keywords : list string) : bool :=
  existsb (fun k => includes (toLowerCase sourceCode) k) keywords.

(** One suggestion per detected feature, in table order, each at 85. *)
Definition detectedSuggestions (type : SourceType) (sourceCode : string)
    : list Suggestion :=
  flat_map
    (fun row =>
       let '(feature, keywords, (n, s)) := row in
       if detected sourceCode keywords
       then [ {| name := n; slug := s; similarity := 85;
                 reasoning := "Detected " +:+ feature +:+ " functionality" |} ]
       else [])
    (featureTable type).

Definition userTarget (n s : string) : Suggestion :=
  {| name := n; slug := s; similarity := 100;
     reasoning := "User specified target: " +:+ n |}.

(** A component directory with two partials, [_card.scss] and [_.scss];
    the slug of the second is the empty string. *)
Definition sheetFiles : list string :=
  [ "/repo/scss/components/_card.scss"; "/repo/scss/components/_.scss" ].

Definition twoSheets : FileSource :=
  {| fs_access := fun path => existsb (String.eqb path) sheetFiles;
     fs_readFile := fun path =>
       if existsb (String.eqb path) sheetFiles then Ok cardBadgeSource
       else Err (IOError "ENOENT");
     fs_glob := fun dir pattern =>
       if String.eqb dir "/repo/scss/components" && String.eqb pattern "*.scss"
       then Ok sheetFiles else Ok [] |}.

End RefactoringSpec.

Module TraversalSpec.
Import JsString Parser.

(** The method names a class body declares with identifier keys, in
    source order. *)
Definition methodNamesOf (body : list Babel.Node) : list string :=
  omap (fun m => match m with
                 | Babel.ClassMethod (Babel.Identifier n) _ => Some n
                 | _ => None
                 end) body.

(** The property names a class body declares with identifier keys. *)
Definition propertyNamesOf (body : list Babel.Node) : list string :=
  omap (fun m => match m with
                 | Babel.ClassProperty (Babel.Identifier n) _ => Some n
                 | _ => None
                 end) body.

(** Two bare classes that share a method name:
    [class A { run() {} stop() {} }] and [class B { run() {} x = 1 }]. *)
Definition twoBareClasses : Babel.Node :=
  Babel.OtherNode
    [ Babel.ClassDeclaration (Some "A") None
        [ Babel.ClassMethod (Babel.Identifier "run") [];
          Babel.ClassMethod (Babel.Identifier "stop") [] ];
      Babel.ClassDeclaration (Some "B") None
        [ Babel.ClassMethod (Babel.Identifier "run") [];
          Babel.ClassProperty (Babel.Identifier "x") (Some (Babel.OtherNode [])) ] ].

End TraversalSpec.

Module StylesheetSpec.
Import JsString Parser ParserSpec.

(** The parameter texts of the [@mixin] rules among the walked nodes, in
    walk order. *)
Definition mixinRules (nodes : list PostCss.Node) : list string :=
  omap (fun n => match n with
                 | PostCss.AtRule name params _ =>
                     if String.eqb name "mixin" then Some params else None
                 | _ => None
                 end) nodes.

(** The description the first mixin of a stylesheet receives: the last
    comment of the file when no [$]-declaration has taken it. *)
Definition mixinPending (nodes : list PostCss.Node) : option string :=
  match dollarDecls nodes with
  | [] => orUndefined (lastCommentText nodes)
  | _ :: _ => None
  end.

End StylesheetSpec.

Module SassDocSpec.
Import JsString Parser.

(** A line made of white space only. *)
Fixpoint blank (line : string) : bool :=
  match line with
  | EmptyString => true
  | String c rest => is_space c && blank rest
  end.

(** A line [extractSassDoc] reads as part of a doc comment. *)
Definition docLine (line : string) : bool := startsWith (trim line) "///".

(** The line feed that separates the lines. *)
Definition lineFeed : ascii := ascii_of_nat 10.

(** A stylesheet without any doc comment. *)
Definition plainSheet : string :=
".card { color: red }
$gap: 1rem;
@mixin pad($x) { padding: $x }".

End SassDocSpec.

Module ScoringSpec.
Import JsString Parser PluginAnalyzer.

(** The conditions the checks of [analyzePluginPattern] test, one by one. *)
Definition extendsPlugin (parsed : ParsedPlugin) : bool :=
  match extendsClass parsed with Some c => String.eqb c "Plugin" | None => false end.
Definition hasMethod (parsed : ParsedPlugin) (name : string) : bool :=
  arrayIncludes (methods parsed) name.
Definition namedInPascalCase (parsed : ParsedPlugin) : bool :=
  truthy (className parsed) && isPascalCase (className parsed).
Definition hasJSDoc (code : string) : bool :=
  includes code "/**" && includes code "@class".
Definition eventsPass (code : string) : bool :=
  existsb (fun e => includes e ".zf.") (triggeredEvents code)
  || (length (triggeredEvents code) =? 0)%nat.
Definition hasAria (code : string) : bool :=
  includes code "aria-" || includes code "role=".
Definition hasKeyboard (code : string) : bool :=
  includes code "Keyboard" || includes code "KEYS".
Definition hasFocus (code : string) : bool :=
  includes code "focus()" || includes code "$element.focus".

Definition points (passed : bool) (n : Z) : Z := if passed then n else 0.

(** The issue a failed check records. *)
Definition unless (passed : bool) (issue : ValidationIssue) : list ValidationIssue :=
  if passed then [] else [issue].

Definition baseClassIssue : ValidationIssue :=
  {| severity := sev_error;
     message := "Plugin must extend the Plugin base class";
     suggestion := "export class YourPlugin extends Plugin { ... }" |}.
Definition missingMethod (method : string) : ValidationIssue :=
  {| severity := sev_error;
     message := "Missing required method: " +:+ method;
     suggestion := "Add " +:+ method +:+ "() method to your plugin class" |}.
Definition constructorIssue : ValidationIssue :=
  {| severity := sev_warning;
     message := "Plugin should have a constructor";
     suggestion := "constructor(element, options) { super(element, options); }" |}.
Definition namingIssue : ValidationIssue :=
  {| severity := sev_warning;
     message := "Plugin class name should be PascalCase";
     suggestion := "Use PascalCase for class names (e.g., MyPlugin)" |}.
Definition jsdocIssue : ValidationIssue :=
  {| severity := sev_info;
     message := "Add JSDoc comments to your plugin";
     suggestion := "Add /** @class */ comment above your plugin class" |}.
Definition eventsIssue : ValidationIssue :=
  {| severity := sev_warning;
     message := "Events should use .zf.{plugin} namespace";
     suggestion := "Use event names like 'open.zf.accordion'" |}.
Definition ariaIssue : ValidationIssue :=
  {| severity := sev_warning;
     message := "Plugin should implement ARIA attributes for accessibility";
     suggestion := "Add ARIA attributes for screen reader support" |}.
Definition keyboardIssue : ValidationIssue :=
  {| severity := sev_info;
     message := "Consider adding keyboard navigation support";
     suggestion := "Use Foundation.Keyboard utility for keyboard events" |}.

(** The issues and the points of a source, read off the conditions. *)
Definition expectedIssues (code : string) (parsed : ParsedPlugin) : list ValidationIssue :=
  unless (extendsPlugin parsed) baseClassIssue
  ++ unless (hasMethod parsed "_init") (missingMethod "_init")
  ++ unless (hasMethod parsed "_destroy") (missingMethod "_destroy")
  ++ unless (hasMethod parsed "constructor") constructorIssue
  ++ unless (namedInPascalCase parsed) namingIssue
  ++ unless (hasJSDoc code) jsdocIssue
  ++ unless (eventsPass code) eventsIssue
  ++ unless (hasAria code) ariaIssue
  ++ unless (hasKeyboard code) keyboardIssue.

Definition architecturePoints (parsed : ParsedPlugin) : Z :=
  points (extendsPlugin parsed) 30
  + points (hasMethod parsed "_init" && hasMethod parsed "_destroy") 40
  + points (hasMethod parsed "constructor") 10.
Definition conventionsPoints (code : string) (parsed : ParsedPlugin) : Z :=
  points (namedInPascalCase parsed) 30 + points (hasJSDoc code) 20
  + points (eventsPass code) 20.
Definition accessibilityPoints (code : string) : Z :=
  points (hasAria code) 40 + points (hasKeyboard code) 30 + points (hasFocus code) 30.

(** What a check does to the locals: the issue it records when it
    fails, the points it adds to each axis when it passes. *)
Definition after (s : Scores) (recorded : list ValidationIssue) (a c x : Z) : Scores :=
  {| sc_issues := sc_issues s ++ recorded;
     architectureScore := architectureScore s + a;
     conventionsScore := conventionsScore s + c;
     accessibilityScore := accessibilityScore s + x |}.

(** Everything the analyzer asks for except the base class. *)
Definition conformsButForBaseClass (code : string) (parsed : ParsedPlugin) : bool :=
  negb (extendsPlugin parsed)
  && hasMethod parsed "_init" && hasMethod parsed "_destroy"
  && hasMethod parsed "constructor"
  && namedInPascalCase parsed && hasJSDoc code && eventsPass code
  && hasAria code && hasKeyboard code && hasFocus code.

(** The plugin of the sample source with its parent class taken away. *)
Definition fooWithoutParent : ParsedPlugin :=
  set_extendsClass None (parsePluginAst Samples.fooAst).

End ScoringSpec.

Module CatalogSpec.
Import JsString Parser Async CodebaseIndexer Samples IndexerSpec.

Definition rejected {A} (r : Result A) : bool :=
  match r with Err _ => true | Ok _ => false end.






(** A grammar that finds no declaration in any source. *)
Definition emptyModulePlatform : Platform :=
  {| babelParse := fun _ => inr (Babel.OtherNode []);
     postcssParse := postcssParse samplePlatform;
     path_join := path_join samplePlatform;
     path_basename := path_basename samplePlatform;
     path_relative := path_relative samplePlatform;
     extractJSDoc := extractJSDoc samplePlatform |}.

(** A grammar that reads the sample plugin in every source. *)
Definition samplePluginPlatform : Platform :=
  {| babelParse := fun _ => inr fooAst;
     postcssParse := postcssParse samplePlatform;
     path_join := path_join samplePlatform;
     path_basename := path_basename samplePlatform;
     path_relative := path_relative samplePlatform;
     extractJSDoc := extractJSDoc samplePlatform |}.

(** A line of a plugin that names a data attribute. *)
Definition tabsSource : string := "$('[data-tabs]')".

(** A file source in which every path holds the same text. *)
Definition sameEverywhere (content : string) : FileSource :=
  {| fs_access := fun _ => true;
     fs_readFile := fun _ => Ok content;
     fs_glob := fun _ _ => Ok [] |}.

End CatalogSpec.

Module HandlerSpec.
Import JsString Parser Async PluginAnalyzer ToolHandler.

(** The text a match was selected by: its name and its description. *)
Definition searchedText (m : SimilarPatternMatch) : string :=
  toLowerCase (match_name m +:+ " " +:+ join "" (relevantSnippets m)).

(** A catalog with one plugin and one component. *)
Definition tinyIndex : FoundationIndex :=
  {| plugins :=
       [ {| plugin_name := "Dropdown"; plugin_slug := "dropdown";
            plugin_path := "js/foundation.dropdown.js";
            plugin_description := "Dropdown plugin";
            plugin_className := "Dropdown"; plugin_selector := "[data-dropdown]";
            plugin_supportsNesting := false; plugin_deprecatedInVersion := None;
            plugin_docs := "https://get.foundation/sites/docs/dropdown.html" |} ];
     components :=
       [ {| component_name := "Dropdown Menu"; component_slug := "dropdown-menu";
            component_scssPath := "scss/components/_dropdown-menu.scss";
            component_description := "Dropdown Menu component";
            component_mixins := []; component_cssClasses := ["dropdown"];
            component_docs := "https://get.foundation/sites/docs/dropdown-menu.html" |} ];
     utilities := [];
     grids := [] |}.

End HandlerSpec.

Module ConfigSpec.
Import JsString ToolHandler Config.

(** The families of cache keys and their arguments. *)
Inductive Key : Type :=
| PluginIndex
| Plugin (slug : string)
| ComponentIndex
| Component (slug : string)
| BuildConfig
| Architecture (type : string)
| Docs (slug : string)
| FileContent (path : string)
| ParsedPlugin (path : string)
| ParsedComponent (path : string).

Definition keyOf (k : Key) : string :=
  match k with
  | PluginIndex => CacheKeys.pluginIndex
  | Plugin slug => CacheKeys.plugin slug
  | ComponentIndex => CacheKeys.componentIndex
  | Component slug => CacheKeys.component slug
  | BuildConfig => CacheKeys.buildConfig
  | Architecture type => CacheKeys.architecture type
  | Docs slug => CacheKeys.docs slug
  | FileContent path => CacheKeys.fileContent path
  | ParsedPlugin path => CacheKeys.parsedPlugin path
  | ParsedComponent path => CacheKeys.parsedComponent path
  end.


End ConfigSpec.

Module ResourceSpec.
Import JsString Async ToolHandler ResourceHandler.

(** The end of the address of a dynamic resource. *)
Definition kindSuffix (kind : DynamicKind) : string :=
  match kind with
  | kind_template => "/template"
  | kind_docs => "/docs"
  end.

(** A slug an address can carry: not empty and without a slash. *)
Definition addressable (slug : string) : bool :=
  truthy slug && PluginAnalyzer.all_chars not_slash slug.

(** A world whose cache holds the small catalog. *)
Definition tinyWorld : World :=
  {| cache := {[ CodebaseIndexer.pluginIndexKey := HandlerSpec.tinyIndex ]};
     trace := [] |}.

End ResourceSpec.

(** ** Worlds and traces *)

Module WorldFacts.
Import Samples.


Lemma logged_nil w : logged w [] = w.
Proof. destruct w. unfold logged. simpl. rewrite app_nil_r. reflexivity. Qed.

Lemma logged_logged w l1 l2 : logged (logged w l1) l2 = logged w (l1 ++ l2).
Proof. unfold logged. simpl. rewrite app_assoc. reflexivity. Qed.

Lemma cache_logged w l : cache (logged w l) = cache w.
Proof. reflexivity. Qed.

Lemma trace_logged w l : trace (logged w l) = trace w ++ l.
Proof. reflexivity. Qed.

Lemma since_logged w l : since w (logged w l) = l.
Proof.
  unfold since, logged. simpl.
  rewrite List.skipn_app, List.skipn_all, Nat.sub_diag. reflexivity.
Qed.

End WorldFacts.

(** ** The script parser *)

Module ParserFacts.
Import JsString Parser ParserSpec.

Lemma traverse_children cs st :
  traverse (Babel.OtherNode cs) st = traverseAll cs st.
Proof.
  unfold traverseAll. revert st.
  induction cs as [|c cs IH]; intros st; [reflexivity|].
  simpl. rewrite <- IH. reflexivity.
Qed.


Lemma traverse_class id sup body st :
  traverse (Babel.ClassDeclaration id sup body) st =
  traverseAll body
    (match sup with
     | Some s => traverse s (onClassDeclaration id sup body st)
     | None => onClassDeclaration id sup body st
     end).
Proof.
  change (traverse (Babel.ClassDeclaration id sup body) st)
    with (traverse (Babel.OtherNode body)
            (match sup with
             | Some s => traverse s (onClassDeclaration id sup body st)
             | None => onClassDeclaration id sup body st
             end)).
  apply traverse_children.
Qed.

Lemma traverse_method key body st :
  traverse (Babel.ClassMethod key body) st = traverseAll body (traverse key st).
Proof.
  change (traverse (Babel.ClassMethod key body) st)
    with (traverse (Babel.OtherNode body) (traverse key st)).
  apply traverse_children.
Qed.

Lemma traverse_call callee args st :
  traverse (Babel.CallExpression callee args) st =
  traverseAll args (traverse callee (onCallExpression callee args st)).
Proof.
  change (traverse (Babel.CallExpression callee args) st)
    with (traverse (Babel.OtherNode args)
            (traverse callee (onCallExpression callee args st))).
  apply traverse_children.
Qed.

(** *** What a visit keeps *)











Lemma exportsClass_children cs :
  exportsClass (Babel.OtherNode cs) = negb (noExportedClass cs).
Proof.
  unfold noExportedClass.
  induction cs as [|c cs IH]; [reflexivity|].
  change (exportsClass (Babel.OtherNode (c :: cs)))
    with (exportsClass c || exportsClass (Babel.OtherNode cs)).
  rewrite IH. simpl. destruct (exportsClass c); reflexivity.
Qed.



(** *** What an exported class sets *)








End ParserFacts.

(** ** The stylesheet parser *)

Module ComponentFacts.
Import JsString Parser ParserSpec.

Lemma last_cons {A} (a d : A) (l : list A) :
  List.last (a :: l) d = List.last l a.
Proof.
  revert a d. induction l as [|b l IH]; intros a d; [reflexivity|].
  change (List.last (a :: b :: l) d) with (List.last (b :: l) d).
  rewrite !IH. reflexivity.
Qed.

(** After [walkComments] the pending comment is the last comment of the
    file, and nothing else has changed. *)
Lemma walkComments_state nodes st :
  let st' := fold_left onComment nodes st in
  currentComment st' = List.last (map trim (commentTexts nodes)) (currentComment st) /\
  st_variables st' = st_variables st /\
  st_mixins st' = st_mixins st /\
  st_classes st' = st_classes st.
Proof.
  revert st. induction nodes as [|n nodes IH]; intros st; [repeat split|].
  simpl. destruct (IH (onComment st n)) as (Hc & Hv & Hm & Hk).
  rewrite Hc, Hv, Hm, Hk. clear IH Hc Hv Hm Hk.
  destruct n as [text | prop value ns | nm params ns | sels ns];
    try (repeat split; reflexivity).
  repeat split.
  change (commentTexts (PostCss.Comment text :: nodes))
    with (text :: commentTexts nodes).
  simpl. symmetry. apply last_cons.
Qed.

(** [walkDecls] hands the pending comment to the first [$]-declaration
    it meets and nothing to the others. *)
Lemma walkDecls_state nodes st :
  let st' := fold_left onDecl nodes st in
  st_variables st' =
    st_variables st ++ attachPending (currentComment st) (dollarDecls nodes) /\
  st_mixins st' = st_mixins st /\
  st_classes st' = st_classes st.
Proof.
  revert st. induction nodes as [|n nodes IH]; intros st.
  - simpl. rewrite app_nil_r. repeat split.
  - simpl. destruct (IH (onDecl st n)) as (Hv & Hm & Hk).
    rewrite Hv, Hm, Hk. clear IH Hv Hm Hk.
    destruct n as [text | prop value ns | nm params ns | sels ns];
      try (repeat split; reflexivity).
    unfold dollarDecls. simpl.
    destruct (startsWith prop "$"); simpl; [|repeat split; reflexivity].
    repeat split. rewrite <- app_assoc. f_equal. simpl. f_equal.
    fold (dollarDecls nodes).
    destruct (dollarDecls nodes) as [|[p v] rest]; reflexivity.
Qed.

Lemma walkAtRules_variables nodes st :
  st_variables (fold_left onAtRule nodes st) = st_variables st.
Proof.
  revert st. induction nodes as [|n nodes IH]; intros st; [reflexivity|].
  simpl. rewrite IH. destruct n; try reflexivity.
  simpl. destruct (String.eqb _ _); reflexivity.
Qed.

Lemma walkRules_variables nodes st :
  st_variables (fold_left onRule nodes st) = st_variables st.
Proof.
  revert st. induction nodes as [|n nodes IH]; intros st; [reflexivity|].
  simpl. rewrite IH. destruct n; reflexivity.
Qed.

(** What [parseComponent] computes for the variables of any stylesheet:
    the first [$]-declaration of the file receives the last comment of
    the file, every other one receives no description. *)
Lemma parseComponent_variables root :
  variables (parseComponentRoot root) =
  attachPending (lastCommentText (walk root)) (dollarDecls (walk root)).
Proof.
  unfold parseComponentRoot. cbv zeta. simpl variables.
  rewrite walkRules_variables, walkAtRules_variables.
  destruct (walkDecls_state (walk root)
              (fold_left onComment (walk root) initialComponent)) as (Hv & _).
  rewrite Hv.
  destruct (walkComments_state (walk root) initialComponent) as (Hc & Hv0 & _).
  rewrite Hc, Hv0. reflexivity.
Qed.

(** C1: the code at the failing input.  For a stylesheet that declares
    [$a], then carries a doc comment, then declares [$b], the comment is
    attached to [$a], which precedes it, and [$b], which it documents,
    gets no description. *)
Theorem comment_attached_to_earlier_variable text :
  variables (parseComponentRoot (commentBetweenVariables text)) =
  [ {| var_name := "$a"; var_defaultValue := "1";
       var_description := orUndefined (trim text) |};
    {| var_name := "$b"; var_defaultValue := "2"; var_description := None |} ].
Proof. reflexivity. Qed.

(** With a single comment in front of the first variable the walks
    agree with a sequential reading. *)
Lemma comment_then_variables text :
  variables (parseComponentRoot (commentThenVariables text)) =
  [ {| var_name := "$pad"; var_defaultValue := "1rem";
       var_description := orUndefined (trim text) |};
    {| var_name := "$gap"; var_defaultValue := "2rem"; var_description := None |} ].
Proof. reflexivity. Qed.

(** The line-by-line extractor of the same file reads the same
    stylesheet sequentially: the comment documents [b], and [a] has no
    entry. *)
Lemma extractSassDoc_is_sequential :
  extractSassDoc commentBetweenSource !! "b" = Some "Doc for b" /\
  extractSassDoc commentBetweenSource !! "a" = None /\
  extractSassDoc paddingSource !! "pad" = Some "Padding amount".
Proof. repeat split; vm_compute; reflexivity. Qed.

End ComponentFacts.

(** ** The pattern analyzer *)

Module PluginAnalyzerFacts.
Import JsString Parser Async PluginAnalyzer AnalyzerSpec Samples WorldFacts.

Example fooAst_parsed :
  parsePluginAst fooAst =
  {| className := "Foo";
     methods := ["constructor"; "_init"; "open"; "_destroy"];
     properties := [];
     events := ["open.zf.foo"];
     extendsClass := Some "Plugin";
     imports := [];
     exports := ["Foo"] |}.
Proof. reflexivity. Qed.

Example fooSource_events : triggeredEvents fooSource = ["open.zf.foo"].
Proof. vm_compute. reflexivity. Qed.

Example fooSource_conforms : conformsFully fooSource (parsePluginAst fooAst) = true.
Proof. vm_compute. reflexivity. Qed.

Lemma only_namespaced_events_pass events :
  forallb (fun e => includes e ".zf.") events = true ->
  existsb (fun e => includes e ".zf.") events || (length events =? 0)%nat = true.
Proof.
  destruct events as [|e es]; [reflexivity|].
  simpl. intros H. apply andb_prop in H as [-> _]. reflexivity.
Qed.

(** The scores of a source that passes every check: the three checks of
    the architecture axis add up to 80. *)
Lemma scorePlugin_full code parsed :
  conformsFully code parsed = true ->
  scorePlugin code parsed = fullConformanceReport.
Proof.
  unfold conformsFully. intros H.
  apply andb_prop in H as [H Hfocus]. apply andb_prop in H as [H Hkeys].
  apply andb_prop in H as [H Haria]. apply andb_prop in H as [H Hevents].
  apply andb_prop in H as [H Htag]. apply andb_prop in H as [H Hdoc].
  apply andb_prop in H as [H Hpascal]. apply andb_prop in H as [H Hctor].
  apply andb_prop in H as [H Hdestroy]. apply andb_prop in H as [H Hinit].
  destruct (extendsClass parsed) as [c|] eqn:Hext; [|discriminate H].
  apply String.eqb_eq in H. subst c.
  assert (Ht : truthy (className parsed) = true).
  { destruct (className parsed); [discriminate Hpascal|reflexivity]. }
  assert (Hs : runChecks code parsed =
               {| sc_issues := []; architectureScore := 80;
                  conventionsScore := 70; accessibilityScore := 100 |}).
  { unfold runChecks, checkExtends, checkRequiredMethods, checkConstructor,
      checkNaming, checkJSDoc, checkEvents, checkAria, checkKeyboard, checkFocus,
      requiredMethods.
    rewrite Hext. simpl List.filter.
    rewrite Hinit, Hdestroy, Hctor, Ht, Hpascal, Hdoc, Htag, Haria, Hkeys, Hfocus.
    rewrite (only_namespaced_events_pass _ Hevents).
    reflexivity. }
  unfold scorePlugin. rewrite Hs. reflexivity.
Qed.

(** [analyzePluginPattern] as a function of the outcome of the parse. *)
Lemma analyzePluginPattern_unfold P code w :
  analyzePluginPattern P code w =
  match parsePlugin P code with
  | Ok parsed => (Ok (scorePlugin code parsed), w)
  | Err e =>
      (Ok parseFailureReport,
       logged w [Logged error "Failed to analyze plugin pattern" (errorMessage e)])
  end.
Proof.
  unfold analyzePluginPattern, tryCatch, bind, lift, ret, logger, emit, logged.
  destruct (parsePlugin P code); reflexivity.
Qed.

(** [analyzePattern] as a function of what the file source answers. *)
Lemma analyzePattern_unfold P fs params w :
  analyzePattern P fs params w =
  let w1 := logged w [Logged debug "Analyzing pattern" ""; Accessed (code params)] in
  let dispatch source w' :=
    match patternType params with
    | plugin => analyzePluginPattern P source w'
    | _ => (Ok notImplementedReport, w')
    end in
  let w2 := logged w [Logged debug "Analyzing pattern" ""; Accessed (code params);
                      ReadFile (code params)] in
  if fs_access fs (code params) then
    match fs_readFile fs (code params) with
    | Ok content => dispatch content w2
    | Err e => (Err e, w2)
    end
  else dispatch (code params) w1.
Proof.
  unfold analyzePattern, fileExists, readFile, bind, lift, ret, logger, emit, logged.
  cbv zeta. simpl.
  destruct (fs_access fs (code params)); simpl.
  - destruct (fs_readFile fs (code params)); simpl; rewrite <- ?app_assoc; simpl;
      [reflexivity|].
    destruct (patternType params); reflexivity.
  - rewrite <- ?app_assoc; simpl. destruct (patternType params); reflexivity.
Qed.


(** C2 (as amended): a plugin source that extends [Plugin], implements
    [_init] and [_destroy], has a constructor, a PascalCase class name,
    the doc-comment and class-tag markers, only namespaced trigger
    events, an ARIA marker, a keyboard marker and a focus call scores 80
    on architecture and 100 on conventions and on accessibility, and is
    classified as a match, with no issue and no suggestion. *)
Theorem fully_conforming_plugin_report P fs source ast w :
  fs_access fs source = false ->
  babelParse P source = inr ast ->
  conformsFully source (parsePluginAst ast) = true ->
  exists r,
    fst (analyzePattern P fs {| code := source; patternType := plugin |} w) = Ok r /\
    architecture (conformance r) = 80%Z /\
    conventions (conformance r) = 100%Z /\
    accessibility (conformance r) = 100%Z /\
    result_matches r = matches /\
    issues r = [] /\ suggestions r = [].
Proof.
  intros Hfile Hparse Hfull.
  exists fullConformanceReport. split; [|repeat split].
  rewrite analyzePattern_unfold. simpl. rewrite Hfile.
  rewrite analyzePluginPattern_unfold. unfold parsePlugin. rewrite Hparse.
  simpl. rewrite (scorePlugin_full _ _ Hfull). reflexivity.
Qed.

Lemma fully_conforming_plugin_report_witness :
  exists r,
    fst (analyzePattern samplePlatform withoutFiles
           {| code := fooSource; patternType := plugin |} world0) = Ok r /\
    architecture (conformance r) = 80%Z /\
    conventions (conformance r) = 100%Z /\
    accessibility (conformance r) = 100%Z /\
    result_matches r = matches /\
    issues r = [] /\ suggestions r = [].
Proof.
  apply (fully_conforming_plugin_report samplePlatform withoutFiles fooSource fooAst).
  - reflexivity.
  - vm_compute. reflexivity.
  - vm_compute. reflexivity.
Defined.

(** C2 as stated fails: the sample plugin has every feature the claim
    lists, and its architecture score is 80, not 100. *)
Lemma full_conformance_architecture_below_100 :
  conformsFully fooSource (parsePluginAst fooAst) = true /\
  exists r,
    fst (analyzePattern samplePlatform withoutFiles
           {| code := fooSource; patternType := plugin |} world0) = Ok r /\
    architecture (conformance r) = 80%Z /\
    architecture (conformance r) <> 100%Z.
Proof.
  split; [vm_compute; reflexivity|].
  exists fullConformanceReport.
  split; [vm_compute; reflexivity|].
  split; [reflexivity|discriminate].
Qed.

(** C8: when the parse of the analysed source fails, the plugin analysis
    returns the fixed failure report: no match, one error issue saying
    the parse failed, the three axes at zero, and the one suggestion to
    fix the syntax; the failure is logged and nothing is thrown. *)
Theorem parse_failure_report P source e w :
  parsePlugin P source = Err e ->
  analyzePluginPattern P source w =
    (Ok {| result_matches := no_match;
           issues := [ {| severity := sev_error;
                          message := "Failed to parse code";
                          suggestion := "Ensure code is valid JavaScript" |} ];
           conformance := {| architecture := 0; conventions := 0; accessibility := 0 |};
           suggestions := ["Fix syntax errors before analyzing"] |},
     logged w [Logged error "Failed to analyze plugin pattern" (errorMessage e)])
  /\ forall fs,
      fs_access fs source = false ->
      fst (analyzePattern P fs {| code := source; patternType := plugin |} w) =
      Ok parseFailureReport.
Proof.
  intros Hparse. split.
  - rewrite analyzePluginPattern_unfold, Hparse. reflexivity.
  - intros fs Hfile. rewrite analyzePattern_unfold. simpl. rewrite Hfile.
    rewrite analyzePluginPattern_unfold, Hparse. reflexivity.
Qed.

Lemma parse_failure_report_witness :
  fst (analyzePluginPattern samplePlatform brokenSource world0) = Ok parseFailureReport.
Proof.
  destruct (parse_failure_report samplePlatform brokenSource
              (ParseError "Failed to parse JavaScript plugin: Unexpected token"
                 brokenSource)
              world0 eq_refl) as [H _].
  rewrite H. reflexivity.
Defined.


End PluginAnalyzerFacts.

(** ** The codebase index *)

Module IndexerFacts.
Import JsString Parser Async CodebaseIndexer Samples IndexerSpec.
Import WorldFacts.

Section Facts.
Variable P : Platform.
Variable fs : FileSource.
Variable repo : string.

Lemma parsePluginFile_unfold file w :
  parsePluginFile P fs repo file w =
  (pluginFileResult P fs repo file, logged w [ReadFile file]).
Proof.
  unfold pluginFileResult, parsePluginFile, readFile, bind, lift, ret, emit, logged.
  simpl. destruct (fs_readFile fs file) as [e|content]; [reflexivity|].
  destruct (parsePlugin P content) as [e|parsed]; [reflexivity|].
  destruct (negb (truthy (className parsed))); reflexivity.
Qed.

Lemma parseComponentFile_unfold file w :
  parseComponentFile P fs repo file w =
  (componentFileResult P fs repo file, logged w [ReadFile file]).
Proof.
  unfold componentFileResult, parseComponentFile, readFile, bind, lift, ret, emit,
    logged.
  simpl. destruct (fs_readFile fs file) as [e|content]; [reflexivity|].
  destruct (parseComponent P content) as [e|parsed]; reflexivity.
Qed.

Lemma parseUtilityFile_unfold file w :
  parseUtilityFile P fs repo file w =
  (utilityFileResult P fs repo file, logged w [ReadFile file]).
Proof.
  unfold utilityFileResult, parseUtilityFile, readFile, bind, lift, ret, emit, logged.
  simpl. destruct (fs_readFile fs file) as [e|content]; [reflexivity|].
  destruct (parsePlugin P content) as [e|parsed]; reflexivity.
Qed.

(** A loop whose body always fulfils, adding [keep file] to the
    accumulator and [evs file] to the trace. *)
Lemma forEachFile_shape {A} (body : list A -> string -> M (list A))
    (keep : string -> list A) (evs : string -> list Event) :
  (forall acc file w, body acc file w = (Ok (acc ++ keep file), logged w (evs file))) ->
  forall files acc w,
    forEachFile body files acc w =
    (Ok (acc ++ flat_map keep files), logged w (flat_map evs files)).
Proof.
  intros Hbody. induction files as [|file files IH]; intros acc w.
  - simpl. unfold ret. rewrite app_nil_r, logged_nil. reflexivity.
  - simpl. unfold bind. rewrite Hbody, IH, logged_logged, <- app_assoc.
    reflexivity.
Qed.

Lemma indexPluginFile_shape acc file w :
  indexPluginFile P fs repo acc file w =
  (Ok (acc ++ keptPlugins P fs repo file), logged w (pluginEvents P fs repo file)).
Proof.
  unfold indexPluginFile, keptPlugins, pluginEvents. fold (skipped file).
  destruct (skipped file).
  - unfold ret. rewrite app_nil_r, logged_nil. reflexivity.
  - unfold tryCatch, bind. rewrite parsePluginFile_unfold.
    destruct (pluginFileResult P fs repo file) as [e|[p|]]; simpl.
    + unfold logger, emit, ret. simpl. rewrite app_nil_r.
      unfold logged. simpl. rewrite <- app_assoc. reflexivity.
    + reflexivity.
    + unfold ret. rewrite app_nil_r. reflexivity.
Qed.

Lemma indexComponentFile_shape acc file w :
  indexComponentFile P fs repo acc file w =
  (Ok (acc ++ kept (componentFileResult P fs repo file)),
   logged w (fileEvents "Failed to parse component file: " file
               (componentFileResult P fs repo file))).
Proof.
  unfold indexComponentFile, tryCatch, bind. rewrite parseComponentFile_unfold.
  destruct (componentFileResult P fs repo file) as [e|[c|]]; simpl.
  - unfold logger, emit, ret. simpl. rewrite app_nil_r.
    unfold logged. simpl. rewrite <- app_assoc. reflexivity.
  - reflexivity.
  - unfold ret. rewrite app_nil_r. reflexivity.
Qed.

Lemma indexUtilityFile_shape acc file w :
  indexUtilityFile P fs repo acc file w =
  (Ok (acc ++ kept (utilityFileResult P fs repo file)),
   logged w (fileEvents "Failed to parse utility file: " file
               (utilityFileResult P fs repo file))).
Proof.
  unfold indexUtilityFile, tryCatch, bind. rewrite parseUtilityFile_unfold.
  destruct (utilityFileResult P fs repo file) as [e|[u|]]; simpl.
  - unfold logger, emit, ret. simpl. rewrite app_nil_r.
    unfold logged. simpl. rewrite <- app_assoc. reflexivity.
  - reflexivity.
  - unfold ret. rewrite app_nil_r. reflexivity.
Qed.

Lemma walk_shape {A} (body : list A -> string -> M (list A)) dir pattern keep evs w :
  (forall acc file w, body acc file w = (Ok (acc ++ keep file), logged w (evs file))) ->
  bind (findFiles fs dir pattern) (fun files => forEachFile body files []) w =
  (fst (walkOutcome fs dir pattern keep evs),
   logged w (snd (walkOutcome fs dir pattern keep evs))).
Proof.
  intros Hbody. unfold walkOutcome, findFiles, bind, emit, lift. simpl.
  destruct (fs_glob fs dir pattern) as [e|files]; [reflexivity|].
  rewrite (forEachFile_shape body keep evs Hbody). simpl.
  unfold logged. simpl. rewrite <- app_assoc. reflexivity.
Qed.

Lemma indexPlugins_unfold w :
  indexPlugins P fs repo w =
  (fst (pluginsWalk P fs repo), logged w (snd (pluginsWalk P fs repo))).
Proof. apply walk_shape, indexPluginFile_shape. Qed.

Lemma indexComponents_unfold w :
  indexComponents P fs repo w =
  (fst (componentsWalk P fs repo), logged w (snd (componentsWalk P fs repo))).
Proof. apply walk_shape, indexComponentFile_shape. Qed.

Lemma indexUtilities_unfold w :
  indexUtilities P fs repo w =
  (fst (utilitiesWalk P fs repo), logged w (snd (utilitiesWalk P fs repo))).
Proof. apply walk_shape, indexUtilityFile_shape. Qed.

(** The four walks settle the same way in every world and only add
    their effects to the trace. *)
Lemma walkAll_unfold w :
  walkAll P fs repo w =
  (walkAllResult P fs repo, logged w (walkAllEvents P fs repo)).
Proof.
  unfold walkAllResult, walkAllEvents, walkAll.
  rewrite !indexPlugins_unfold, !indexComponents_unfold, !indexUtilities_unfold.
  unfold indexGrids, ret. rewrite !logged_logged.
  destruct (fst (pluginsWalk P fs repo)), (fst (componentsWalk P fs repo)),
    (fst (utilitiesWalk P fs repo)); reflexivity.
Qed.


(** [buildIndex] as a function of the cache and of the four walks. *)
Lemma buildIndex_unfold w :
  buildIndex P fs repo w =
  match cache w !! pluginIndexKey with
  | Some index =>
      (Ok index,
       logged w [ Logged info "Building Foundation codebase index..." "";
                  Logged debug "Returning cached index" "" ])
  | None =>
      match walkAllResult P fs repo with
      | Ok index =>
          (Ok index,
           {| cache := <[pluginIndexKey := index]> (cache w);
              trace := trace w
                ++ [Logged info "Building Foundation codebase index..." ""]
                ++ walkAllEvents P fs repo
                ++ [Logged info
                      ("Index built: " +:+ pretty (length (plugins index))
                       +:+ " plugins, " +:+ pretty (length (components index))
                       +:+ " components") ""] |})
      | Err e =>
          (Err e,
           logged w (Logged info "Building Foundation codebase index..." ""
                     :: walkAllEvents P fs repo))
      end
  end.
Proof.
  unfold buildIndex, bind, logger, emit, cacheGet, cacheSet, ret. simpl.
  destruct (cache w !! pluginIndexKey) as [index|].
  - unfold logged. simpl. rewrite <- app_assoc. reflexivity.
  - rewrite walkAll_unfold.
    destruct (walkAllResult P fs repo) as [e|index]; unfold logged; simpl.
    + rewrite <- app_assoc. reflexivity.
    + rewrite <- !app_assoc. reflexivity.
Qed.


End Facts.


(** A build that fulfils leaves its snapshot in the cache. *)
Lemma buildIndex_caches P fs repo w index w1 :
  buildIndex P fs repo w = (Ok index, w1) ->
  cache w1 !! pluginIndexKey = Some index.
Proof.
  rewrite buildIndex_unfold.
  destruct (cache w !! pluginIndexKey) as [cached|] eqn:Hget.
  - intros [= <- <-]. exact Hget.
  - destruct (walkAllResult P fs repo) as [e|built]; [discriminate|].
    intros [= <- <-]. simpl. apply lookup_insert_eq.
Qed.





Section Isolation.
Variable P : Platform.
Variable fs : FileSource.
Variable repo : string.








Lemma walkAllResult_unfold :
  walkAllResult P fs repo =
  match fst (pluginsWalk P fs repo), fst (componentsWalk P fs repo),
        fst (utilitiesWalk P fs repo) with
  | Ok ps, Ok cs, Ok us =>
      match fst (indexGrids world0) with
      | Ok gs => Ok {| plugins := ps; components := cs; utilities := us; grids := gs |}
      | Err e => Err e
      end
  | Err e, _, _ => Err e
  | _, Err e, _ => Err e
  | _, _, Err e => Err e
  end.
Proof.
  unfold walkAllResult, walkAll.
  rewrite !indexPlugins_unfold, !indexComponents_unfold, !indexUtilities_unfold.
  unfold indexGrids, ret.
  destruct (fst (pluginsWalk P fs repo)), (fst (componentsWalk P fs repo)),
    (fst (utilitiesWalk P fs repo)); reflexivity.
Qed.



End Isolation.


End IndexerFacts.

(** ** The refactoring analyzer *)

Module RefactoringFacts.
Import JsString Parser Async CodebaseIndexer RefactoringAnalyzer.
Import Samples RefactoringSpec WorldFacts.

Lemma analyzePluginForRefactoring_unfold P fs repo sourceCode target w :
  analyzePluginForRefactoring P fs repo sourceCode target w =
  match parsePlugin P sourceCode with
  | Err e =>
      (Err e,
       logged w [Logged error "Failed to analyze plugin for refactoring" (errorMessage e)])
  | Ok _ =>
      match buildIndex P fs repo w with
      | (Ok index, w') =>
          let suggestions :=
            findSimilarComponents plugin_name plugin_slug
              (pluginFeatures sourceCode) (plugins index) target in
          (Ok {| sourceType := custom_plugin;
                 suggestedFoundationComponents := suggestions;
                 migrationSteps := generatePluginMigrationSteps suggestions;
                 codeAdaptation := generatePluginCodeAdaptation;
                 breakingChanges := identifyPluginBreakingChanges sourceCode;
                 recommendedApproach :=
                   generateRecommendedApproach custom_plugin suggestions;
                 integrationGuide := generateIntegrationGuide custom_plugin suggestions |},
           w')
      | (Err e, w') =>
          (Err e,
           logged w' [Logged error "Failed to analyze plugin for refactoring"
                        (errorMessage e)])
      end
  end.
Proof.
  unfold analyzePluginForRefactoring, tryCatch, bind, lift, ret, throw, logger, emit,
    logged.
  destruct (parsePlugin P sourceCode) as [e|parsed]; [reflexivity|].
  destruct (buildIndex P fs repo w) as [[e|index] w']; reflexivity.
Qed.

Lemma analyzeComponentForRefactoring_unfold P fs repo sourceCode target w :
  analyzeComponentForRefactoring P fs repo sourceCode target w =
  match parseComponent P sourceCode with
  | Err e =>
      (Err e,
       logged w [Logged error "Failed to analyze component for refactoring"
                   (errorMessage e)])
  | Ok _ =>
      match buildIndex P fs repo w with
      | (Ok index, w') =>
          let suggestions :=
            findSimilarComponents component_name component_slug
              (componentFeatures sourceCode) (components index) target in
          (Ok {| sourceType := custom_component;
                 suggestedFoundationComponents := suggestions;
                 migrationSteps := generateComponentMigrationSteps suggestions;
                 codeAdaptation := generateComponentCodeAdaptation;
                 breakingChanges := identifyComponentBreakingChanges sourceCode;
                 recommendedApproach :=
                   generateRecommendedApproach custom_component suggestions;
                 integrationGuide :=
                   generateIntegrationGuide custom_component suggestions |},
           w')
      | (Err e, w') =>
          (Err e,
           logged w' [Logged error "Failed to analyze component for refactoring"
                        (errorMessage e)])
      end
  end.
Proof.
  unfold analyzeComponentForRefactoring, tryCatch, bind, lift, ret, throw, logger, emit,
    logged.
  destruct (parseComponent P sourceCode) as [e|parsed]; [reflexivity|].
  destruct (buildIndex P fs repo w) as [[e|index] w']; reflexivity.
Qed.

Lemma analyzeForRefactoring_unfold P fs repo sourceCode type target w :
  analyzeForRefactoring P fs repo sourceCode type target w =
  let w1 := logged w [Logged info "Analyzing code for Foundation refactoring" ""] in
  match type with
  | custom_plugin => analyzePluginForRefactoring P fs repo sourceCode target w1
  | custom_component => analyzeComponentForRefactoring P fs repo sourceCode target w1
  end.
Proof. destruct type; reflexivity. Qed.

(** C7: when the parse of the primary input fails, the whole call is
    rejected with the very error the parser raised, a [ParseError] that
    carries the source; no analysis is returned, the index is not built
    and the cache is left as it was. *)
Theorem parse_error_is_fatal P fs repo sourceCode type target w e :
  primaryParse P type sourceCode = Err e ->
  let r := analyzeForRefactoring P fs repo sourceCode type target w in
  fst r = Err e /\
  (exists message, e = ParseError message sourceCode) /\
  cache (snd r) = cache w /\
  exists what,
    trace (snd r) =
    trace w ++ [ Logged info "Analyzing code for Foundation refactoring" "";
                 Logged error what (errorMessage e) ].
Proof.
  intros Hparse r. subst r. rewrite analyzeForRefactoring_unfold. cbv zeta.
  destruct type; simpl in Hparse.
  - rewrite analyzePluginForRefactoring_unfold.
    destruct (parsePlugin P sourceCode) as [e'|parsed] eqn:Hp; [|discriminate].
    injection Hparse as ->. simpl.
    split; [reflexivity|]. split.
    + unfold parsePlugin in Hp. destruct (babelParse P sourceCode); [|discriminate].
      injection Hp as <-. eexists. reflexivity.
    + split; [reflexivity|]. eexists. rewrite <- app_assoc. reflexivity.
  - rewrite analyzeComponentForRefactoring_unfold.
    destruct (parseComponent P sourceCode) as [e'|parsed] eqn:Hp; [|discriminate].
    injection Hparse as ->. simpl.
    split; [reflexivity|]. split.
    + unfold parseComponent in Hp. destruct (postcssParse P sourceCode); [|discriminate].
      injection Hp as <-. eexists. reflexivity.
    + split; [reflexivity|]. eexists. rewrite <- app_assoc. reflexivity.
Qed.

Lemma parse_error_is_fatal_witness :
  fst (analyzeForRefactoring samplePlatform withoutFiles "/repo" brokenSource
         custom_plugin None world0) =
  Err (ParseError "Failed to parse JavaScript plugin: Unexpected token" brokenSource).
Proof.
  exact (proj1 (parse_error_is_fatal samplePlatform withoutFiles "/repo" brokenSource
                  custom_plugin None world0 _ eq_refl)).
Defined.

(** *** Match resolution *)

Lemma analyzeForRefactoring_ok P fs repo sourceCode type target w r w' :
  analyzeForRefactoring P fs repo sourceCode type target w = (Ok r, w') ->
  exists index,
    cache w' !! pluginIndexKey = Some index /\
    suggestedFoundationComponents r =
      match type with
      | custom_plugin =>
          findSimilarComponents plugin_name plugin_slug
            (pluginFeatures sourceCode) (plugins index) target
      | custom_component =>
          findSimilarComponents component_name component_slug
            (componentFeatures sourceCode) (components index) target
      end.
Proof.
  rewrite analyzeForRefactoring_unfold. cbv zeta. destruct type.
  - rewrite analyzePluginForRefactoring_unfold.
    destruct (parsePlugin P sourceCode); [discriminate|].
    destruct (buildIndex P fs repo _) as [[e|index] w1] eqn:Hbuild; [discriminate|].
    intros [= <- <-]. exists index.
    split; [exact (IndexerFacts.buildIndex_caches _ _ _ _ _ _ Hbuild) | reflexivity].
  - rewrite analyzeComponentForRefactoring_unfold.
    destruct (parseComponent P sourceCode); [discriminate|].
    destruct (buildIndex P fs repo _) as [[e|index] w1] eqn:Hbuild; [discriminate|].
    intros [= <- <-]. exists index.
    split; [exact (IndexerFacts.buildIndex_caches _ _ _ _ _ _ Hbuild) | reflexivity].
Qed.

Lemma findSimilarComponents_explicit {A} (nameOf slugOf : A -> string)
    features components t :
  truthy t = true ->
  In t (map slugOf components) ->
  exists c,
    In c components /\ slugOf c = t /\
    findSimilarComponents nameOf slugOf features components (Some t) =
    [userTarget (nameOf c) t].
Proof.
  intros Ht Hin. unfold findSimilarComponents. rewrite Ht.
  destruct (List.find (fun c => String.eqb (slugOf c) t) components) as [c|] eqn:Hfind.
  - apply List.find_some in Hfind as [Hc Heq]. apply String.eqb_eq in Heq.
    exists c. rewrite Heq. repeat split; assumption.
  - apply List.in_map_iff in Hin as (c & Hslug & Hc).
    pose proof (List.find_none _ _ Hfind c Hc) as Hno. simpl in Hno.
    rewrite Hslug, String.eqb_refl in Hno. discriminate.
Qed.

Lemma findSimilarComponents_features {A} (nameOf slugOf : A -> string)
    features components target :
  (target = None \/
   exists t, target = Some t /\ ~ In t (map slugOf components)) ->
  findSimilarComponents nameOf slugOf features components target =
  firstn 3 (omap featureSuggestion (List.filter (fun e => snd e) features)).
Proof.
  intros [-> | (t & -> & Hnot)]; [reflexivity|].
  unfold findSimilarComponents.
  destruct (truthy t); [|reflexivity].
  destruct (List.find (fun c => String.eqb (slugOf c) t) components) as [c|] eqn:Hfind;
    [|reflexivity].
  apply List.find_some in Hfind as [Hc Heq]. apply String.eqb_eq in Heq.
  exfalso. apply Hnot. apply List.in_map_iff. exists c. split; assumption.
Qed.

(** The battery and the table of the code say what the spec's feature
    table says. *)
Lemma pluginFeatures_detected sourceCode :
  omap featureSuggestion (List.filter (fun e => snd e) (pluginFeatures sourceCode)) =
  detectedSuggestions custom_plugin sourceCode.
Proof.
  unfold pluginFeatures, detectedSuggestions, featureTable, hasFeature, detected.
  cbv zeta. cbn [flat_map].
  repeat match goal with
         | |- context [existsb ?f ?l] => destruct (existsb f l)
         end; reflexivity.
Qed.

Lemma componentFeatures_detected sourceCode :
  omap featureSuggestion (List.filter (fun e => snd e) (componentFeatures sourceCode)) =
  detectedSuggestions custom_component sourceCode.
Proof.
  unfold componentFeatures, detectedSuggestions, featureTable, hasFeature, detected.
  cbv zeta. cbn [flat_map].
  repeat match goal with
         | |- context [existsb ?f ?l] => destruct (existsb f l)
         end; reflexivity.
Qed.

Lemma catalogOf_slugs type index :
  map snd (catalogOf type index) =
  match type with
  | custom_plugin => map plugin_slug (plugins index)
  | custom_component => map component_slug (components index)
  end.
Proof. destruct type; simpl; rewrite map_map; reflexivity. Qed.

(** C3 (as amended): when a call of the refactoring analysis returns and
    was given a non-empty explicit target slug that occurs in the catalog
    of the declared source kind, the result holds exactly one suggestion:
    a catalog entry with that slug, similarity 100, and the reasoning
    that names it as the target the user specified, whatever the source
    text is. *)
Theorem explicit_target_short_circuit P fs repo sourceCode type t w r w' index :
  analyzeForRefactoring P fs repo sourceCode type (Some t) w = (Ok r, w') ->
  cache w' !! pluginIndexKey = Some index ->
  truthy t = true ->
  In t (map snd (catalogOf type index)) ->
  exists n,
    In (n, t) (catalogOf type index) /\
    suggestedFoundationComponents r =
      [ {| name := n; slug := t; similarity := 100;
           reasoning := "User specified target: " +:+ n |} ].
Proof.
  intros Hcall Hcache Ht Hin.
  destruct (analyzeForRefactoring_ok _ _ _ _ _ _ _ _ _ Hcall) as (index' & Hcache' & Hs).
  rewrite Hcache in Hcache'. injection Hcache' as <-.
  rewrite catalogOf_slugs in Hin. rewrite Hs. clear Hs.
  destruct type; simpl.
  - destruct (findSimilarComponents_explicit plugin_name plugin_slug
                (pluginFeatures sourceCode) (plugins index) t Ht Hin)
      as (c & Hc & Hslug & ->).
    exists (plugin_name c). split; [|reflexivity].
    apply List.in_map_iff. exists c. rewrite Hslug. split; [reflexivity | exact Hc].
  - destruct (findSimilarComponents_explicit component_name component_slug
                (componentFeatures sourceCode) (components index) t Ht Hin)
      as (c & Hc & Hslug & ->).
    exists (component_name c). split; [|reflexivity].
    apply List.in_map_iff. exists c. rewrite Hslug. split; [reflexivity | exact Hc].
Qed.

Lemma twoSheets_call target :
  target = Some "card" \/ target = Some "" \/ target = None ->
  exists r w' index,
    analyzeForRefactoring samplePlatform twoSheets "/repo" cardBadgeSource
      custom_component target world0 = (Ok r, w') /\
    cache w' !! pluginIndexKey = Some index /\
    catalogOf custom_component index = [("Card", "card"); ("", "")].
Proof.
  intros Htarget.
  destruct (analyzeForRefactoring samplePlatform twoSheets "/repo" cardBadgeSource
              custom_component target world0) as [[e|r] w'] eqn:Hcall.
  - destruct Htarget as [-> | [-> | ->]]; vm_compute in Hcall; discriminate Hcall.
  - destruct (analyzeForRefactoring_ok _ _ _ _ _ _ _ _ _ Hcall) as (index & Hcache & _).
    exists r, w', index. split; [reflexivity|]. split; [exact Hcache|].
    destruct Htarget as [-> | [-> | ->]]; vm_compute in Hcall;
      injection Hcall as <- <-; vm_compute in Hcache;
      injection Hcache as <-; reflexivity.
Qed.

Lemma explicit_target_short_circuit_witness :
  exists r w',
    analyzeForRefactoring samplePlatform twoSheets "/repo" cardBadgeSource
      custom_component (Some "card") world0 = (Ok r, w') /\
    suggestedFoundationComponents r = [userTarget "Card" "card"].
Proof.
  destruct (twoSheets_call (Some "card") (or_introl eq_refl))
    as (r & w' & index & Hcall & Hcache & Hcatalog).
  destruct (explicit_target_short_circuit samplePlatform twoSheets "/repo"
              cardBadgeSource custom_component "card" world0 r w' index
              Hcall Hcache eq_refl) as (n & Hin & Hs).
  - rewrite Hcatalog. left. reflexivity.
  - exists r, w'. split; [exact Hcall|]. rewrite Hs.
    rewrite Hcatalog in Hin. destruct Hin as [[= <-] | [[=] | []]]. reflexivity.
Defined.

(** C3 as stated fails for the empty slug: the stylesheet partial
    [_.scss] gives the component catalog an entry whose slug is the
    empty string, and a call with that slug as explicit target is
    answered from the detected features, with two suggestions at 85. *)
Lemma empty_target_is_not_short_circuited :
  exists r w' index,
    analyzeForRefactoring samplePlatform twoSheets "/repo" cardBadgeSource
      custom_component (Some "") world0 = (Ok r, w') /\
    cache w' !! pluginIndexKey = Some index /\
    In "" (map snd (catalogOf custom_component index)) /\
    map slug (suggestedFoundationComponents r) = ["card"; "badge"] /\
    map similarity (suggestedFoundationComponents r) = [85%Z; 85%Z].
Proof.
  destruct (twoSheets_call (Some "") (or_intror (or_introl eq_refl)))
    as (r & w' & index & Hcall & Hcache & Hcatalog).
  destruct (analyzeForRefactoring_ok _ _ _ _ _ _ _ _ _ Hcall) as (index' & _ & Hs).
  exists r, w', index. split; [exact Hcall|]. split; [exact Hcache|].
  split; [rewrite Hcatalog; right; left; reflexivity|].
  rewrite Hs. split; vm_compute; reflexivity.
Qed.

Lemma detectedSuggestions_similarity type sourceCode :
  Forall (fun s => similarity s = 85%Z) (detectedSuggestions type sourceCode).
Proof.
  unfold detectedSuggestions. apply List.Forall_flat_map.
  apply List.Forall_forall. intros [[feature keywords] [n s]] _.
  destruct (detected sourceCode keywords); repeat constructor.
Qed.

(** C4: when a call of the refactoring analysis returns and had no
    explicit target, or one whose slug is not in the catalog of the
    source kind, its suggestions are the first three, in the order of
    the feature table, of the suggestions the detected features map to:
    one per detected feature, each with similarity 85, with no sorting
    and no removal of duplicates.  For a component source in which the
    card and the badge features are the detected ones, these are the
    Card and the Badge suggestions, in this order. *)
Theorem detected_features_become_suggestions
    P fs repo sourceCode type target w r w' index :
  analyzeForRefactoring P fs repo sourceCode type target w = (Ok r, w') ->
  cache w' !! pluginIndexKey = Some index ->
  (target = None \/
   exists t, target = Some t /\ ~ In t (map snd (catalogOf type index))) ->
  let found := suggestedFoundationComponents r in
  found = firstn 3 (detectedSuggestions type sourceCode) /\
  (length found <= 3)%nat /\
  Forall (fun s => similarity s = 85%Z) found /\
  (type = custom_component ->
   map (fun row => detected sourceCode (snd (fst row))) (featureTable custom_component)
     = [false; true; true; false; false; false] ->
   found =
     [ {| name := "Card"; slug := "card"; similarity := 85;
          reasoning := "Detected card functionality" |};
       {| name := "Badge"; slug := "badge"; similarity := 85;
          reasoning := "Detected badge functionality" |} ]).
Proof.
  intros Hcall Hcache Htarget found.
  destruct (analyzeForRefactoring_ok _ _ _ _ _ _ _ _ _ Hcall) as (index' & Hcache' & Hs).
  rewrite Hcache in Hcache'. injection Hcache' as <-.
  rewrite catalogOf_slugs in Htarget.
  assert (Hfound : found = firstn 3 (detectedSuggestions type sourceCode)).
  { subst found. rewrite Hs. destruct type.
    - rewrite findSimilarComponents_features by exact Htarget.
      rewrite pluginFeatures_detected. reflexivity.
    - rewrite findSimilarComponents_features by exact Htarget.
      rewrite componentFeatures_detected. reflexivity. }
  split; [exact Hfound|]. rewrite Hfound.
  split; [apply List.firstn_le_length|].
  split; [apply Forall_take, detectedSuggestions_similarity|].
  intros -> Hdetected. unfold detectedSuggestions.
  cbn [map featureTable fst snd] in Hdetected.
  cbn [featureTable flat_map].
  repeat match goal with
         | |- context [detected sourceCode ?k] =>
             let b := fresh "b" in
             let Hb := fresh "Hb" in
             remember (detected sourceCode k) as b eqn:Hb; clear Hb
         end.
  injection Hdetected as -> -> -> -> -> ->. reflexivity.
Qed.

Lemma detected_features_become_suggestions_witness :
  exists r w',
    analyzeForRefactoring samplePlatform twoSheets "/repo" cardBadgeSource
      custom_component None world0 = (Ok r, w') /\
    map name (suggestedFoundationComponents r) = ["Card"; "Badge"] /\
    map similarity (suggestedFoundationComponents r) = [85%Z; 85%Z].
Proof.
  destruct (twoSheets_call None (or_intror (or_intror eq_refl)))
    as (r & w' & index & Hcall & Hcache & Hcatalog).
  destruct (detected_features_become_suggestions samplePlatform twoSheets "/repo"
              cardBadgeSource custom_component None world0 r w' index
              Hcall Hcache (or_introl eq_refl)) as (_ & _ & _ & Hcards).
  exists r, w'. split; [exact Hcall|].
  rewrite (Hcards eq_refl); [split; reflexivity|]. vm_compute. reflexivity.
Defined.

End RefactoringFacts.

(** ** More on the script parser: members of classes *)

Module TraversalFacts.
Import JsString Parser ParserSpec TraversalSpec.

Lemma set_methods_same st : set_methods (methods st) st = st.
Proof. destruct st. reflexivity. Qed.

Lemma set_properties_same st : set_properties (properties st) st = st.
Proof. destruct st. reflexivity. Qed.

Lemma set_className_same st : set_className (className st) st = st.
Proof. destruct st. reflexivity. Qed.

Lemma set_extendsClass_same st : set_extendsClass (extendsClass st) st = st.
Proof. destruct st. reflexivity. Qed.

Lemma arrayIncludes_In xs x : arrayIncludes xs x = true <-> In x xs.
Proof.
  unfold arrayIncludes. rewrite existsb_exists. split.
  - intros (y & Hy & Heq). apply String.eqb_eq in Heq. subst. exact Hy.
  - intros H. exists x. split; [exact H | apply String.eqb_refl].
Qed.

Lemma pushUnique_present xs x : In x xs -> pushUnique xs x = xs.
Proof.
  intros H. unfold pushUnique. apply arrayIncludes_In in H. rewrite H. reflexivity.
Qed.

Lemma pushUnique_NoDup xs x : List.NoDup xs -> List.NoDup (pushUnique xs x).
Proof.
  intros H. unfold pushUnique. destruct (arrayIncludes xs x) eqn:E; [exact H|].
  apply List.NoDup_app; [exact H | repeat constructor; intros [] |].
  intros y Hy [<- | []]. apply arrayIncludes_In in Hy. congruence.
Qed.

(** The pass over an exported class appends every member name. *)
Lemma exportedMembers_names body st :
  let st' := fold_left exportedMember body st in
  methods st' = methods st ++ methodNamesOf body /\
  properties st' = properties st ++ propertyNamesOf body /\
  className st' = className st /\ extendsClass st' = extendsClass st /\
  events st' = events st /\ imports st' = imports st /\ exports st' = exports st.
Proof.
  revert st. induction body as [|m body IH]; intros st.
  - simpl. rewrite !app_nil_r. repeat split.
  - simpl. destruct (IH (exportedMember st m)) as (Hm & Hp & Hc & He & Hv & Hi & Hx).
    rewrite Hm, Hp, Hc, He, Hv, Hi, Hx. clear.
    destruct m as [| | | | | k b | k v | | |]; try (repeat split; reflexivity);
      destruct k; simpl; rewrite <- ?app_assoc; repeat split; reflexivity.
Qed.

(** The pass over a class whose member names are all known changes
    nothing. *)
Lemma classMembers_known body st :
  (forall n, In n (methodNamesOf body) -> In n (methods st)) ->
  (forall n, In n (propertyNamesOf body) -> In n (properties st)) ->
  fold_left classMember body st = st.
Proof.
  induction body as [|m body IH]; intros Hm Hp; [reflexivity|].
  simpl.
  assert (Hstep : classMember st m = st).
  { destruct m as [| | | | | k b | k v | | |]; try reflexivity;
      destruct k as [n| | | | | | | | |]; try reflexivity; simpl.
    - rewrite pushUnique_present; [apply set_methods_same|].
      apply Hm. left. reflexivity.
    - rewrite pushUnique_present; [apply set_properties_same|].
      apply Hp. left. reflexivity. }
  rewrite Hstep. apply IH.
  - intros n Hn. apply Hm.
    destruct m as [| | | | | k b | k v | | |]; try exact Hn;
      destruct k; try exact Hn. right. exact Hn.
  - intros n Hn. apply Hp.
    destruct m as [| | | | | k b | k v | | |]; try exact Hn;
      destruct k; try exact Hn. right. exact Hn.
Qed.

(** X1: an exported class is visited twice, first as the declaration of the
    export and then as a class declaration.  The first visit records the
    name, the parent and every member name in source order (a name that
    occurs twice in the class is recorded twice); the second visit leaves
    the record as it is. *)
Theorem exported_class_second_visit_is_neutral id sup body st :
  let st' := onExportNamedDeclaration (Some (Babel.ClassDeclaration id sup body)) st in
  methods st' = methods st ++ methodNamesOf body /\
  properties st' = properties st ++ propertyNamesOf body /\
  onClassDeclaration id sup body st' = st'.
Proof.
  intros st'. unfold onExportNamedDeclaration in st'.
  set (st1 := match id with
              | Some name => set_exports (exports st ++ [name]) (set_className name st)
              | None => st
              end) in st'.
  set (st2 := match sup with
              | Some (Babel.Identifier name) => set_extendsClass (Some name) st1
              | _ => st1
              end) in st'.
  destruct (exportedMembers_names body st2) as (Hm & Hp & Hc & He & _).
  fold st' in Hm, Hp, Hc, He.
  assert (Hm2 : methods st2 = methods st).
  { subst st2 st1. destruct sup as [[]|], id; reflexivity. }
  assert (Hp2 : properties st2 = properties st).
  { subst st2 st1. destruct sup as [[]|], id; reflexivity. }
  split; [rewrite Hm, Hm2; reflexivity|]. split; [rewrite Hp, Hp2; reflexivity|].
  unfold onClassDeclaration.
  assert (H1 : match id with
               | Some name =>
                   if negb (truthy (className st')) then set_className name st' else st'
               | None => st'
               end = st').
  { destruct id as [nm|]; [|reflexivity].
    destruct (truthy (className st')); [reflexivity|]. simpl.
    assert (Hnm : className st' = nm).
    { rewrite Hc. subst st2 st1. destruct sup as [[]|]; reflexivity. }
    rewrite <- Hnm. apply set_className_same. }
  rewrite H1.
  assert (H2 : match sup with
               | Some (Babel.Identifier name) =>
                   if negb (truthyOpt (extendsClass st'))
                   then set_extendsClass (Some name) st' else st'
               | _ => st'
               end = st').
  { destruct sup as [[p| | | | | | | | |]|]; try reflexivity.
    destruct (truthyOpt (extendsClass st')); [reflexivity|]. simpl.
    assert (Hp' : extendsClass st' = Some p) by (rewrite He; reflexivity).
    rewrite <- Hp'. apply set_extendsClass_same. }
  rewrite H2.
  apply classMembers_known; intros n Hn.
  - rewrite Hm. apply in_or_app. right. exact Hn.
  - rewrite Hp. apply in_or_app. right. exact Hn.
Qed.

(** *** An invariant of the traversal away from exported classes *)

Section Preserved.
Variable R : ParsedPlugin -> ParsedPlugin -> Prop.
Hypothesis R_refl : forall st, R st st.
Hypothesis R_trans : forall st1 st2 st3, R st1 st2 -> R st2 st3 -> R st1 st3.
Hypothesis R_import : forall source st, R st (onImportDeclaration source st).
Hypothesis R_class : forall id sup body st, R st (onClassDeclaration id sup body st).
Hypothesis R_call : forall callee args st, R st (onCallExpression callee args st).

Lemma traverseAll_preserves l :
  Forall (fun n => exportsClass n = false -> forall st, R st (traverse n st)) l ->
  noExportedClass l = true ->
  forall st, R st (traverseAll l st).
Proof.
  unfold traverseAll, noExportedClass.
  induction 1 as [|n l Hn Hl IH]; intros Hno st; [apply R_refl|].
  simpl in *. apply andb_prop in Hno as [Hn' Hl'].
  apply negb_true_iff in Hn'.
  eapply R_trans; [apply Hn, Hn' | apply IH, Hl'].
Qed.

Lemma traverse_preserves n :
  exportsClass n = false -> forall st, R st (traverse n st).
Proof.
  induction n as [name | value | source | d IHd | id sup body IHsup IHbody
                 | key body IHkey IHbody | key value IHkey IHvalue
                 | o p IHo IHp | c args IHc IHargs | cs IHcs]
    using Babel.Node_ind_nested; intros Hno st.
  - apply R_refl.
  - apply R_refl.
  - apply R_import.
  - destruct d as [d|]; [|apply R_refl].
    destruct d; simpl in Hno; try discriminate; apply (IHd Hno st).
  - rewrite ParserFacts.traverse_class.
    change (exportsClass (Babel.ClassDeclaration id sup body))
      with (match sup with Some x => exportsClass x | None => false end
            || exportsClass (Babel.OtherNode body)) in Hno.
    apply orb_false_elim in Hno as [Hsup Hbody].
    rewrite ParserFacts.exportsClass_children in Hbody. apply negb_false_iff in Hbody.
    eapply R_trans; [|apply traverseAll_preserves; assumption].
    eapply R_trans; [apply (R_class id sup body)|].
    destruct sup as [s|]; [apply IHsup, Hsup | apply R_refl].
  - rewrite ParserFacts.traverse_method.
    change (exportsClass (Babel.ClassMethod key body))
      with (exportsClass key || exportsClass (Babel.OtherNode body)) in Hno.
    apply orb_false_elim in Hno as [Hkey Hbody].
    rewrite ParserFacts.exportsClass_children in Hbody. apply negb_false_iff in Hbody.
    eapply R_trans; [apply IHkey, Hkey|].
    apply traverseAll_preserves; assumption.
  - simpl in Hno. apply orb_false_elim in Hno as [Hkey Hvalue].
    simpl. destruct value as [v|].
    + eapply R_trans; [apply IHkey, Hkey | apply IHvalue, Hvalue].
    + apply IHkey, Hkey.
  - simpl in Hno. apply orb_false_elim in Hno as [Ho Hp].
    simpl. eapply R_trans; [apply IHo, Ho | apply IHp, Hp].
  - rewrite ParserFacts.traverse_call.
    change (exportsClass (Babel.CallExpression c args))
      with (exportsClass c || exportsClass (Babel.OtherNode args)) in Hno.
    apply orb_false_elim in Hno as [Hc Hargs].
    rewrite ParserFacts.exportsClass_children in Hargs. apply negb_false_iff in Hargs.
    eapply R_trans; [apply R_call|].
    eapply R_trans; [apply IHc, Hc|].
    apply traverseAll_preserves; assumption.
  - rewrite ParserFacts.traverse_children.
    rewrite ParserFacts.exportsClass_children in Hno. apply negb_false_iff in Hno.
    apply traverseAll_preserves; assumption.
Qed.

End Preserved.

Lemma classMembers_NoDup body st :
  List.NoDup (methods st) -> List.NoDup (properties st) ->
  List.NoDup (methods (fold_left classMember body st)) /\
  List.NoDup (properties (fold_left classMember body st)).
Proof.
  revert st. induction body as [|m body IH]; intros st Hm Hp; [split; assumption|].
  simpl. apply IH;
    destruct m as [| | | | | k b | k v | | |]; try assumption;
    destruct k; try assumption; simpl; try assumption;
    apply pushUnique_NoDup; assumption.
Qed.

(** X2: in a program without a named class export every method name and
    every property name is recorded once, however many classes declare
    it. *)
Theorem bare_classes_record_names_once ast :
  exportsClass ast = false ->
  List.NoDup (methods (parsePluginAst ast)) /\
  List.NoDup (properties (parsePluginAst ast)).
Proof.
  intros Hno.
  apply (traverse_preserves
           (fun st st' =>
              List.NoDup (methods st) /\ List.NoDup (properties st) ->
              List.NoDup (methods st') /\ List.NoDup (properties st'))).
  - intros st H. exact H.
  - intros st1 st2 st3 H12 H23 H. apply H23, H12, H.
  - intros source st H. unfold onImportDeclaration.
    destruct (truthy source); exact H.
  - intros id sup body st [Hm Hp]. unfold onClassDeclaration.
    apply classMembers_NoDup;
      destruct id, sup as [[]|]; simpl;
      repeat match goal with
             | |- context [if ?b then _ else _] => destruct b
             end; assumption.
  - intros callee args st H. unfold onCallExpression.
    destruct callee as [| | | | | | | o p | |]; try exact H.
    destruct p; try exact H.
    destruct (_ || _); [|exact H].
    destruct args as [|[] ?]; exact H.
  - exact Hno.
  - split; constructor.
Qed.

Lemma bare_classes_record_names_once_witness :
  methods (parsePluginAst twoBareClasses) = ["run"; "stop"] /\
  List.NoDup (methods (parsePluginAst twoBareClasses)).
Proof.
  split; [reflexivity|].
  exact (proj1 (bare_classes_record_names_once twoBareClasses eq_refl)).
Defined.

End TraversalFacts.

(** ** More on the stylesheet parser: mixins and class names *)

Module StylesheetFacts.
Import JsString Parser ParserSpec StylesheetSpec.

Lemma walkDecls_comment nodes st :
  currentComment (fold_left onDecl nodes st) =
  match dollarDecls nodes with
  | [] => currentComment st
  | _ :: _ => ""
  end.
Proof.
  revert st. induction nodes as [|n nodes IH]; intros st; [reflexivity|].
  simpl. rewrite IH. clear IH.
  destruct n as [text | prop value ns | nm params ns | sels ns]; try reflexivity.
  unfold dollarDecls. simpl.
  destruct (startsWith prop "$"); simpl; [|reflexivity].
  fold (dollarDecls nodes). destruct (dollarDecls nodes); reflexivity.
Qed.

Lemma walkAtRules_mixins nodes st :
  let st' := fold_left onAtRule nodes st in
  map mixin_description (st_mixins st') =
    map mixin_description (st_mixins st) ++
    match mixinRules nodes with
    | [] => []
    | _ :: rest => orUndefined (currentComment st) :: map (fun _ => None) rest
    end /\
  map mixin_name (st_mixins st') =
    map mixin_name (st_mixins st) ++
    map (fun params => trim (hd "" (splitChar "(" params))) (mixinRules nodes) /\
  map mixin_parameters (st_mixins st') =
    map mixin_parameters (st_mixins st) ++
    map (fun params => mixinParameters (splitChar "(" params)) (mixinRules nodes).
Proof.
  revert st. induction nodes as [|n nodes IH]; intros st.
  - simpl. rewrite !app_nil_r. repeat split.
  - simpl. destruct (IH (onAtRule st n)) as (Hd & Hn & Hp).
    rewrite Hd, Hn, Hp. clear IH Hd Hn Hp.
    destruct n as [text | prop value ns | nm params ns | sels ns];
      try (repeat split; reflexivity).
    unfold mixinRules. simpl.
    destruct (String.eqb nm "mixin"); simpl; [|repeat split; reflexivity].
    fold (mixinRules nodes).
    rewrite !map_app. simpl. rewrite <- !app_assoc. simpl.
    repeat split.
    destruct (mixinRules nodes); reflexivity.
Qed.

Lemma walkRules_mixins nodes st :
  st_mixins (fold_left onRule nodes st) = st_mixins st.
Proof.
  revert st. induction nodes as [|n nodes IH]; intros st; [reflexivity|].
  simpl. rewrite IH. destruct n; reflexivity.
Qed.

Lemma walkDecls_mixins nodes st :
  st_mixins (fold_left onDecl nodes st) = st_mixins st.
Proof.
  destruct (ComponentFacts.walkDecls_state nodes st) as (_ & H & _). exact H.
Qed.

(** X3: the mixin records of any stylesheet: one per [@mixin] rule in source
    order, named by the trimmed text before the first parenthesis.  Only
    the first mixin can carry a description, and only when the stylesheet
    declares no [$]-variable: it is then the last comment of the file. *)
Theorem parseComponent_mixins root :
  let found := mixins (parseComponentRoot root) in
  map mixin_name found =
    map (fun params => trim (hd "" (splitChar "(" params))) (mixinRules (walk root)) /\
  map mixin_parameters found =
    map (fun params => mixinParameters (splitChar "(" params)) (mixinRules (walk root)) /\
  map mixin_description found =
    match mixinRules (walk root) with
    | [] => []
    | _ :: rest => mixinPending (walk root) :: map (fun _ => None) rest
    end.
Proof.
  unfold parseComponentRoot. cbv zeta. simpl mixins.
  rewrite walkRules_mixins.
  set (st1 := fold_left onComment (walk root) initialComponent).
  set (st2 := fold_left onDecl (walk root) st1).
  destruct (walkAtRules_mixins (walk root) st2) as (Hd & Hn & Hp).
  assert (Hm2 : st_mixins st2 = []).
  { subst st2. rewrite walkDecls_mixins. subst st1.
    destruct (ComponentFacts.walkComments_state (walk root) initialComponent)
      as (_ & _ & H & _). exact H. }
  rewrite Hm2 in Hd, Hn, Hp. simpl in Hd, Hn, Hp.
  split; [exact Hn|]. split; [exact Hp|]. rewrite Hd.
  destruct (mixinRules (walk root)) as [|r rest]; [reflexivity|].
  f_equal. unfold mixinPending. subst st2. rewrite walkDecls_comment.
  destruct (dollarDecls (walk root)); [|reflexivity].
  subst st1.
  destruct (ComponentFacts.walkComments_state (walk root) initialComponent)
    as (Hc & _). rewrite Hc. reflexivity.
Qed.

Lemma walkRules_classes_NoDup nodes st :
  List.NoDup (st_classes st) -> List.NoDup (st_classes (fold_left onRule nodes st)).
Proof.
  revert st. induction nodes as [|n nodes IH]; intros st H; [exact H|].
  simpl. apply IH. destruct n as [| | | sels ns]; try exact H.
  simpl. clear IH.
  generalize dependent (st_classes st). clear st.
  induction sels as [|sel sels IHs]; intros cs H; [exact H|].
  simpl. apply IHs.
  generalize dependent cs.
  induction (classMatches None sel) as [|c found IHc]; intros cs H; [exact H|].
  simpl. apply IHc, TraversalFacts.pushUnique_NoDup, H.
Qed.

Lemma parseComponentRoot_classes_NoDup root :
  List.NoDup (classes (parseComponentRoot root)).
Proof.
  unfold parseComponentRoot. cbv zeta. simpl classes.
  apply walkRules_classes_NoDup.
  assert (H : forall nodes st,
             st_classes (fold_left onAtRule nodes st) = st_classes st).
  { induction nodes as [|n nodes IH]; intros st; [reflexivity|].
    simpl. rewrite IH. destruct n; try reflexivity.
    simpl. destruct (String.eqb _ _); reflexivity. }
  rewrite H.
  destruct (ComponentFacts.walkDecls_state (walk root)
              (fold_left onComment (walk root) initialComponent)) as (_ & _ & Hk).
  rewrite Hk.
  destruct (ComponentFacts.walkComments_state (walk root) initialComponent)
    as (_ & _ & _ & Hk0).
  rewrite Hk0. constructor.
Qed.

(** X4: the class names of any stylesheet the grammar accepts are recorded
    once each, in the order of their first occurrence in the rules. *)
Theorem parseComponent_classes_unique P code parsed :
  parseComponent P code = Ok parsed -> List.NoDup (classes parsed).
Proof.
  unfold parseComponent.
  destruct (postcssParse P code) as [message|root]; intros H; [discriminate H|].
  injection H as <-. apply parseComponentRoot_classes_NoDup.
Qed.

Lemma parseComponent_classes_unique_witness :
  List.NoDup (classes (parseComponentRoot Samples.cardBadgeRoot)).
Proof.
  apply (parseComponent_classes_unique Samples.samplePlatform Samples.cardBadgeSource).
  reflexivity.
Defined.

End StylesheetFacts.

(** ** The line-by-line doc extractor *)

Module SassDocFacts.
Import JsString Parser SassDocSpec.




Lemma blank_trim s : blank s = true -> trim s = "".
Proof.
  unfold trim. induction s as [|c s IH]; [reflexivity|].
  simpl. intros H. apply andb_prop in H as [Hc Hs]. rewrite Hc. apply IH, Hs.
Qed.



Lemma undocumented_line st line :
  currentDoc st = "" -> docLine line = false -> sassDocLine st line = st.
Proof.
  intros Hdoc Hline. unfold sassDocLine. fold (docLine line).
  rewrite Hline, Hdoc. reflexivity.
Qed.

(** X5: a stylesheet without a triple-slash line documents nothing, whatever
    mixins and variables it declares. *)
Theorem no_doc_comment_no_entry code :
  forallb (fun line => negb (docLine line)) (splitChar lineFeed code) = true ->
  extractSassDoc code = ∅.
Proof.
  intros Hlines. unfold extractSassDoc. fold lineFeed.
  assert (H : forall lines st,
             forallb (fun line => negb (docLine line)) lines = true ->
             currentDoc st = "" -> fold_left sassDocLine lines st = st).
  { induction lines as [|line lines IH]; intros st Hl Hst; [reflexivity|].
    simpl in Hl. apply andb_prop in Hl as [Hline Hrest].
    apply negb_true_iff in Hline.
    simpl. rewrite (undocumented_line st line Hst Hline). apply IH; assumption. }
  rewrite H; [reflexivity | exact Hlines | reflexivity].
Qed.

Lemma no_doc_comment_no_entry_witness : extractSassDoc plainSheet = ∅.
Proof. apply no_doc_comment_no_entry. vm_compute. reflexivity. Defined.





End SassDocFacts.

(** ** The scores of the plugin analyzer *)

Module ScoringFacts.
Import JsString Parser Async PluginAnalyzer ToolHandler ScoringSpec Samples WorldFacts.

Ltac wrong_bit b := destruct b; try reflexivity.

Lemma checkExtends_eqb parsed s :
  checkExtends parsed s =
  if extendsPlugin parsed then addArchitecture 30 s
  else pushIssue sev_error "Plugin must extend the Plugin base class"
         "export class YourPlugin extends Plugin { ... }" s.
Proof.
  unfold checkExtends, extendsPlugin.
  destruct (extendsClass parsed) as [c|]; [|reflexivity].
  repeat (destruct c as [|[b0 b1 b2 b3 b4 b5 b6 b7] c]; [reflexivity|];
          wrong_bit b0; wrong_bit b1; wrong_bit b2; wrong_bit b3;
          wrong_bit b4; wrong_bit b5; wrong_bit b6; wrong_bit b7).
Qed.

Ltac check_form :=
  match goal with
  | |- _ = after ?s _ _ _ _ =>
      destruct s;
      unfold after, addArchitecture, addConventions, addAccessibility, pushIssue,
        unless, points;
      cbn [sc_issues architectureScore conventionsScore accessibilityScore];
      rewrite ?app_nil_r, ?Z.add_0_r; reflexivity
  end.

Lemma checkExtends_form parsed s :
  checkExtends parsed s =
  after s (unless (extendsPlugin parsed) baseClassIssue)
    (points (extendsPlugin parsed) 30) 0 0.
Proof. rewrite checkExtends_eqb. destruct (extendsPlugin parsed); check_form. Qed.

Lemma checkRequiredMethods_form parsed s :
  checkRequiredMethods parsed s =
  after s (unless (hasMethod parsed "_init") (missingMethod "_init")
           ++ unless (hasMethod parsed "_destroy") (missingMethod "_destroy"))
    (points (hasMethod parsed "_init" && hasMethod parsed "_destroy") 40) 0 0.
Proof.
  unfold checkRequiredMethods, requiredMethods, hasMethod.
  cbn [List.filter].
  destruct (arrayIncludes (methods parsed) "_init");
    destruct (arrayIncludes (methods parsed) "_destroy");
    cbn [negb andb length Nat.eqb fold_left];
    unfold missingMethod; destruct s;
    unfold after, addArchitecture, pushIssue, points, unless;
    cbn [sc_issues architectureScore conventionsScore accessibilityScore app];
    rewrite <- ?app_assoc, ?app_nil_r, ?Z.add_0_r; reflexivity.
Qed.

Lemma checkConstructor_form parsed s :
  checkConstructor parsed s =
  after s (unless (hasMethod parsed "constructor") constructorIssue)
    (points (hasMethod parsed "constructor") 10) 0 0.
Proof.
  unfold checkConstructor, hasMethod.
  destruct (arrayIncludes (methods parsed) "constructor"); check_form.
Qed.

Lemma checkNaming_form parsed s :
  checkNaming parsed s =
  after s (unless (namedInPascalCase parsed) namingIssue)
    0 (points (namedInPascalCase parsed) 30) 0.
Proof.
  unfold checkNaming, namedInPascalCase.
  destruct (truthy (className parsed) && isPascalCase (className parsed)); check_form.
Qed.

Lemma checkJSDoc_form code s :
  checkJSDoc code s =
  after s (unless (hasJSDoc code) jsdocIssue) 0 (points (hasJSDoc code) 20) 0.
Proof.
  unfold checkJSDoc, hasJSDoc.
  destruct (includes code "/**" && includes code "@class"); check_form.
Qed.

Lemma checkEvents_form code s :
  checkEvents code s =
  after s (unless (eventsPass code) eventsIssue) 0 (points (eventsPass code) 20) 0.
Proof.
  unfold checkEvents, eventsPass. cbv zeta.
  destruct (existsb (fun e => includes e ".zf.") (triggeredEvents code)
            || (length (triggeredEvents code) =? 0)%nat); check_form.
Qed.

Lemma checkAria_form code s :
  checkAria code s =
  after s (unless (hasAria code) ariaIssue) 0 0 (points (hasAria code) 40).
Proof.
  unfold checkAria, hasAria.
  destruct (includes code "aria-" || includes code "role="); check_form.
Qed.

Lemma checkKeyboard_form code s :
  checkKeyboard code s =
  after s (unless (hasKeyboard code) keyboardIssue) 0 0 (points (hasKeyboard code) 30).
Proof.
  unfold checkKeyboard, hasKeyboard.
  destruct (includes code "Keyboard" || includes code "KEYS"); check_form.
Qed.

Lemma checkFocus_form code s :
  checkFocus code s = after s [] 0 0 (points (hasFocus code) 30).
Proof.
  unfold checkFocus, hasFocus.
  destruct (includes code "focus()" || includes code "$element.focus"); check_form.
Qed.

(** The locals after the nine checks, as a function of the conditions
    they test. *)
Lemma runChecks_normal_form code parsed :
  runChecks code parsed =
  {| sc_issues := expectedIssues code parsed;
     architectureScore := architecturePoints parsed;
     conventionsScore := conventionsPoints code parsed;
     accessibilityScore := accessibilityPoints code |}.
Proof.
  unfold runChecks.
  rewrite checkFocus_form, checkKeyboard_form, checkAria_form, checkEvents_form,
    checkJSDoc_form, checkNaming_form, checkConstructor_form, checkRequiredMethods_form,
    checkExtends_form.
  unfold after, expectedIssues, architecturePoints, conventionsPoints,
    accessibilityPoints.
  cbn [sc_issues architectureScore conventionsScore accessibilityScore initialScores].
  rewrite <- !app_assoc, app_nil_r. cbn [app]. f_equal; lia.
Qed.

Lemma points_bounds b n : (0 <= n -> 0 <= points b n <= n)%Z.
Proof. unfold points. destruct b; lia. Qed.

Lemma scorePlugin_issues code parsed :
  issues (scorePlugin code parsed) = expectedIssues code parsed.
Proof.
  unfold scorePlugin. cbv zeta. cbn [issues].
  rewrite runChecks_normal_form. reflexivity.
Qed.

Lemma filter_unless (f : ValidationIssue -> bool) b issue :
  List.filter f (unless b issue) = if f issue then unless b issue else [].
Proof. destruct b; cbn; destruct (f issue); reflexivity. Qed.

Lemma expectedIssues_errors code parsed :
  List.filter (hasSeverity sev_error) (expectedIssues code parsed) =
  unless (extendsPlugin parsed) baseClassIssue
  ++ unless (hasMethod parsed "_init") (missingMethod "_init")
  ++ unless (hasMethod parsed "_destroy") (missingMethod "_destroy").
Proof.
  unfold expectedIssues. rewrite !List.filter_app, !filter_unless.
  cbn [hasSeverity severity baseClassIssue missingMethod constructorIssue namingIssue
       jsdocIssue eventsIssue ariaIssue keyboardIssue app].
  rewrite app_nil_r. reflexivity.
Qed.

Lemma points_sums_bounded code parsed :
  (0 <= architecturePoints parsed <= 80)%Z
  /\ (0 <= conventionsPoints code parsed <= 70)%Z
  /\ (0 <= accessibilityPoints code <= 100)%Z.
Proof.
  unfold architecturePoints, conventionsPoints, accessibilityPoints.
  pose proof (points_bounds (extendsPlugin parsed) 30).
  pose proof (points_bounds (hasMethod parsed "_init" && hasMethod parsed "_destroy") 40).
  pose proof (points_bounds (hasMethod parsed "constructor") 10).
  pose proof (points_bounds (namedInPascalCase parsed) 30).
  pose proof (points_bounds (hasJSDoc code) 20).
  pose proof (points_bounds (eventsPass code) 20).
  pose proof (points_bounds (hasAria code) 40).
  pose proof (points_bounds (hasKeyboard code) 30).
  pose proof (points_bounds (hasFocus code) 30).
  repeat split; lia.
Qed.

(** X7: the normalisation of [analyzePluginPattern] never clips: the
    checks give at most 80 points for architecture, 70 for conventions
    (100 with the base points) and 100 for accessibility, so each
    [Math.min] returns its first argument. *)
Theorem scores_never_clipped code parsed :
  let s := runChecks code parsed in
  conformance (scorePlugin code parsed) =
    {| architecture := architectureScore s;
       conventions := conventionsScore s + 30;
       accessibility := accessibilityScore s |}
  /\ (0 <= architectureScore s <= 80)%Z
  /\ (0 <= conventionsScore s <= 70)%Z
  /\ (0 <= accessibilityScore s <= 100)%Z.
Proof.
  cbv zeta. unfold scorePlugin. cbv zeta. cbn [conformance].
  rewrite runChecks_normal_form.
  cbn [architectureScore conventionsScore accessibilityScore].
  destruct (points_sums_bounded code parsed) as (Ha & Hc & Hx).
  rewrite !Z.min_l by lia.
  repeat split; lia.
Qed.

Lemma scorePlugin_normal_form code parsed :
  scorePlugin code parsed =
  let a := architecturePoints parsed in
  let c := (conventionsPoints code parsed + 30)%Z in
  let x := accessibilityPoints code in
  {| result_matches :=
       if overallAtLeast 80 a c x then matches
       else if overallAtLeast 50 a c x then partial_match else no_match;
     issues := expectedIssues code parsed;
     conformance := {| architecture := a; conventions := c; accessibility := x |};
     suggestions :=
       (if (a <? 80)%Z then ["Review Foundation plugin architecture guide"] else [])
       ++ (if (c <? 80)%Z then ["Follow Foundation naming conventions"] else [])
       ++ (if (x <? 80)%Z
           then ["Improve accessibility with ARIA and keyboard support"] else []) |}.
Proof.
  destruct (points_sums_bounded code parsed) as (Ha & Hc & Hx).
  unfold scorePlugin. cbv zeta.
  rewrite runChecks_normal_form.
  cbn [sc_issues architectureScore conventionsScore accessibilityScore].
  rewrite !Z.min_l by lia. reflexivity.
Qed.

Lemma isFoundationPlugin_conditions parsed :
  isFoundationPlugin parsed =
  extendsPlugin parsed && hasMethod parsed "_init" && hasMethod parsed "_destroy".
Proof. reflexivity. Qed.

Lemma handleValidatePlugin_unfold P fs code w :
  fs_access fs code = false ->
  handleValidatePlugin P fs code w =
  let w1 := logged w [Logged debug "Analyzing pattern" ""; Accessed code] in
  match parsePlugin P code with
  | Ok parsed => (Ok (pluginValidation (scorePlugin code parsed)), w1)
  | Err e =>
      (Ok (pluginValidation parseFailureReport),
       logged w1 [Logged error "Failed to analyze plugin pattern" (errorMessage e)])
  end.
Proof.
  intros Hacc. unfold handleValidatePlugin, bind.
  rewrite PluginAnalyzerFacts.analyzePattern_unfold. cbv zeta.
  cbn [PluginAnalyzer.code patternType]. rewrite Hacc.
  rewrite PluginAnalyzerFacts.analyzePluginPattern_unfold.
  destruct (parsePlugin P code); reflexivity.
Qed.

(** X8: when the code handed to [validate_plugin] is not an existing
    path, the call returns, and its validation lists no error exactly
    when the code parses into a plugin that [isFoundationPlugin]
    accepts. *)
Theorem validation_errors_iff_not_foundation_plugin P fs code w :
  fs_access fs code = false ->
  exists v w',
    handleValidatePlugin P fs code w = (Ok v, w') /\
    (errors v = [] <->
     exists parsed, parsePlugin P code = Ok parsed /\ isFoundationPlugin parsed = true).
Proof.
  intros Hacc. rewrite (handleValidatePlugin_unfold P fs code w Hacc). cbv zeta.
  destruct (parsePlugin P code) as [e|parsed].
  - eexists _, _. split; [reflexivity|]. split.
    + intros H. discriminate H.
    + intros (parsed & H & _). discriminate H.
  - eexists _, _. split; [reflexivity|].
    unfold pluginValidation. cbn [errors].
    rewrite scorePlugin_issues, expectedIssues_errors.
    split.
    + intros H. exists parsed. split; [reflexivity|].
      rewrite isFoundationPlugin_conditions.
      destruct (extendsPlugin parsed); [|discriminate H].
      destruct (hasMethod parsed "_init"); [|discriminate H].
      destruct (hasMethod parsed "_destroy"); [|discriminate H].
      reflexivity.
    + intros (parsed' & Heq & H). injection Heq as <-.
      rewrite isFoundationPlugin_conditions in H.
      apply andb_prop in H as [H ->]. apply andb_prop in H as [-> ->].
      reflexivity.
Qed.

Lemma validation_errors_iff_not_foundation_plugin_witness :
  exists v w',
    handleValidatePlugin samplePlatform withoutFiles fooSource world0 = (Ok v, w') /\
    (errors v = [] <->
     exists parsed, parsePlugin samplePlatform fooSource = Ok parsed
                    /\ isFoundationPlugin parsed = true).
Proof.
  apply (validation_errors_iff_not_foundation_plugin samplePlatform withoutFiles
           fooSource world0).
  reflexivity.
Defined.

(** X9: a plugin that passes every check except the one on the base
    class is still classified as a match; its validation is valid and
    lists the missing base class as an error. *)
Theorem match_despite_missing_base_class code parsed :
  conformsButForBaseClass code parsed = true ->
  scorePlugin code parsed =
    {| result_matches := matches;
       issues := [baseClassIssue];
       conformance := {| architecture := 50; conventions := 100; accessibility := 100 |};
       suggestions := ["Review Foundation plugin architecture guide"] |}
  /\ valid (pluginValidation (scorePlugin code parsed)) = true
  /\ errors (pluginValidation (scorePlugin code parsed)) =
       ["Plugin must extend the Plugin base class"].
Proof.
  unfold conformsButForBaseClass. intros H.
  apply andb_prop in H as [H Hfocus]. apply andb_prop in H as [H Hkeys].
  apply andb_prop in H as [H Haria]. apply andb_prop in H as [H Hevents].
  apply andb_prop in H as [H Hdoc]. apply andb_prop in H as [H Hname].
  apply andb_prop in H as [H Hctor]. apply andb_prop in H as [H Hdestroy].
  apply andb_prop in H as [Hbase Hinit]. apply negb_true_iff in Hbase.
  assert (Hs : scorePlugin code parsed =
    {| result_matches := matches;
       issues := [baseClassIssue];
       conformance := {| architecture := 50; conventions := 100; accessibility := 100 |};
       suggestions := ["Review Foundation plugin architecture guide"] |}).
  { rewrite scorePlugin_normal_form.
    unfold expectedIssues, architecturePoints, conventionsPoints, accessibilityPoints.
    rewrite Hbase, Hinit, Hdestroy, Hctor, Hname, Hdoc, Hevents, Haria, Hkeys, Hfocus.
    reflexivity. }
  rewrite Hs. repeat split; reflexivity.
Qed.

Lemma match_despite_missing_base_class_witness :
  scorePlugin fooSource fooWithoutParent =
    {| result_matches := matches;
       issues := [baseClassIssue];
       conformance := {| architecture := 50; conventions := 100; accessibility := 100 |};
       suggestions := ["Review Foundation plugin architecture guide"] |}
  /\ valid (pluginValidation (scorePlugin fooSource fooWithoutParent)) = true
  /\ errors (pluginValidation (scorePlugin fooSource fooWithoutParent)) =
       ["Plugin must extend the Plugin base class"].
Proof.
  apply (match_despite_missing_base_class fooSource fooWithoutParent).
  vm_compute. reflexivity.
Defined.

(** X10: a report without issues is a match with 80 points for
    architecture and 100 for conventions; the check on focus handling
    records no issue, so the accessibility axis is 70 or 100, and at 70
    the report still carries the suggestion on accessibility. *)
Theorem report_without_issues code parsed :
  issues (scorePlugin code parsed) = [] ->
  scorePlugin code parsed =
    {| result_matches := matches;
       issues := [];
       conformance :=
         {| architecture := 80; conventions := 100;
            accessibility := if hasFocus code then 100 else 70 |};
       suggestions :=
         if hasFocus code then []
         else ["Improve accessibility with ARIA and keyboard support"] |}.
Proof.
  rewrite scorePlugin_issues. intros H.
  rewrite scorePlugin_normal_form.
  unfold expectedIssues, architecturePoints, conventionsPoints, accessibilityPoints in *.
  destruct (extendsPlugin parsed); [|discriminate H].
  destruct (hasMethod parsed "_init"); [|discriminate H].
  destruct (hasMethod parsed "_destroy"); [|discriminate H].
  destruct (hasMethod parsed "constructor"); [|discriminate H].
  destruct (namedInPascalCase parsed); [|discriminate H].
  destruct (hasJSDoc code); [|discriminate H].
  destruct (eventsPass code); [|discriminate H].
  destruct (hasAria code); [|discriminate H].
  destruct (hasKeyboard code); [|discriminate H].
  destruct (hasFocus code); reflexivity.
Qed.

Lemma report_without_issues_witness :
  scorePlugin fooSource (parsePluginAst fooAst) =
    {| result_matches := matches;
       issues := [];
       conformance :=
         {| architecture := 80; conventions := 100;
            accessibility := if hasFocus fooSource then 100 else 70 |};
       suggestions :=
         if hasFocus fooSource then []
         else ["Improve accessibility with ARIA and keyboard support"] |}.
Proof.
  apply (report_without_issues fooSource (parsePluginAst fooAst)).
  vm_compute. reflexivity.
Defined.

(** X11: [analyzePattern] rejects in one case only, the failed read of
    an existing path; a syntax error or an unsupported pattern type
    never rejects the call. *)
Theorem analyzePattern_rejects_only_on_failed_read P fs params w e :
  fst (analyzePattern P fs params w) = Err e <->
  fs_access fs (code params) = true /\ fs_readFile fs (code params) = Err e.
Proof.
  rewrite PluginAnalyzerFacts.analyzePattern_unfold. cbv zeta.
  assert (Hd : forall source w',
             fst (match patternType params with
                  | plugin => analyzePluginPattern P source w'
                  | _ => (Ok notImplementedReport, w')
                  end) <> Err e).
  { intros source w'. destruct (patternType params); cbn [fst];
      try (intros H; discriminate H).
    rewrite PluginAnalyzerFacts.analyzePluginPattern_unfold.
    destruct (parsePlugin P source); intros H; discriminate H. }
  destruct (fs_access fs (code params)).
  - destruct (fs_readFile fs (code params)) as [e'|content].
    + cbn [fst]. split.
      * intros H. injection H as ->. split; reflexivity.
      * intros [_ H]. injection H as ->. reflexivity.
    + split.
      * intros H. destruct (Hd _ _ H).
      * intros [_ H]. discriminate H.
  - split.
    + intros H. destruct (Hd _ _ H).
    + intros [H _]. discriminate H.
Qed.

End ScoringFacts.

(** ** The entries of the catalog *)

Module CatalogFacts.
Import JsString Parser Async CodebaseIndexer Samples IndexerSpec CatalogSpec.
Import WorldFacts.


Lemma prefix_app p s : String.prefix p (p +:+ s) = true.
Proof.
  induction p as [|a p IH]; [destruct s; reflexivity|].
  simpl. destruct (ascii_dec a a); [exact IH | congruence].
Qed.


Lemma prefix_split p s : String.prefix p s = true -> s = p +:+ drop (String.length p) s.
Proof.
  revert s. induction p as [|a p IH]; intros s H; [destruct s; reflexivity|].
  destruct s as [|b s]; [discriminate H|].
  simpl in H. destruct (ascii_dec a b) as [->|]; [|discriminate H].
  change (String b s = String b (p +:+ drop (String.length p) s)).
  f_equal. apply IH, H.
Qed.

Lemma span_app p s a b : span p s = (a, b) -> s = a +:+ b.
Proof.
  revert a b. induction s as [|c s IH]; intros a b H.
  - injection H as <- <-. reflexivity.
  - simpl in H. destruct (p c).
    + destruct (span p s) as [a' b'] eqn:Hs. injection H as <- <-.
      change (String c s = String c (a' +:+ b')). f_equal. apply IH. reflexivity.
    + injection H as <- <-. reflexivity.
Qed.

Lemma prefix_app_app p a b : String.prefix (p +:+ a) (p +:+ b) = String.prefix a b.
Proof.
  induction p as [|c p IH]; [reflexivity|].
  change (String.prefix (String c (p +:+ a)) (String c (p +:+ b)) = String.prefix a b).
  simpl. destruct (ascii_dec c c); [exact IH | congruence].
Qed.

Lemma includes_prefix s sub : String.prefix sub s = true -> includes s sub = true.
Proof. intros H. destruct s; cbn [includes]; rewrite H; reflexivity. Qed.

Lemma includes_cons c s sub : includes s sub = true -> includes (String c s) sub = true.
Proof.
  intros H.
  change (includes (String c s) sub)
    with (String.prefix sub (String c s) || includes s sub).
  rewrite H. apply orb_true_r.
Qed.

(** The attribute the selector pattern captures stands in the text. *)
Lemma selectorMatch_sound s m :
  selectorMatch s = Some m ->
  includes s ("[data-" +:+ m +:+ "]") = true /\ truthy m = true.
Proof.
  induction s as [|c s IH]; intros H; [discriminate H|].
  cbn [selectorMatch] in H.
  destruct (String.prefix "[data-" (String c s)) eqn:Hp.
  - destruct (span is_data_char (drop 6 (String c s))) as [found rest] eqn:Hspan.
    destruct (truthy found && String.prefix "]" rest) eqn:Hok.
    + injection H as <-. apply andb_prop in Hok as [Hname Hclose].
      split; [|exact Hname].
      apply includes_prefix.
      rewrite (prefix_split _ _ Hp).
      change (String.length "[data-") with 6%nat.
      rewrite (span_app _ _ _ _ Hspan), (prefix_split _ _ Hclose).
      rewrite prefix_app_app, prefix_app_app. apply prefix_app.
    + destruct (IH H) as [Hin Hname]. split; [|exact Hname].
      apply includes_cons, Hin.
  - destruct (IH H) as [Hin Hname]. split; [|exact Hname].
    apply includes_cons, Hin.
Qed.

Section Entries.
Variable P : Platform.
Variable fs : FileSource.
Variable repo : string.









(** X13: [buildIndex] is rejected exactly when nothing is cached and
    one of the three directory walks cannot list its files; a file
    that cannot be read or parsed never rejects it.  A rejected build
    leaves the cache as it was. *)
Theorem buildIndex_rejected_iff_glob_rejected w :
  (rejected (fst (buildIndex P fs repo w)) = true <->
   cache w !! pluginIndexKey = None /\
   rejected (fs_glob fs (jsDir P repo) "foundation.*.js")
   || rejected (fs_glob fs (scssDir P repo) "*.scss")
   || rejected (fs_glob fs (jsDir P repo) "foundation.util.*.js") = true)
  /\ (rejected (fst (buildIndex P fs repo w)) = true ->
      cache (snd (buildIndex P fs repo w)) = cache w).
Proof.
  rewrite IndexerFacts.buildIndex_unfold.
  destruct (cache w !! pluginIndexKey) as [cached|] eqn:Hget.
  - cbn [fst snd rejected]. split.
    + split; [intros H; discriminate H | intros [H _]; discriminate H].
    + intros H. discriminate H.
  - assert (Hw : rejected (walkAllResult P fs repo) =
                 rejected (fs_glob fs (jsDir P repo) "foundation.*.js")
                 || rejected (fs_glob fs (scssDir P repo) "*.scss")
                 || rejected (fs_glob fs (jsDir P repo) "foundation.util.*.js")).
    { rewrite IndexerFacts.walkAllResult_unfold.
      unfold pluginsWalk, componentsWalk, utilitiesWalk, walkOutcome.
      destruct (fs_glob fs (jsDir P repo) "foundation.*.js");
        destruct (fs_glob fs (scssDir P repo) "*.scss");
        destruct (fs_glob fs (jsDir P repo) "foundation.util.*.js"); reflexivity. }
    rewrite <- Hw.
    destruct (walkAllResult P fs repo) as [e|built]; cbn [fst snd rejected].
    + split; [|intros _; apply cache_logged].
      split; [intros _; split; reflexivity | reflexivity].
    + split; [|intros H; discriminate H].
      split; [intros H; discriminate H | intros [_ H]; discriminate H].
Qed.

(** X14: [buildIndex] stores under the key of the plugin index only:
    every other key of the cache, the key of the component index that
    [invalidateCache] deletes included, is left as it was. *)
Theorem buildIndex_writes_one_key w key :
  key <> pluginIndexKey ->
  cache (snd (buildIndex P fs repo w)) !! key = cache w !! key.
Proof.
  intros Hkey. rewrite IndexerFacts.buildIndex_unfold.
  destruct (cache w !! pluginIndexKey) as [cached|]; [reflexivity|].
  destruct (walkAllResult P fs repo) as [e|built]; cbn [snd cache]; [reflexivity|].
  apply lookup_insert_ne. congruence.
Qed.

(** X15: a plugin file whose source declares no named class is passed
    over without a word: it is read, adds no entry and logs no
    warning. *)
Theorem classless_plugin_file_is_dropped_silently acc file content parsed w :
  skipped file = false ->
  fs_readFile fs file = Ok content ->
  parsePlugin P content = Ok parsed ->
  className parsed = "" ->
  indexPluginFile P fs repo acc file w = (Ok acc, logged w [ReadFile file]).
Proof.
  intros Hskip Hread Hparse Hname.
  rewrite IndexerFacts.indexPluginFile_shape.
  unfold keptPlugins, pluginEvents, pluginFileResult, parsePluginFile, readFile, bind,
    emit, lift, ret.
  rewrite Hskip. cbn [fst snd]. rewrite Hread, Hparse, Hname. cbn [truthy negb fst].
  cbn [kept fileEvents]. rewrite app_nil_r. reflexivity.
Qed.

(** X16: [indexPlugins] never reads a file it passes over by name. *)
Theorem skipped_files_are_never_read w file :
  skipped file = true ->
  ~ In (ReadFile file) (since w (snd (indexPlugins P fs repo w))).
Proof.
  intros Hskip. rewrite IndexerFacts.indexPlugins_unfold. cbn [snd].
  rewrite since_logged. unfold pluginsWalk, walkOutcome.
  destruct (fs_glob fs (jsDir P repo) "foundation.*.js") as [e|files]; cbn [snd].
  - intros [H | []]. discriminate H.
  - intros [H | H]; [discriminate H|].
    apply in_flat_map in H as (f & _ & Hf).
    unfold pluginEvents in Hf. destruct (skipped f) eqn:Hsf; [destruct Hf|].
    unfold fileEvents in Hf. destruct Hf as [Hf | Hf].
    + injection Hf as ->. congruence.
    + destruct (pluginFileResult P fs repo f); [|destruct Hf].
      destruct Hf as [Hf | []]. discriminate Hf.
Qed.

(** X17: the selector of a plugin entry is the first data attribute
    written in the source, brackets included, when the source writes
    one in lower-case letters and hyphens; otherwise it is the data
    attribute named after the slug. *)
Theorem plugin_selector_origin file content p :
  fs_readFile fs file = Ok content ->
  pluginFileResult P fs repo file = Ok (Some p) ->
  match selectorMatch content with
  | Some m =>
      plugin_selector p = "[data-" +:+ m +:+ "]"
      /\ includes content (plugin_selector p) = true
  | None => plugin_selector p = "[data-" +:+ plugin_slug p +:+ "]"
  end.
Proof.
  intros Hread.
  unfold pluginFileResult, parsePluginFile, readFile, bind, emit, lift, ret.
  cbn [fst snd]. rewrite Hread.
  destruct (parsePlugin P content) as [e|parsed]; [intros H; discriminate H|].
  destruct (truthy (className parsed)); cbn [negb fst]; [|intros H; discriminate H].
  intros H. injection H as <-. cbn [plugin_selector plugin_slug].
  destruct (selectorMatch content) as [m|] eqn:Hm; [|reflexivity].
  split; [reflexivity|]. apply (selectorMatch_sound content m Hm).
Qed.

End Entries.

Lemma plugin_selector_origin_witness :
  exists p,
    pluginFileResult samplePluginPlatform (sameEverywhere tabsSource) "/repo"
      "/repo/js/foundation.foo.js" = Ok (Some p)
    /\ plugin_selector p = "[data-tabs]".
Proof.
  destruct (pluginFileResult samplePluginPlatform (sameEverywhere tabsSource) "/repo"
              "/repo/js/foundation.foo.js") as [e|[p|]] eqn:Hres.
  1, 3: vm_compute in Hres; discriminate Hres.
  exists p. split; [reflexivity|].
  pose proof (plugin_selector_origin samplePluginPlatform (sameEverywhere tabsSource)
                "/repo" "/repo/js/foundation.foo.js" tabsSource p eq_refl Hres) as H.
  assert (Hm : selectorMatch tabsSource = Some "tabs") by (vm_compute; reflexivity).
  rewrite Hm in H. exact (proj1 H).
Defined.


Lemma buildIndex_writes_one_key_witness :
  cache (snd (buildIndex samplePlatform tenFilesSource "/repo" world0))
    !! componentIndexKey = None.
Proof.
  rewrite (buildIndex_writes_one_key samplePlatform tenFilesSource "/repo" world0
             componentIndexKey).
  - reflexivity.
  - discriminate.
Defined.

Lemma classless_plugin_file_is_dropped_silently_witness :
  indexPluginFile emptyModulePlatform (sameEverywhere "let x = 1;") "/repo"
    [] "/repo/js/foundation.blank.js" world0 =
  (Ok [], logged world0 [ReadFile "/repo/js/foundation.blank.js"]).
Proof.
  apply (classless_plugin_file_is_dropped_silently emptyModulePlatform
           (sameEverywhere "let x = 1;") "/repo" [] "/repo/js/foundation.blank.js"
           "let x = 1;" (parsePluginAst (Babel.OtherNode []))); reflexivity.
Defined.

Lemma skipped_files_are_never_read_witness :
  ~ In (ReadFile "/repo/js/foundation.util.box.js")
       (since world0 (snd (indexPlugins samplePlatform tenFilesSource "/repo" world0))).
Proof.
  apply (skipped_files_are_never_read samplePlatform tenFilesSource "/repo" world0
           "/repo/js/foundation.util.box.js").
  reflexivity.
Defined.

End CatalogFacts.

(** ** The tool handlers *)

Module HandlerFacts.
Import JsString Parser Async PluginAnalyzer ToolHandler HandlerSpec.

Lemma firstn_filter_Forall {A} (f : A -> bool) n l :
  List.Forall (fun x => f x = true) (firstn n (List.filter f l)).
Proof.
  apply List.Forall_forall. intros x Hx.
  assert (Hin : In x (List.filter f l)).
  { rewrite <- (firstn_skipn n (List.filter f l)). apply in_or_app. left. exact Hx. }
  apply List.filter_In in Hin. apply Hin.
Qed.

(** X18: [find_similar_pattern] returns at most [limit] matches; each
    has similarity 75 and a name or description that contains the
    query, compared in lower case; a search restricted to utilities
    or to tests finds nothing, whatever the catalog holds. *)
Theorem findSimilarMatches_sound index type query limit :
  let found := findSimilarMatches index type query limit in
  (length found <= limit)%nat
  /\ List.Forall
       (fun m => match_similarity m = 75%Z
                 /\ includes (searchedText m) (toLowerCase query) = true) found
  /\ (type = Some utility \/ type = Some test -> found = []).
Proof.
  cbv zeta. unfold findSimilarMatches. cbv zeta. repeat split.
  - rewrite length_map. apply List.firstn_le_length.
  - apply List.Forall_map.
    eapply List.Forall_impl; [|apply firstn_filter_Forall].
    intros item Hitem. split; [reflexivity|].
    unfold searchedText, toMatch. cbn [match_name relevantSnippets join].
    exact Hitem.
  - intros [-> | ->]; cbn [typeAdmits app List.filter];
      rewrite List.firstn_nil; reflexivity.
Qed.

Lemma find_slug {A} (slugOf : A -> string) slug entries :
  match List.find (fun e => slugIs slug (slugOf e)) entries with
  | Some e => In e entries /\ slug = SlugString (slugOf e)
  | None => forall e, In e entries -> slug <> SlugString (slugOf e)
  end.
Proof.
  destruct (List.find _ entries) as [e|] eqn:Hfind.
  - apply List.find_some in Hfind as [Hin Hslug]. split; [exact Hin|].
    destruct slug as [s|other]; [|discriminate Hslug].
    cbn [slugIs] in Hslug. apply String.eqb_eq in Hslug. congruence.
  - intros e Hin Heq. pose proof (List.find_none _ _ Hfind e Hin) as Hno.
    cbn beta in Hno. rewrite Heq in Hno. cbn [slugIs] in Hno.
    rewrite String.eqb_refl in Hno. discriminate Hno.
Qed.

(** X19: [get_plugin_reference] and [get_component_reference] answer
    with the fields of an entry of the catalog that carries the
    requested slug, and throw, naming the slug, exactly when the
    catalog has no such entry; an argument that is not a string is
    never found. *)
Theorem reference_lookup index slug :
  match pluginReference index slug with
  | Returns r =>
      exists p,
        In p (plugins index) /\ slug = SlugString (plugin_slug p)
        /\ ref_name r = plugin_name p /\ ref_slug r = plugin_slug p
        /\ ref_className r = plugin_className p /\ ref_path r = plugin_path p
  | Throws msg =>
      msg = "Plugin not found: " +:+ renderSlug slug
      /\ forall p, In p (plugins index) -> slug <> SlugString (plugin_slug p)
  end
  /\
  match componentReference index slug with
  | Returns r =>
      exists c,
        In c (components index) /\ slug = SlugString (component_slug c)
        /\ cref_name r = component_name c /\ cref_slug r = component_slug c
        /\ cref_cssClasses r = component_cssClasses c
        /\ cref_scssPath r = component_scssPath c
  | Throws msg =>
      msg = "Component not found: " +:+ renderSlug slug
      /\ forall c, In c (components index) -> slug <> SlugString (component_slug c)
  end.
Proof.
  unfold pluginReference, componentReference. split.
  - pose proof (find_slug plugin_slug slug (plugins index)) as H.
    destruct (List.find _ (plugins index)) as [p|].
    + destruct H as [Hin Hslug]. exists p. repeat split; assumption.
    + split; [reflexivity | exact H].
  - pose proof (find_slug component_slug slug (components index)) as H.
    destruct (List.find _ (components index)) as [c|].
    + destruct H as [Hin Hslug]. exists c. repeat split; assumption.
    + split; [reflexivity | exact H].
Qed.

End HandlerFacts.

(** ** Configuration, cache keys and log levels *)

Module ConfigFacts.
Import JsString ToolHandler Config ConfigSpec.



(** X21: what [validateConfig] accepts: a non-empty repository path, a
    Redis address when the backend is redis, and a port that is not
    below 1 or above 65535, which a port that is not a number is not. *)
Theorem validateConfig_accepts_iff config :
  validateConfig config = Returns tt <->
  truthy (foundationRepoPath config) = true
  /\ (backend (cacheConfig config) = "redis" ->
      exists url, redisUrl (cacheConfig config) = Some url /\ truthy url = true)
  /\ (forall n, port config = Some n -> (1 <= n <= 65535)%Z).
Proof.
  unfold validateConfig, noRedisUrl, portOutOfRange.
  destruct (truthy (foundationRepoPath config)); cbn [negb];
    [|split; [intros H; discriminate H | intros [H _]; discriminate H]].
  destruct (String.eqb_spec (backend (cacheConfig config)) "redis") as [Hb|Hb].
  - destruct (redisUrl (cacheConfig config)) as [url|]; cbn [andb negb].
    + destruct (truthy url) eqn:Hurl; cbn [negb].
      * destruct (port config) as [n|].
        -- destruct (n <? 1)%Z eqn:Hlo; cbn [orb].
           ++ split; [intros H; discriminate H|].
              intros (_ & _ & H). specialize (H n eq_refl).
              apply Z.ltb_lt in Hlo. lia.
           ++ destruct (65535 <? n)%Z eqn:Hhi.
              ** split; [intros H; discriminate H|].
                 intros (_ & _ & H). specialize (H n eq_refl).
                 apply Z.ltb_lt in Hhi. lia.
              ** split; [|reflexivity]. intros _.
                 split; [reflexivity|]. split; [intros _; exists url; split; auto|].
                 intros m [= <-]. apply Z.ltb_ge in Hlo, Hhi. lia.
        -- split; [|reflexivity]. intros _.
           split; [reflexivity|]. split; [intros _; exists url; split; auto|].
           intros m H. discriminate H.
      * split; [intros H; discriminate H|].
        intros (_ & H & _). destruct (H Hb) as (url' & [= <-] & Hu). congruence.
    + split; [intros H; discriminate H|].
      intros (_ & H & _). destruct (H Hb) as (url' & Hu & _). discriminate Hu.
  - cbn [andb]. destruct (port config) as [n|].
    + destruct (n <? 1)%Z eqn:Hlo; cbn [orb].
      * split; [intros H; discriminate H|].
        intros (_ & _ & H). specialize (H n eq_refl). apply Z.ltb_lt in Hlo. lia.
      * destruct (65535 <? n)%Z eqn:Hhi.
        -- split; [intros H; discriminate H|].
           intros (_ & _ & H). specialize (H n eq_refl). apply Z.ltb_lt in Hhi. lia.
        -- split; [|reflexivity]. intros _.
           split; [reflexivity|]. split; [intros H; contradiction|].
           intros m [= <-]. apply Z.ltb_ge in Hlo, Hhi. lia.
    + split; [|reflexivity]. intros _.
      split; [reflexivity|]. split; [intros H; contradiction|].
      intros m H. discriminate H.
Qed.

(** X22: the cache keys of different families, or of one family with
    different arguments, are different. *)
Theorem cache_keys_do_not_collide k1 k2 : keyOf k1 = keyOf k2 -> k1 = k2.
Proof.
  destruct k1, k2; cbn [keyOf]; intros H;
    try reflexivity; cbv in H; try discriminate H; injection H as ->; reflexivity.
Qed.

Lemma cache_keys_do_not_collide_witness :
  Plugin "s:index" = Plugin "s:index".
Proof.
  apply (cache_keys_do_not_collide (Plugin "s:index") (Plugin "s:index")).
  reflexivity.
Defined.

(** X23: [shouldLog] is monotone in the level of the message; errors
    are logged under every configured level; and a configured level
    that names none of the four levels lets every message through. *)
Theorem shouldLog_levels configured level :
  (forall level',
      (Logger.levelIndex level <= Logger.levelIndex level')%Z ->
      Logger.shouldLog configured level = true ->
      Logger.shouldLog configured level' = true)
  /\ Logger.shouldLog configured error = true
  /\ Logger.shouldLog None level = true.
Proof.
  unfold Logger.shouldLog. repeat split.
  - intros level' Hle H. apply Z.leb_le in H. apply Z.leb_le. lia.
  - destruct configured as [[]|]; reflexivity.
  - destruct level; reflexivity.
Qed.

End ConfigFacts.

(** ** Rejections and advice of the refactoring analyzer *)

Module RefactoringReportFacts.
Import JsString Parser Async CodebaseIndexer RefactoringAnalyzer.
Import Samples IndexerSpec RefactoringSpec CatalogSpec WorldFacts.

Lemma buildIndex_result_of_cache P fs repo w w1 :
  cache w1 = cache w ->
  fst (buildIndex P fs repo w1) = fst (buildIndex P fs repo w).
Proof.
  intros Hc. rewrite !IndexerFacts.buildIndex_unfold, Hc.
  destruct (cache w !! pluginIndexKey); [reflexivity|].
  destruct (walkAllResult P fs repo); reflexivity.
Qed.



(** X25: the breaking changes listed for a plugin end with the three
    changes every plugin gets, and hold three to eight entries; the
    advice on [_destroy] is given exactly when the source does not
    contain the text destroy, and the advice on ARIA exactly when it
    contains neither ARIA nor aria- . *)
Theorem plugin_breaking_changes code :
  let listed := identifyPluginBreakingChanges code in
  (3 <= length listed <= 8)%nat
  /\ skipn (length listed - 3) listed =
       [ "Data attribute format changes to [data-{slug}]";
         "Selector changes to use Foundation data attributes";
         "Event namespace changes to .zf.{pluginname}" ]
  /\ arrayIncludes listed "Must implement _destroy() for proper cleanup"
     = negb (includes code "destroy")
  /\ arrayIncludes listed "Add ARIA attributes for accessibility compliance"
     = negb (includes code "ARIA") && negb (includes code "aria-").
Proof.
  cbv zeta. unfold identifyPluginBreakingChanges. cbv zeta.
  destruct (includes code "addEventListener"), (includes code "classList"),
    (includes code "dispatchEvent"), (includes code "destroy"),
    (includes code "ARIA"), (includes code "aria-");
    vm_compute; repeat split; lia.
Qed.

(** X26: the breaking changes listed for a component end with the two
    changes every component gets, and hold two to seven entries; the
    advice on px units is given exactly when the source contains px
    and does not contain rem. *)
Theorem component_breaking_changes code :
  let listed := identifyComponentBreakingChanges code in
  (2 <= length listed <= 7)%nat
  /\ skipn (length listed - 2) listed =
       [ "CSS class naming may change to align with Foundation conventions";
         "Layout assumptions may conflict with Foundation grid system" ]
  /\ arrayIncludes listed "Replace px units with rem-calc() for responsive design"
     = includes code "px" && negb (includes code "rem").
Proof.
  cbv zeta. unfold identifyComponentBreakingChanges. cbv zeta.
  destruct (includes code "px"), (includes code "rem"), (includes code "!default"),
    (includes code "@mixin"), (includes code "@include"),
    (includes code "hardcoded colors");
    vm_compute; repeat split; lia.
Qed.

End RefactoringReportFacts.

(** ** The resource handler *)

Module ResourceFacts.
Import JsString Async CodebaseIndexer ToolHandler ResourceHandler.
Import Samples IndexerSpec CatalogSpec ResourceSpec WorldFacts.

Lemma drop_app p s : drop (String.length p) (p +:+ s) = s.
Proof. induction p as [|c p IH]; [destruct s; reflexivity | exact IH]. Qed.

Lemma span_all_then p slug c rest :
  PluginAnalyzer.all_chars p slug = true -> p c = false ->
  span p (slug +:+ String c rest) = (slug, String c rest).
Proof.
  intros Hall Hc. induction slug as [|a slug IH].
  - change ("" +:+ String c rest) with (String c rest).
    cbn [span]. rewrite Hc. reflexivity.
  - cbn [PluginAnalyzer.all_chars] in Hall. apply andb_prop in Hall as [Ha Hall].
    change (String a slug +:+ String c rest) with (String a (slug +:+ String c rest)).
    cbn [span]. rewrite Ha, (IH Hall). reflexivity.
Qed.

Lemma span_first_all p s a b : span p s = (a, b) -> PluginAnalyzer.all_chars p a = true.
Proof.
  revert a b. induction s as [|c s IH]; intros a b H.
  - injection H as <- <-. reflexivity.
  - cbn [span] in H. destruct (p c) eqn:Hc.
    + destruct (span p s) as [a' b'] eqn:Hs. injection H as <- <-.
      cbn [PluginAnalyzer.all_chars]. rewrite Hc. exact (IH _ _ eq_refl).
    + injection H as <- <-. reflexivity.
Qed.

(** What the pattern of a dynamic resource captures, put back together,
    is the address. *)
Lemma dynamicMatch_sound base uri slug kind :
  dynamicMatch base uri = Some (slug, kind) ->
  uri = base +:+ slug +:+ kindSuffix kind /\ addressable slug = true.
Proof.
  unfold dynamicMatch. destruct (String.prefix base uri) eqn:Hp; [|intros H; discriminate H].
  destruct (span not_slash (drop (String.length base) uri)) as [found rest] eqn:Hs.
  destruct (truthy found) eqn:Hf; [|intros H; discriminate H].
  assert (Huri : uri = base +:+ found +:+ rest).
  { rewrite (CatalogFacts.prefix_split _ _ Hp) at 1.
    rewrite (CatalogFacts.span_app _ _ _ _ Hs). reflexivity. }
  assert (Hok : addressable found = true).
  { unfold addressable. rewrite Hf. apply (span_first_all _ _ _ _ Hs). }
  destruct (String.eqb_spec rest "/template") as [->|_].
  - intros H. injection H as <- <-. split; assumption.
  - destruct (String.eqb_spec rest "/docs") as [->|_]; [|intros H; discriminate H].
    intros H. injection H as <- <-. split; assumption.
Qed.

(** Every addressable slug is found again in its address. *)
Lemma dynamicMatch_complete base slug kind :
  addressable slug = true ->
  dynamicMatch base (base +:+ slug +:+ kindSuffix kind) = Some (slug, kind).
Proof.
  unfold addressable. intros H. apply andb_prop in H as [Hf Hall].
  unfold dynamicMatch. rewrite CatalogFacts.prefix_app, drop_app.
  destruct kind; cbn [kindSuffix].
  - rewrite (span_all_then not_slash slug "/" "template" Hall eq_refl), Hf.
    reflexivity.
  - rewrite (span_all_then not_slash slug "/" "docs" Hall eq_refl), Hf.
    reflexivity.
Qed.

Section Reading.
Variable P : Platform.
Variable fs : FileSource.
Variable repo : string.

Lemma readResource_unfold uri w :
  readResource P fs repo uri w =
  (if String.eqb uri "foundation://plugins/index" then getPluginsIndex P fs repo
   else if String.eqb uri "foundation://components/index"
     then getComponentsIndex P fs repo
   else if String.eqb uri "foundation://build/config" then getBuildConfig
   else if String.eqb uri "foundation://architecture/plugins" then getPluginArchitecture
   else if String.eqb uri "foundation://patterns/tests/javascript"
     then getJavaScriptTestPattern
   else if String.eqb uri "foundation://patterns/tests/sass" then getSassTestPattern
   else if String.eqb uri "foundation://integrations/wordpress"
     then getWordPressIntegration
   else
     match dynamicMatch "foundation://plugins/" uri with
     | Some (slug, kind) =>
         match kind with
         | kind_template => getPluginTemplate slug
         | kind_docs => getPluginDocs P fs repo slug
         end
     | None =>
         match dynamicMatch "foundation://components/" uri with
         | Some (slug, kind) =>
             match kind with
             | kind_template => getComponentTemplate slug
             | kind_docs => getComponentDocs P fs repo slug
             end
         | None => ret (Throws ("Resource not found: " +:+ uri))
         end
     end)
    (logged w [Logged debug "Reading resource" uri]).
Proof. reflexivity. Qed.

Ltac fixed_answer H := cbv [ret] in H; injection H as <- _; reflexivity.

Ltac catalog_answer H :=
  unfold getPluginsIndex, getComponentsIndex, getPluginDocs, getComponentDocs, bind, ret
    in H;
  match type of H with
  | context [buildIndex ?P ?fs ?repo ?w] =>
      destruct (buildIndex P fs repo w) as [[?e|?index] ?w2]; [discriminate H|]
  end;
  try match type of H with
      | context [List.find ?f ?l] => destruct (List.find f l); [|discriminate H]
      end;
  injection H as <- _; reflexivity.

(** X27: whatever [readResource] returns is filed under the address it
    was asked for. *)
Theorem readResource_answers_under_requested_uri uri w c w' :
  readResource P fs repo uri w = (Ok (Returns c), w') -> res_uri c = uri.
Proof.
  rewrite readResource_unfold. intros H.
  destruct (String.eqb_spec uri "foundation://plugins/index") as [->|_];
    [catalog_answer H|].
  destruct (String.eqb_spec uri "foundation://components/index") as [->|_];
    [catalog_answer H|].
  destruct (String.eqb_spec uri "foundation://build/config") as [->|_];
    [fixed_answer H|].
  destruct (String.eqb_spec uri "foundation://architecture/plugins") as [->|_];
    [fixed_answer H|].
  destruct (String.eqb_spec uri "foundation://patterns/tests/javascript") as [->|_];
    [fixed_answer H|].
  destruct (String.eqb_spec uri "foundation://patterns/tests/sass") as [->|_];
    [fixed_answer H|].
  destruct (String.eqb_spec uri "foundation://integrations/wordpress") as [->|_];
    [fixed_answer H|].
  destruct (dynamicMatch "foundation://plugins/" uri) as [[slug kind]|] eqn:Hm.
  - apply dynamicMatch_sound in Hm as [-> _].
    destruct kind; [fixed_answer H | catalog_answer H].
  - destruct (dynamicMatch "foundation://components/" uri) as [[slug kind]|] eqn:Hc.
    + apply dynamicMatch_sound in Hc as [-> _].
      destruct kind; [fixed_answer H | catalog_answer H].
    + discriminate H.
Qed.

Ltac literal_comparisons :=
  repeat match goal with
         | |- context [String.eqb ?a ?b] =>
             let v := eval vm_compute in (String.eqb a b) in
             change (String.eqb a b) with v; cbv iota
         end.

(** X28: every address [listResources] announces is served by
    [readResource] under that address and with the announced content
    type; the two catalog listings fail only when the index build is
    rejected, the others never. *)
Theorem listed_resources_are_served w :
  List.Forall
    (fun listed =>
       match fst (readResource P fs repo (listed_uri listed) w) with
       | Ok (Returns c) =>
           res_uri c = listed_uri listed /\ res_mimeType c = listed_mimeType listed
       | Ok (Throws _) => False
       | Err _ => rejected (fst (buildIndex P fs repo w)) = true
       end)
    listResources.
Proof.
  unfold listResources.
  repeat (apply List.Forall_cons; [|]); try apply List.Forall_nil;
    rewrite readResource_unfold; cbn [listed_uri listed_mimeType];
    literal_comparisons; try (split; reflexivity).
  - unfold getPluginsIndex, bind, ret.
    rewrite <- (RefactoringReportFacts.buildIndex_result_of_cache P fs repo w
                  (logged w [Logged debug "Reading resource" "foundation://plugins/index"])
                  (cache_logged _ _)).
    destruct (buildIndex P fs repo _) as [[e|index] w2]; cbn [fst rejected];
      [reflexivity | split; reflexivity].
  - unfold getComponentsIndex, bind, ret.
    rewrite <- (RefactoringReportFacts.buildIndex_result_of_cache P fs repo w
                  (logged w
                     [Logged debug "Reading resource" "foundation://components/index"])
                  (cache_logged _ _)).
    destruct (buildIndex P fs repo _) as [[e|index] w2]; cbn [fst rejected];
      [reflexivity | split; reflexivity].
Qed.

Lemma length_append a b :
  String.length (a +:+ b) = (String.length a + String.length b)%nat.
Proof.
  induction a as [|c a IH]; [reflexivity|].
  change (String c a +:+ b) with (String c (a +:+ b)).
  cbn [String.length]. rewrite IH. reflexivity.
Qed.

Lemma append_longer a b (short : string) :
  (String.length short < String.length b)%nat -> a +:+ b <> short.
Proof.
  intros Hlen Heq. apply (f_equal String.length) in Heq.
  rewrite length_append in Heq. lia.
Qed.

(** X29: the template of a plugin or of a component is served for
    every slug an address can carry, whether or not the catalog knows
    it, and without consulting the index: the only effect is the
    debug line. *)
Theorem templates_need_no_catalog slug w :
  addressable slug = true ->
  readResource P fs repo ("foundation://plugins/" +:+ slug +:+ "/template") w =
    (Ok (Returns
       {| res_uri := "foundation://plugins/" +:+ slug +:+ "/template";
          res_mimeType := "text/plain";
          res_body :=
            PlainText "// Use generate_plugin tool to create plugin template" |}),
     logged w [Logged debug "Reading resource"
                 ("foundation://plugins/" +:+ slug +:+ "/template")])
  /\ readResource P fs repo ("foundation://components/" +:+ slug +:+ "/template") w =
    (Ok (Returns
       {| res_uri := "foundation://components/" +:+ slug +:+ "/template";
          res_mimeType := "text/plain";
          res_body :=
            PlainText "// Use generate_component tool to create component template" |}),
     logged w [Logged debug "Reading resource"
                 ("foundation://components/" +:+ slug +:+ "/template")]).
Proof.
  intros Hslug.
  assert (Hindex : slug +:+ "/template" <> "index").
  { apply append_longer. cbn. lia. }
  split; rewrite readResource_unfold.
  - repeat match goal with
           | |- context [String.eqb ("foundation://plugins/" +:+ slug +:+ "/template") ?b] =>
               destruct (String.eqb_spec
                           ("foundation://plugins/" +:+ slug +:+ "/template") b)
                 as [Heq|_];
               [exfalso; cbv [append] in Heq; fold append in Heq;
                first [discriminate Heq | injection Heq as Heq; exact (Hindex Heq)]|]
           end.
    pose proof (dynamicMatch_complete "foundation://plugins/" slug kind_template Hslug)
      as Hm.
    cbn [kindSuffix] in Hm. rewrite Hm. reflexivity.
  - repeat match goal with
           | |- context [String.eqb ("foundation://components/" +:+ slug +:+ "/template") ?b] =>
               destruct (String.eqb_spec
                           ("foundation://components/" +:+ slug +:+ "/template") b)
                 as [Heq|_];
               [exfalso; cbv [append] in Heq; fold append in Heq;
                first [discriminate Heq | injection Heq as Heq; exact (Hindex Heq)]|]
           end.
    assert (Hother : dynamicMatch "foundation://plugins/"
                       ("foundation://components/" +:+ slug +:+ "/template") = None).
    { reflexivity. }
    rewrite Hother.
    pose proof (dynamicMatch_complete "foundation://components/" slug kind_template
                  Hslug) as Hm.
    cbn [kindSuffix] in Hm. rewrite Hm. reflexivity.
Qed.

End Reading.

Lemma readResource_answers_under_requested_uri_witness :
  exists c w',
    readResource samplePlatform withoutFiles "/repo"
      "foundation://plugins/dropdown/docs" tinyWorld = (Ok (Returns c), w')
    /\ res_uri c = "foundation://plugins/dropdown/docs".
Proof.
  destruct (readResource samplePlatform withoutFiles "/repo"
              "foundation://plugins/dropdown/docs" tinyWorld)
    as [[e|[message|c]] w'] eqn:Hread.
  1, 2: vm_compute in Hread; discriminate Hread.
  exists c, w'. split; [reflexivity|].
  exact (readResource_answers_under_requested_uri samplePlatform withoutFiles "/repo"
           "foundation://plugins/dropdown/docs" tinyWorld c w' Hread).
Defined.

Lemma templates_need_no_catalog_witness :
  fst (readResource samplePlatform withoutFiles "/repo"
         "foundation://plugins/no-such-plugin/template" world0) =
  Ok (Returns
        {| res_uri := "foundation://plugins/no-such-plugin/template";
           res_mimeType := "text/plain";
           res_body :=
             PlainText "// Use generate_plugin tool to create plugin template" |}).
Proof.
  pose proof (templates_need_no_catalog samplePlatform withoutFiles "/repo"
                "no-such-plugin" world0 eq_refl) as [H _].
  change ("foundation://plugins/" +:+ "no-such-plugin" +:+ "/template")
    with "foundation://plugins/no-such-plugin/template" in H.
  rewrite H. reflexivity.
Defined.

End ResourceFacts.
